(** * MicoJoystick: the joystick driver of the MicroDigital Mico, in Rocq

    A shallow embedding of the driver's C source (the module body that
    follows MicoJoyErr.h): the static variables become one store, every
    function becomes a function on that store, and the hardware and the
    operating system (gameport byte, IOC timer 0, OS_CallEvery,
    OS_RemoveTickerEvent) become explicit inputs.  The target is a 32-bit
    ARM: [unsigned int] and [int] are 32 bits wide, and every wrap-around
    is written out. *)

From Stdlib Require Import ZArith List Bool String Lia.
Import ListNotations.
Local Open Scope Z_scope.

(** ** 32-bit C arithmetic *)

Module Word.

Definition modulus : Z := 2 ^ 32.
Definition UINT_MAX : Z := 2 ^ 32 - 1.

(** Conversion to [unsigned int]. *)
Definition u32 (z : Z) : Z := z mod modulus.

(** Conversion to [int] (two's complement, as the ARM compilers do). *)
Definition s32 (z : Z) : Z :=
  if u32 z <? 2 ^ 31 then u32 z else u32 z - modulus.

Definition uadd (a b : Z) : Z := u32 (a + b).
Definition usub (a b : Z) : Z := u32 (a - b).
Definition umul (a b : Z) : Z := u32 (a * b).
Definition uneg (a : Z) : Z := u32 (- a).
(** [~a] on an [unsigned int]. *)
Definition unot (a : Z) : Z := u32 (Z.lnot a).
(** [a / b] on [unsigned int]s, [b] not zero. *)
Definition udiv (a b : Z) : Z := u32 a / u32 b.

Definition in_u32 (z : Z) : Prop := 0 <= z < modulus.

End Word.
Import Word.

(** ** Arrays of NUM_STICKS elements *)

Definition NUM_STICKS : nat := 2.

(** [unsigned int a[NUM_STICKS]].  Every index the source uses is a loop
    counter running from NUM_STICKS-1 down to 0, or was compared with
    NUM_STICKS before; outside that range a read gives 0 and a write does
    nothing in this model. *)
Record arr : Type := mkArr { elt0 : Z; elt1 : Z }.

Definition get (a : arr) (i : nat) : Z :=
  match i with
  | O => elt0 a
  | S O => elt1 a
  | _ => 0
  end.

Definition set (a : arr) (i : nat) (v : Z) : arr :=
  match i with
  | O => mkArr v (elt1 a)
  | S O => mkArr (elt0 a) v
  | _ => a
  end.

(** ** The driver's static variables *)

(** The per-stick arrays, by name. *)
Inductive avar : Set :=
  | x_axis | y_axis
  | x_min | x_max | y_min | y_max
  | x_ctr_deadz | y_ctr_deadz | x_ctr | y_ctr
  | x_end_deadz | y_end_deadz
  | x_smooth | y_smooth
  | x_ctr_low | y_ctr_low | x_ctr_high | y_ctr_high
  | x_low_scaler | x_high_scaler | y_low_scaler | y_high_scaler.

Scheme Equality for avar.

(** The values used in the actual conversion, computed by
    [recalc_coefficients]. *)
Definition derived (a : avar) : bool :=
  match a with
  | x_ctr_low | y_ctr_low | x_ctr_high | y_ctr_high
  | x_low_scaler | x_high_scaler | y_low_scaler | y_high_scaler => true
  | _ => false
  end.

Definition CALIB_NONE : Z := 0.
Definition CALIB_TOP_RIGHT : Z := 1.
Definition CALIB_BOTTOM_LEFT : Z := 2.

Record state : Type := mkState {
  arrays : avar -> arr;
  calib_status : Z;
  axes_mask : Z;
  polling_stick : bool;
  swi_in_last_min : bool;
  callback_pending : bool;
  callback_free : bool;
  max_wait : Z;
  tolerance : Z;
  smooth : bool;
  end_zones : bool;
  ctr_zones : bool;
  poll_freq : Z
}.

Definition set_arrays (st : state) (f : avar -> arr) : state :=
  mkState f (calib_status st) (axes_mask st) (polling_stick st)
    (swi_in_last_min st) (callback_pending st) (callback_free st)
    (max_wait st) (tolerance st) (smooth st) (end_zones st) (ctr_zones st)
    (poll_freq st).

Definition set_calib_status (st : state) (v : Z) : state :=
  mkState (arrays st) v (axes_mask st) (polling_stick st)
    (swi_in_last_min st) (callback_pending st) (callback_free st)
    (max_wait st) (tolerance st) (smooth st) (end_zones st) (ctr_zones st)
    (poll_freq st).

Definition set_axes_mask (st : state) (v : Z) : state :=
  mkState (arrays st) (calib_status st) v (polling_stick st)
    (swi_in_last_min st) (callback_pending st) (callback_free st)
    (max_wait st) (tolerance st) (smooth st) (end_zones st) (ctr_zones st)
    (poll_freq st).

Definition set_polling_stick (st : state) (v : bool) : state :=
  mkState (arrays st) (calib_status st) (axes_mask st) v
    (swi_in_last_min st) (callback_pending st) (callback_free st)
    (max_wait st) (tolerance st) (smooth st) (end_zones st) (ctr_zones st)
    (poll_freq st).

Definition set_swi_in_last_min (st : state) (v : bool) : state :=
  mkState (arrays st) (calib_status st) (axes_mask st) (polling_stick st)
    v (callback_pending st) (callback_free st)
    (max_wait st) (tolerance st) (smooth st) (end_zones st) (ctr_zones st)
    (poll_freq st).

Definition set_callback_pending (st : state) (v : bool) : state :=
  mkState (arrays st) (calib_status st) (axes_mask st) (polling_stick st)
    (swi_in_last_min st) v (callback_free st)
    (max_wait st) (tolerance st) (smooth st) (end_zones st) (ctr_zones st)
    (poll_freq st).

Definition set_callback_free (st : state) (v : bool) : state :=
  mkState (arrays st) (calib_status st) (axes_mask st) (polling_stick st)
    (swi_in_last_min st) (callback_pending st) v
    (max_wait st) (tolerance st) (smooth st) (end_zones st) (ctr_zones st)
    (poll_freq st).

Definition set_max_wait (st : state) (v : Z) : state :=
  mkState (arrays st) (calib_status st) (axes_mask st) (polling_stick st)
    (swi_in_last_min st) (callback_pending st) (callback_free st)
    v (tolerance st) (smooth st) (end_zones st) (ctr_zones st)
    (poll_freq st).

Definition set_tolerance (st : state) (v : Z) : state :=
  mkState (arrays st) (calib_status st) (axes_mask st) (polling_stick st)
    (swi_in_last_min st) (callback_pending st) (callback_free st)
    (max_wait st) v (smooth st) (end_zones st) (ctr_zones st)
    (poll_freq st).

Definition set_smooth (st : state) (v : bool) : state :=
  mkState (arrays st) (calib_status st) (axes_mask st) (polling_stick st)
    (swi_in_last_min st) (callback_pending st) (callback_free st)
    (max_wait st) (tolerance st) v (end_zones st) (ctr_zones st)
    (poll_freq st).

Definition set_end_zones (st : state) (v : bool) : state :=
  mkState (arrays st) (calib_status st) (axes_mask st) (polling_stick st)
    (swi_in_last_min st) (callback_pending st) (callback_free st)
    (max_wait st) (tolerance st) (smooth st) v (ctr_zones st)
    (poll_freq st).

Definition set_ctr_zones (st : state) (v : bool) : state :=
  mkState (arrays st) (calib_status st) (axes_mask st) (polling_stick st)
    (swi_in_last_min st) (callback_pending st) (callback_free st)
    (max_wait st) (tolerance st) (smooth st) (end_zones st) v
    (poll_freq st).

Definition set_poll_freq (st : state) (v : Z) : state :=
  mkState (arrays st) (calib_status st) (axes_mask st) (polling_stick st)
    (swi_in_last_min st) (callback_pending st) (callback_free st)
    (max_wait st) (tolerance st) (smooth st) (end_zones st) (ctr_zones st)
    v.

(** [a[i]] and [a[i] = v] on a named array. *)
Definition rd (st : state) (a : avar) (i : nat) : Z := get (arrays st a) i.

Definition wr (st : state) (a : avar) (i : nat) (v : Z) : state :=
  set_arrays st
    (fun b => if avar_beq a b then set (arrays st a) i v else arrays st b).

(** A whole array at once: what a callee wrote through a pointer to it. *)
Definition wr_arr (st : state) (a : avar) (v : arr) : state :=
  set_arrays st (fun b => if avar_beq a b then v else arrays st b).

(** [for(stick_num = (NUM_STICKS-1); stick_num >= 0; stick_num--)] *)
Definition stick_loop : list nat := [1%nat; 0%nat].

Definition for_sticks (body : state -> nat -> state) (st : state) : state :=
  fold_left body stick_loop st.

(** [sticks & (1u << stick_num)] *)
Definition stick_selected (sticks : Z) (stick_num : nat) : bool :=
  negb (Z.land sticks (Z.shiftl 1 (Z.of_nat stick_num)) =? 0).

Definition STICK_0 : Z := 1.
Definition STICK_1 : Z := 2.

(** ** recalc_coefficients *)

Definition SCALER_FRAC_SHIFT : Z := 14.

(** The [safedivide] macro: [int div = divisor; if(div != 0) quotient =
    (dividend) / (divisor); else quotient = 0;].  The dividend is the [int]
    constant [32768<<14] and the divisor an [unsigned int], so the division
    itself is unsigned. *)
Definition safedivide (dividend divisor : Z) : Z :=
  let div := s32 divisor in
  if negb (div =? 0) then udiv dividend divisor else 0.

(** The first block of the loop body: the limits of the centre dead
    zone. *)
Definition recalc_centre (st : state) (stick_num : nat) : state :=
  let x_ctr_dz := if ctr_zones st then rd st x_ctr_deadz stick_num else 0 in
  let y_ctr_dz := if ctr_zones st then rd st y_ctr_deadz stick_num else 0 in
  let st := wr st x_ctr_low stick_num (usub (rd st x_ctr stick_num) x_ctr_dz) in
  let st := wr st x_ctr_high stick_num (uadd (rd st x_ctr stick_num) x_ctr_dz) in
  let st := wr st y_ctr_low stick_num (usub (rd st y_ctr stick_num) y_ctr_dz) in
  let st := wr st y_ctr_high stick_num (uadd (rd st y_ctr stick_num) y_ctr_dz) in
  st.

(** The second block: the four scalers. *)
Definition recalc_scalers (st : state) (stick_num : nat) : state :=
  let x_end_dz := if end_zones st then rd st x_end_deadz stick_num else 0 in
  let y_end_dz := if end_zones st then rd st y_end_deadz stick_num else 0 in
  let st := wr st x_low_scaler stick_num
    (safedivide (Z.shiftl 32768 SCALER_FRAC_SHIFT)
       (usub (rd st x_ctr_low stick_num)
             (uadd (rd st x_min stick_num) x_end_dz))) in
  let st := wr st x_high_scaler stick_num
    (safedivide (Z.shiftl 32768 SCALER_FRAC_SHIFT)
       (usub (usub (rd st x_max stick_num) x_end_dz)
             (rd st x_ctr_high stick_num))) in
  let st := wr st y_low_scaler stick_num
    (safedivide (Z.shiftl 32768 SCALER_FRAC_SHIFT)
       (usub (rd st y_ctr_low stick_num)
             (uadd (rd st y_min stick_num) y_end_dz))) in
  let st := wr st y_high_scaler stick_num
    (safedivide (Z.shiftl 32768 SCALER_FRAC_SHIFT)
       (usub (usub (rd st y_max stick_num) y_end_dz)
             (rd st y_ctr_high stick_num))) in
  st.

Definition recalc_stick (st : state) (stick_num : nat) : state :=
  recalc_scalers (recalc_centre st stick_num) stick_num.

Definition recalc_coefficients (sticks : Z) (st : state) : state :=
  for_sticks
    (fun st stick_num =>
       if stick_selected sticks stick_num then recalc_stick st stick_num
       else st)
    st.

(** ** The operating system and the hardware, as seen by the module *)

(** The error blocks of errors.a, the CMHG constant [error_BAD_SWI], and an
    error block of the operating system, by its error number. *)
Inductive oserror : Set :=
  | error_command_syntax
  | gameport_not_found
  | bad_joy_num
  | bad_reason
  | error_calib
  | error_BAD_SWI
  | os_error (errnum : Z).

(** [_kernel_swi_regs]: the handler reads and writes r0 and r1 only.  A
    register is kept as the unsigned reading of its 32 bits. *)
Record regs : Type := mkRegs { r0 : Z; r1 : Z }.

(** One pass of the timing loop of [read_joystick] sees the gameport status
    byte and the two bytes of IOC timer 0. *)
Record sample : Type := mkSample {
  port_byte : Z;
  timer_low : Z;
  timer_high : Z
}.

(** One call of [read_joystick]: the timer bytes latched after the strobe,
    then what each pass of the loop sees. *)
Record cycle : Type := mkCycle {
  start_low : Z;
  start_high : Z;
  samples : list sample
}.

(** What the world does during one entry into the module: the results of
    the OS_CallEvery, OS_RemoveTickerEvent and OS_AddCallBack SWIs ([None]
    is a NULL error pointer, [Some n] the system's error block number [n]), the gameport byte read for the fire buttons,
    and the acquisition cycles that the entry runs. *)
Record environment : Type := mkEnv {
  CallEvery : option Z;
  RemoveTickerEvent : option Z;
  AddCallBack : option Z;
  game_port : Z;
  cycles : list cycle
}.

Definition PC_JOY_A_X : Z := Z.shiftl 1 0.
Definition PC_JOY_A_Y : Z := Z.shiftl 1 1.
Definition PC_JOY_B_X : Z := Z.shiftl 1 2.
Definition PC_JOY_B_Y : Z := Z.shiftl 1 3.
Definition PC_JOY_A_B1 : Z := Z.shiftl 1 4.
Definition PC_JOY_A_B2 : Z := Z.shiftl 1 5.
Definition PC_JOY_B_B1 : Z := Z.shiftl 1 6.
Definition PC_JOY_B_B2 : Z := Z.shiftl 1 7.

(** ** Joystick_Read: conversion of the cached timings *)

(** The offset from the centre dead zone, scaled:
    [(scaler * distance) >> shift], in [unsigned int]. *)
Definition scaled (scaler distance shift : Z) : Z :=
  Z.shiftr (umul scaler distance) shift.

(** "Make absolutely sure value within range" *)
Definition clamp (lo hi x : Z) : Z :=
  if x <? lo then lo else if x >? hi then hi else x.

Definition read8_x (st : state) (stick_num : nat) : Z :=
  let x :=
    if rd st x_axis stick_num >? rd st x_ctr_low stick_num then
      if rd st x_axis stick_num <? rd st x_ctr_high stick_num then 0
      else
        s32 (scaled (rd st x_high_scaler stick_num)
               (usub (rd st x_axis stick_num) (rd st x_ctr_high stick_num))
               (SCALER_FRAC_SHIFT + 8))
    else
      s32 (uneg (scaled (rd st x_low_scaler stick_num)
                   (usub (rd st x_ctr_low stick_num) (rd st x_axis stick_num))
                   (SCALER_FRAC_SHIFT + 8)))
  in clamp (-127) 127 x.

Definition read8_y (st : state) (stick_num : nat) : Z :=
  let y :=
    if rd st y_axis stick_num >? rd st y_ctr_low stick_num then
      if rd st y_axis stick_num <? rd st y_ctr_high stick_num then 0
      else
        s32 (uneg (scaled (rd st y_high_scaler stick_num)
                     (usub (rd st y_axis stick_num) (rd st y_ctr_high stick_num))
                     (SCALER_FRAC_SHIFT + 8)))
    else
      s32 (scaled (rd st y_low_scaler stick_num)
             (usub (rd st y_ctr_low stick_num) (rd st y_axis stick_num))
             (SCALER_FRAC_SHIFT + 8))
  in clamp (-127) 127 y.

Definition read16_x (st : state) (stick_num : nat) : Z :=
  let x :=
    if rd st x_axis stick_num >? rd st x_ctr_low stick_num then
      if rd st x_axis stick_num <? rd st x_ctr_high stick_num then 32767
      else
        s32 (uadd 32767
               (scaled (rd st x_high_scaler stick_num)
                  (usub (rd st x_axis stick_num) (rd st x_ctr_high stick_num))
                  SCALER_FRAC_SHIFT))
    else
      s32 (usub 32767
             (scaled (rd st x_low_scaler stick_num)
                (usub (rd st x_ctr_low stick_num) (rd st x_axis stick_num))
                SCALER_FRAC_SHIFT))
  in clamp 0 65535 x.

Definition read16_y (st : state) (stick_num : nat) : Z :=
  let y :=
    if rd st y_axis stick_num >? rd st y_ctr_low stick_num then
      if rd st y_axis stick_num <? rd st y_ctr_high stick_num then 32767
      else
        s32 (usub 32767
               (scaled (rd st y_high_scaler stick_num)
                  (usub (rd st y_axis stick_num) (rd st y_ctr_high stick_num))
                  SCALER_FRAC_SHIFT))
    else
      s32 (uadd 32767
             (scaled (rd st y_low_scaler stick_num)
                (usub (rd st y_ctr_low stick_num) (rd st y_axis stick_num))
                SCALER_FRAC_SHIFT))
  in clamp 0 65535 y.

(** "Read fire buttons": a clear status bit is a pushed button. *)
Definition fire_buttons (joy : Z) (stick_num : nat) (b1 b2 : Z) : Z :=
  let buttons := 0 in
  match stick_num with
  | O =>
      let buttons :=
        if Z.land joy PC_JOY_A_B1 =? 0 then Z.lor buttons b1 else buttons in
      if Z.land joy PC_JOY_A_B2 =? 0 then Z.lor buttons b2 else buttons
  | _ =>
      let buttons :=
        if Z.land joy PC_JOY_B_B1 =? 0 then Z.lor buttons b1 else buttons in
      if Z.land joy PC_JOY_B_B2 =? 0 then Z.lor buttons b2 else buttons
  end.

(** "We must assume that all values are terribly out of date": the cached
    timings go back to the centre values, through the [int] locals [xc] and
    [yc]. *)
Definition reseed_stick (st : state) (stick_num : nat) : state :=
  let xc := s32 (rd st x_ctr stick_num) in
  let yc := s32 (rd st y_ctr stick_num) in
  let st := wr st x_axis stick_num (u32 xc) in
  wr st y_axis stick_num (u32 yc).

(** [case (Joystick_Read-Joystick_00):] up to [switch(reason_code)]. *)
Definition read_result (r : regs) (joy : Z) (st : state)
  : option oserror * regs :=
  let stick_num := Z.land (r0 r) 255 in
  let reason_code := Z.shiftr (Z.land (r0 r) 65280) 8 in
  if reason_code =? 0 then
    if stick_num <? Z.of_nat NUM_STICKS then
      let n := Z.to_nat stick_num in
      let x := read8_x st n in
      let y := read8_y st n in
      let packed := Z.lor (Z.land y 255) (Z.shiftl (Z.land x 255) 8) in
      let buttons := fire_buttons joy n (Z.shiftl 1 16) (Z.shiftl 1 17) in
      (None, mkRegs (Z.lor packed buttons) (r1 r))
    else (None, mkRegs 0 (r1 r))
  else if reason_code =? 1 then
    if stick_num <? Z.of_nat NUM_STICKS then
      let n := Z.to_nat stick_num in
      let x := read16_x st n in
      let y := read16_y st n in
      let packed := u32 (Z.lor (Z.land y 65535) (Z.shiftl x 16)) in
      let buttons := fire_buttons joy n (Z.shiftl 1 0) (Z.shiftl 1 1) in
      (None, mkRegs packed buttons)
    else (None, mkRegs 2147450879 0)
  else (Some bad_reason, r).

Definition swi_Joystick_Read (r : regs) (env : environment) (st : state)
  : option oserror * regs * state :=
  if negb (calib_status st =? CALIB_NONE) then (Some error_calib, r, st)
  else
    let st := set_swi_in_last_min st true in
    if negb (polling_stick st) then
      match CallEvery env with
      | Some e => (Some (os_error e), r, st)
      | None =>
          let st := set_polling_stick st true in
          let st := for_sticks reseed_stick st in
          (read_result r (game_port env) st, st)
      end
    else (read_result r (game_port env) st, st).

(** ** smooth_value *)

Definition smooth_value (prev_value new_value stddev : Z) : Z :=
  if (new_value >=? usub prev_value stddev)
     && (new_value <=? uadd prev_value stddev)
  then udiv (uadd (umul prev_value 3) new_value) 4
  else if (new_value >=? usub prev_value (umul stddev 2))
          && (new_value <=? uadd prev_value (umul stddev 2))
  then udiv (uadd prev_value new_value) 2
  else if (new_value >=? usub prev_value (umul stddev 4))
          && (new_value <=? uadd prev_value (umul stddev 4))
  then udiv (uadd (umul new_value 3) prev_value) 4
  else new_value.

(** ** read_joystick *)

(** The locals of [read_joystick].  [prev_time] and [wait] are [int]s, the
    others [unsigned int]s. *)
Record acq : Type := mkAcq {
  mask : Z;
  start_time : Z;
  prev_time : Z;
  wait : Z;
  new_x : arr;
  new_y : arr;
  sticks_lost : Z
}.

(** [(unsigned int)(ioc->timer_0.low[0] + (ioc->timer_0.high[0] << 8))] *)
Definition ioc_timer_0 (low high : Z) : Z := u32 (low + Z.shiftl high 8).

(** The part of one pass that follows the clock: the wrap of timer 0, the
    time since the strobe and the time since the previous pass.  Returns the
    new [start_time], [prev_time] and [wait], and [interval]. *)
Definition clock_pass (s : sample) (start_time prev_time : Z)
  : Z * Z * Z * Z :=
  let new_time := ioc_timer_0 (timer_low s) (timer_high s) in
  let wrapped := new_time >? start_time in
  let start_time := if wrapped then uadd start_time 20000 else start_time in
  let prev_time := if wrapped then s32 (prev_time + 20000) else prev_time in
  let wait := s32 (usub start_time new_time) in
  let interval := usub (u32 prev_time) new_time in
  let prev_time := s32 new_time in
  (start_time, prev_time, wait, interval).

(** One of the four blocks [if (joy & PC_JOY_..) { ... }]. *)
Definition axis_pass (tol interval joy bit : Z) (is_x : bool)
    (stick_num : nat) (stick : Z) (a : acq) : acq :=
  if negb (Z.land joy bit =? 0) then
    let nx :=
      if (interval <=? tol) && is_x
      then set (new_x a) stick_num (u32 (wait a)) else new_x a in
    let ny :=
      if (interval <=? tol) && negb is_x
      then set (new_y a) stick_num (u32 (wait a)) else new_y a in
    let lost :=
      if interval <=? tol then sticks_lost a
      else Z.lor (sticks_lost a) stick in
    mkAcq (Z.land (mask a) (unot bit)) (start_time a) (prev_time a) (wait a)
      nx ny lost
  else a.

(** The body of [while (mask != 0 && wait < max_wait)]. *)
Definition loop_pass (st : state) (s : sample) (a : acq) : acq :=
  let joy := unot (port_byte s) in
  let '(start_time', prev_time', wait', interval) :=
    clock_pass s (start_time a) (prev_time a) in
  let a := mkAcq (mask a) start_time' prev_time' wait' (new_x a) (new_y a)
             (sticks_lost a) in
  let joy := Z.land joy (mask a) in
  let tol := tolerance st in
  let a := axis_pass tol interval joy PC_JOY_A_X true 0 STICK_0 a in
  let a := axis_pass tol interval joy PC_JOY_A_Y false 0 STICK_0 a in
  let a := axis_pass tol interval joy PC_JOY_B_X true 1 STICK_1 a in
  let a := axis_pass tol interval joy PC_JOY_B_Y false 1 STICK_1 a in
  a.

Definition loop_running (st : state) (a : acq) : bool :=
  negb (mask a =? 0) && (u32 (wait a) <? max_wait st).

(** The timing loop over what the hardware shows, pass by pass.  [None]:
    the loop is still running when the observations end. *)
Fixpoint timing_loop (st : state) (ss : list sample) (a : acq)
  : option acq :=
  if loop_running st a then
    match ss with
    | [] => None
    | s :: ss' => timing_loop st ss' (loop_pass st s a)
    end
  else Some a.

(** One of the two blocks in the last loop of [read_joystick]: the new
    timing of an axis goes into its cache, smoothed or not; UINT_MAX marks
    an axis without a new timing.  [cache] is x_axis or y_axis, [width]
    x_smooth or y_smooth, [new] new_x or new_y. *)
Definition commit_axis (cache width : avar) (new : arr) (st : state)
    (stick_num : nat) : state :=
  if negb (get new stick_num =? UINT_MAX) then
    if smooth st && (rd st width stick_num >? 0) then
      wr st cache stick_num
        (smooth_value (rd st cache stick_num) (get new stick_num)
           (rd st width stick_num))
    else wr st cache stick_num (get new stick_num)
  else st.

(** The body of that loop: the X axis, then the Y axis. *)
Definition commit_stick (a : acq) (st : state) (stick_num : nat) : state :=
  let st := commit_axis x_axis x_smooth (new_x a) st stick_num in
  commit_axis y_axis y_smooth (new_y a) st stick_num.

(** The locals when the timing loop is entered: the strobe has been
    written and timer 0 latched. *)
Definition acq_start (mask : Z) (c : cycle) : acq :=
  let start_time := ioc_timer_0 (start_low c) (start_high c) in
  mkAcq mask start_time (s32 start_time) 0
    (mkArr UINT_MAX UINT_MAX) (mkArr UINT_MAX UINT_MAX) 0.

(** [axes] is the parameter [mask] on entry.  Returns the updated mask (bits
    set are axes that timed out), what is stored through [lost] when it is
    not NULL, and the store. *)
Definition read_joystick (axes : Z) (c : cycle) (st : state)
  : option (Z * Z * state) :=
  match timing_loop st (samples c) (acq_start axes c) with
  | None => None
  | Some a =>
      Some (mask a, sticks_lost a,
            for_sticks (commit_stick a) st)
  end.

(** ** get_av_stick_pos *)

Definition NUM_TEST_RUNS : Z := 32.
Definition MAX_AXIS_WAIT_TIME : Z := 2000.

Definition X_BIAS_MIN : Z := Z.shiftl 1 0.
Definition X_BIAS_MAX : Z := Z.shiftl 1 1.
Definition Y_BIAS_MIN : Z := Z.shiftl 1 2.
Definition Y_BIAS_MAX : Z := Z.shiftl 1 3.

(** The [absdiff] macro, on [unsigned int]s. *)
Definition absdiff (x y : Z) : Z := if x >? y then usub x y else usub y x.

(** The local arrays of [get_av_stick_pos].  They are uninitialised in C;
    every element is written before it is read (for [last_y], because
    [last_x] is tested first), so the model starts them at 0. *)
Record av_locals : Type := mkAv {
  x_tot : arr; y_tot : arr;
  x_jit_max : arr; x_jit_min : arr;
  y_jit_max : arr; y_jit_min : arr;
  last_x : arr; last_y : arr
}.

(** The four arrays written through the pointer parameters. *)
Record av_out : Type := mkOut {
  x_array : arr; y_array : arr;
  x_jitdist : arr; y_jitdist : arr
}.

Definition av_init_stick (sticks : Z) (l : av_locals) (stick_num : nat)
  : av_locals :=
  if stick_selected sticks stick_num then
    mkAv (set (x_tot l) stick_num 0) (set (y_tot l) stick_num 0)
      (set (x_jit_max l) stick_num 0)
      (set (x_jit_min l) stick_num MAX_AXIS_WAIT_TIME)
      (set (y_jit_max l) stick_num 0)
      (set (y_jit_min l) stick_num MAX_AXIS_WAIT_TIME)
      (set (last_x l) stick_num UINT_MAX) (last_y l)
  else l.

(** [update_min_max(axis, jit_min, jit_max, stick_num)], returning the two
    arrays it writes. *)
Definition update_min_max (axis jit_min jit_max : arr) (stick_num : nat)
  : arr * arr :=
  let jit_min :=
    if get axis stick_num <? get jit_min stick_num
    then set jit_min stick_num (get axis stick_num) else jit_min in
  let jit_max :=
    if get axis stick_num >? get jit_max stick_num
    then set jit_max stick_num (get axis stick_num) else jit_max in
  (jit_min, jit_max).

(** The body of the loop over the sticks inside [while(test >= 0)]; the
    second component is [sticks_within_range]. *)
Definition av_stick_pass (sticks go_go_go lost : Z) (st : state)
    (lw : av_locals * Z) (stick_num : nat) : av_locals * Z :=
  let '(l, sticks_within_range) := lw in
  if stick_selected sticks stick_num then
    if go_go_go =? 0 then
      let xt := set (x_tot l) stick_num
                  (uadd (get (x_tot l) stick_num) (rd st x_axis stick_num)) in
      let yt := set (y_tot l) stick_num
                  (uadd (get (y_tot l) stick_num) (rd st y_axis stick_num)) in
      let '(xmin, xmax) :=
        update_min_max (arrays st x_axis) (x_jit_min l) (x_jit_max l)
          stick_num in
      let '(ymin, ymax) :=
        update_min_max (arrays st y_axis) (y_jit_min l) (y_jit_max l)
          stick_num in
      (mkAv xt yt xmax xmin ymax ymin (last_x l) (last_y l),
       sticks_within_range)
    else
      let within :=
        if negb (get (last_x l) stick_num =? UINT_MAX)
           && (Z.land lost (Z.shiftl 1 (Z.of_nat stick_num)) =? 0)
        then
          if absdiff (get (last_x l) stick_num) (rd st x_axis stick_num)
             <=? umul (rd st x_smooth stick_num) 2
          then
            if absdiff (get (last_y l) stick_num) (rd st y_axis stick_num)
               <=? umul (rd st y_smooth stick_num) 2
            then Z.lor sticks_within_range (Z.shiftl 1 (Z.of_nat stick_num))
            else sticks_within_range
          else sticks_within_range
        else sticks_within_range in
      (mkAv (x_tot l) (y_tot l) (x_jit_max l) (x_jit_min l) (y_jit_max l)
         (y_jit_min l)
         (set (last_x l) stick_num (rd st x_axis stick_num))
         (set (last_y l) stick_num (rd st y_axis stick_num)),
       within)
  else lw.

(** [while(test >= 0)]: one acquisition cycle per pass.  The busy wait on
    OS_ReadMonotonicTime that ends each pass touches only its own locals
    and is left out.  [None]: the cycles supplied end before the loop
    does. *)
Fixpoint av_loop (sticks read_axes : Z) (cs : list cycle)
    (test go_go_go : Z) (l : av_locals) (st : state)
  : option (av_locals * state * list cycle) :=
  if test >=? 0 then
    match cs with
    | [] => None
    | c :: cs' =>
        match read_joystick read_axes c st with
        | None => None
        | Some (_, lost, st) =>
            let '(l, sticks_within_range) :=
              fold_left (av_stick_pass sticks go_go_go lost st) stick_loop
                (l, 0) in
            if go_go_go >? 0 then
              if sticks_within_range =? sticks
              then av_loop sticks read_axes cs' test 0 l st
              else av_loop sticks read_axes cs' test (go_go_go - 1) l st
            else
              if go_go_go =? 0
              then av_loop sticks read_axes cs' (test - 1) go_go_go l st
              else av_loop sticks read_axes cs' test go_go_go l st
        end
    end
  else Some (l, st, cs).

(** "Finish off average calculations" and the dead zone distance of one
    axis: [min] and [max] are [int]s. *)
Definition jit_distance (average jit_min jit_max : Z) (bias_min bias_max : bool)
  : Z :=
  let min := s32 (usub average jit_min) in
  let max := s32 (usub jit_max average) in
  if ((min >? max) || bias_min) && negb bias_max then u32 min else u32 max.

Definition biased (bias flag : Z) : bool := negb (Z.land bias flag =? 0).

Definition av_finish_stick (sticks bias : Z) (l : av_locals) (o : av_out)
    (stick_num : nat) : av_out :=
  if stick_selected sticks stick_num then
    let xa := set (x_array o) stick_num
                (udiv (get (x_tot l) stick_num) NUM_TEST_RUNS) in
    let ya := set (y_array o) stick_num
                (udiv (get (y_tot l) stick_num) NUM_TEST_RUNS) in
    let xj := set (x_jitdist o) stick_num
                (jit_distance (get xa stick_num)
                   (get (x_jit_min l) stick_num) (get (x_jit_max l) stick_num)
                   (biased bias X_BIAS_MIN) (biased bias X_BIAS_MAX)) in
    let yj := set (y_jitdist o) stick_num
                (jit_distance (get ya stick_num)
                   (get (y_jit_min l) stick_num) (get (y_jit_max l) stick_num)
                   (biased bias Y_BIAS_MIN) (biased bias Y_BIAS_MAX)) in
    mkOut xa ya xj yj
  else o.

(** [o] holds the contents, on entry, of the four arrays the pointer
    parameters point to; the result holds their contents on return.  No
    caller passes an array that [read_joystick] uses. *)
Definition get_av_stick_pos (sticks : Z) (o : av_out) (bias : Z)
    (cs : list cycle) (st : state) : option (av_out * state * list cycle) :=
  let zero := mkArr 0 0 in
  let l := fold_left (av_init_stick sticks) stick_loop
             (mkAv zero zero zero zero zero zero zero zero) in
  let read_axes :=
    if stick_selected sticks 0 then Z.lor PC_JOY_A_X PC_JOY_A_Y else 0 in
  let read_axes :=
    if stick_selected sticks 1
    then Z.lor read_axes (Z.lor PC_JOY_B_X PC_JOY_B_Y) else read_axes in
  let read_axes := Z.land read_axes (axes_mask st) in
  match av_loop sticks read_axes cs (NUM_TEST_RUNS - 1) 8 l st with
  | None => None
  | Some (l, st, cs) =>
      Some (fold_left (av_finish_stick sticks bias l) stick_loop o, st, cs)
  end.

(** ** MicoJoy_swihandler *)

(** SWI numbers relative to the chunk base, in the order of the CMHG
    swi-decoding-table: Read, CalibrateTopRight, CalibrateBottomLeft. *)
Definition Joystick_Read : Z := 0.
Definition Joystick_CalibrateTopRight : Z := 1.
Definition Joystick_CalibrateBottomLeft : Z := 2.

(** The loop that ends a calibration: the end dead zone grows to the
    distance just measured when that is larger. *)
Definition widen_end_deadz (o : av_out) (st : state) (stick_num : nat)
  : state :=
  let st :=
    if get (x_jitdist o) stick_num >? rd st x_end_deadz stick_num
    then wr st x_end_deadz stick_num (get (x_jitdist o) stick_num) else st in
  if get (y_jitdist o) stick_num >? rd st y_end_deadz stick_num
  then wr st y_end_deadz stick_num (get (y_jitdist o) stick_num) else st.

(** The two calibration cases have one shape: [corner] is the status bit,
    [xa] and [ya] the arrays passed as [x_array] and [y_array].  When the
    other corner is done already the distances go to the local arrays
    [x_jitdist] and [y_jitdist] (uninitialised in C, both elements
    written by the call), otherwise straight to the end dead zones. *)
Definition calibrate_corner (corner : Z) (xa ya : avar) (bias : Z)
    (env : environment) (st : state) : option state :=
  let st := set_calib_status st (Z.lor (calib_status st) corner) in
  if calib_status st =? Z.lor CALIB_TOP_RIGHT CALIB_BOTTOM_LEFT then
    match get_av_stick_pos (Z.lor STICK_0 STICK_1)
            (mkOut (arrays st xa) (arrays st ya) (mkArr 0 0) (mkArr 0 0))
            bias (cycles env) st with
    | None => None
    | Some (o, st, _) =>
        let st := wr_arr (wr_arr st xa (x_array o)) ya (y_array o) in
        let st := for_sticks (widen_end_deadz o) st in
        let st := recalc_coefficients (Z.lor STICK_0 STICK_1) st in
        Some (set_calib_status st CALIB_NONE)
    end
  else
    match get_av_stick_pos (Z.lor STICK_0 STICK_1)
            (mkOut (arrays st xa) (arrays st ya)
               (arrays st x_end_deadz) (arrays st y_end_deadz))
            bias (cycles env) st with
    | None => None
    | Some (o, st, _) =>
        let st := wr_arr (wr_arr st xa (x_array o)) ya (y_array o) in
        Some (wr_arr (wr_arr st x_end_deadz (x_jitdist o))
                y_end_deadz (y_jitdist o))
    end.

(** "cease polling stick for duration of calibration": the block before
    the [switch]. *)
Definition cease_polling (swi_no : Z) (env : environment) (st : state)
  : state :=
  if ((swi_no =? Joystick_CalibrateTopRight)
      || (swi_no =? Joystick_CalibrateBottomLeft))
     && (calib_status st =? CALIB_NONE) && polling_stick st
  then
    match RemoveTickerEvent env with
    | None => set_polling_stick st false
    | Some _ => st
    end
  else st.

(** Returns the error pointer ([None] for NULL), the registers and the
    store; [None] when the cycles of [env] end before a calibration
    does. *)
Definition MicoJoy_swihandler (swi_no : Z) (r : regs) (env : environment)
    (st : state) : option (option oserror * regs * state) :=
  let st := cease_polling swi_no env st in
  if swi_no =? Joystick_Read then Some (swi_Joystick_Read r env st)
  else if swi_no =? Joystick_CalibrateTopRight then
    match calibrate_corner CALIB_TOP_RIGHT x_max y_min
            (Z.lor X_BIAS_MIN Y_BIAS_MAX) env st with
    | None => None
    | Some st => Some (None, r, st)
    end
  else if swi_no =? Joystick_CalibrateBottomLeft then
    match calibrate_corner CALIB_BOTTOM_LEFT x_min y_max
            (Z.lor X_BIAS_MAX Y_BIAS_MIN) env st with
    | None => None
    | Some st => Some (None, r, st)
    end
  else Some (Some error_BAD_SWI, r, st).

(** ** MicoJoy_cmdhandler *)

(** [eval_expr]: the value of an evaluated-expression block of OS_ReadArgs
    (a type byte, then four bytes, least significant first), as an [int]. *)
Definition eval_expr (buffer : list Z) : Z :=
  if nth 0 buffer 0 =? 0 then
    s32 (Z.lor (Z.lor (Z.lor (nth 1 buffer 0) (Z.shiftl (nth 2 buffer 0) 8))
                  (Z.shiftl (nth 3 buffer 0) 16))
           (Z.shiftl (nth 4 buffer 0) 24))
  else 0.

(** [args_buf] after OS_ReadArgs with [config_syntax]: a switch is [true]
    when its word is not 0; an evaluated element is the block its word
    points to, or [None] when the word is 0. *)
Record config_args : Type := mkConfigArgs {
  CONFIG_SYNTAX_SMOOTH : bool;
  CONFIG_SYNTAX_NOSMOOTH : bool;
  CONFIG_SYNTAX_CTRZONE : bool;
  CONFIG_SYNTAX_NOCTRZONE : bool;
  CONFIG_SYNTAX_ENDZONE : bool;
  CONFIG_SYNTAX_NOENDZONE : bool;
  CONFIG_SYNTAX_TOLERANCE : option (list Z);
  CONFIG_SYNTAX_TIMEOUT : option (list Z);
  CONFIG_SYNTAX_POLL : option (list Z)
}.

(** [args_buf] after OS_ReadArgs with [calib_syntax]. *)
Record calib_args : Type := mkCalibArgs {
  CALIB_SYNTAX_JOYNUM : list Z;
  CALIB_SYNTAX_XORY : string;
  CALIB_SYNTAX_MIN : option (list Z);
  CALIB_SYNTAX_CTR : option (list Z);
  CALIB_SYNTAX_MAX : option (list Z);
  CALIB_SYNTAX_CTRZONE : option (list Z);
  CALIB_SYNTAX_ENDZONE : option (list Z);
  CALIB_SYNTAX_SMOOTH : option (list Z)
}.

(** The commands modelled here, with what OS_ReadArgs made of the command
    tail: the number of its error, or the argument words.  [argc] is 0 for a
    *JoystickConfig without arguments. *)
Inductive command : Type :=
  | CMD_JoystickInfo
  | CMD_JoystickConfig (argc : Z) (args : Z + config_args)
  | CMD_JoystickCalib (args : Z + calib_args).

(** The [-smooth/-nosmooth] and the two dead zone blocks of
    *JoystickConfig; the second component is [recalc]. *)
Definition config_switches (args : config_args) (st : state) : state * bool :=
  let st :=
    if CONFIG_SYNTAX_SMOOTH args then set_smooth st true
    else if CONFIG_SYNTAX_NOSMOOTH args then set_smooth st false
    else st in
  let recalc := false in
  let '(st, recalc) :=
    if CONFIG_SYNTAX_CTRZONE args then
      if negb (ctr_zones st) then (set_ctr_zones st true, true)
      else (st, recalc)
    else if CONFIG_SYNTAX_NOCTRZONE args then (set_ctr_zones st false, true)
    else (st, recalc) in
  let '(st, recalc) :=
    if CONFIG_SYNTAX_ENDZONE args then
      if negb (ctr_zones st) then (set_end_zones st true, true)
      else (st, recalc)
    else if CONFIG_SYNTAX_NOENDZONE args then (set_end_zones st false, true)
    else (st, recalc) in
  (st, recalc).

(** The [-poll] block of *JoystickConfig. *)
Definition config_poll (buffer : list Z) (env : environment) (st : state)
  : option oserror * state :=
  let new_freq := s32 (eval_expr buffer - 1) in
  let new_freq := if new_freq <=? 0 then 1 else new_freq in
  if negb (u32 new_freq =? poll_freq st) then
    if polling_stick st then
      match RemoveTickerEvent env with
      | Some e => (Some (os_error e), st)
      | None =>
          match CallEvery env with
          | Some e => (Some (os_error e), set_polling_stick st false)
          | None => (None, set_poll_freq st (u32 new_freq))
          end
      end
    else (None, set_poll_freq st (u32 new_freq))
  else (None, st).

Definition cmd_JoystickConfig (argc : Z) (args : Z + config_args)
    (env : environment) (st : state) : option oserror * state :=
  if argc >? 0 then
    match args with
    | inl e => (Some (os_error e), st)
    | inr args =>
        if (CONFIG_SYNTAX_SMOOTH args && CONFIG_SYNTAX_NOSMOOTH args)
           || (CONFIG_SYNTAX_CTRZONE args && CONFIG_SYNTAX_NOCTRZONE args)
           || (CONFIG_SYNTAX_ENDZONE args && CONFIG_SYNTAX_NOENDZONE args)
        then (Some error_command_syntax, st)
        else
          let '(st, recalc) := config_switches args st in
          let st :=
            if recalc then recalc_coefficients (Z.lor STICK_0 STICK_1) st
            else st in
          let st :=
            match CONFIG_SYNTAX_TOLERANCE args with
            | Some buffer => set_tolerance st (u32 (eval_expr buffer))
            | None => st
            end in
          let st :=
            match CONFIG_SYNTAX_TIMEOUT args with
            | Some buffer => set_max_wait st (u32 (eval_expr buffer))
            | None => st
            end in
          match CONFIG_SYNTAX_POLL args with
          | Some buffer => config_poll buffer env st
          | None => (None, st)
          end
    end
  else (None, st).

(** One of the six blocks [if(args_buf[..] != 0) { int value = ..; if
    (change_x) x_..[joynum] = value; else y_..[joynum] = value; }]. *)
Definition calib_field (arg : option (list Z)) (change_x : bool)
    (xv yv : avar) (joynum : nat) (st : state) : state :=
  match arg with
  | Some buffer =>
      let value := eval_expr buffer in
      if change_x then wr st xv joynum (u32 value)
      else wr st yv joynum (u32 value)
  | None => st
  end.

Definition cmd_JoystickCalib (args : Z + calib_args) (st : state)
  : option oserror * state :=
  match args with
  | inl e => (Some (os_error e), st)
  | inr args =>
      let joynum := eval_expr (CALIB_SYNTAX_JOYNUM args) in
      if (joynum >? Z.of_nat NUM_STICKS - 1) || (joynum <? 0)
      then (Some bad_joy_num, st)
      else
        let xory := CALIB_SYNTAX_XORY args in
        let change_x :=
          if (xory =? "x")%string || (xory =? "X")%string then Some true
          else if (xory =? "y")%string || (xory =? "Y")%string
          then Some false else None in
        match change_x with
        | None => (Some error_command_syntax, st)
        | Some change_x =>
            let n := Z.to_nat joynum in
            let st := calib_field (CALIB_SYNTAX_MIN args) change_x
                        x_min y_min n st in
            let st := calib_field (CALIB_SYNTAX_CTR args) change_x
                        x_ctr y_ctr n st in
            let st := calib_field (CALIB_SYNTAX_MAX args) change_x
                        x_max y_max n st in
            let st := calib_field (CALIB_SYNTAX_CTRZONE args) change_x
                        x_ctr_deadz y_ctr_deadz n st in
            let st := calib_field (CALIB_SYNTAX_ENDZONE args) change_x
                        x_end_deadz y_end_deadz n st in
            let st := calib_field (CALIB_SYNTAX_SMOOTH args) change_x
                        x_smooth y_smooth n st in
            (None, recalc_coefficients (Z.shiftl 1 joynum) st)
        end
  end.

(** *JoystickInfo only prints.  *JoystickReInit, which waits for
    [reinit_joysticks], is [cmd_JoystickReInit] below. *)
Definition MicoJoy_cmdhandler (cmd : command) (env : environment)
    (st : state) : option oserror * state :=
  match cmd with
  | CMD_JoystickInfo => (None, st)
  | CMD_JoystickConfig argc args => cmd_JoystickConfig argc args env st
  | CMD_JoystickCalib args => cmd_JoystickCalib args st
  end.

(** ** The ticker and callback handlers *)

Definition pollstick_handler (env : environment) (st : state) : state :=
  if callback_free st then
    match AddCallBack env with
    | None => set_callback_free (set_callback_pending st true) false
    | Some _ => st
    end
  else st.

Definition stoppoll_handler (env : environment) (st : state) : state :=
  if swi_in_last_min st then set_swi_in_last_min st false
  else if polling_stick st then
    match RemoveTickerEvent env with
    | None => set_polling_stick st false
    | Some _ => st
    end
  else st.

(** [None] when the cycle of [env] ends before the timing loop does. *)
Definition doread_handler (env : environment) (st : state) : option state :=
  let st := set_callback_pending st false in
  if polling_stick st then
    match cycles env with
    | [] => None
    | c :: _ =>
        match read_joystick (axes_mask st) c st with
        | None => None
        | Some (_, _, st) => Some (set_callback_free st true)
        end
    end
  else Some (set_callback_free st true).

(** ** The store when the module is loaded *)

(** The static initialisers: arrays of zeros, the default configuration,
    no polling. *)
Definition initial_state : state :=
  mkState (fun _ => mkArr 0 0) CALIB_NONE 0 false false false true
    MAX_AXIS_WAIT_TIME 30 true true true 6.

(** ** Vocabulary of the properties *)

(** An evaluated-expression block holding the number [n], as OS_ReadArgs
    writes it. *)
Definition block (n : Z) : list Z :=
  [0; Z.land n 255; Z.land (Z.shiftr n 8) 255; Z.land (Z.shiftr n 16) 255;
   Z.land (Z.shiftr n 24) 255].

(** The fields of r0 on exit from Joystick_Read, as the module's
    documentation lays them out: reason code 0 packs two signed bytes,
    reason code 1 two unsigned halfwords. *)
Definition s8 (z : Z) : Z := if z <? 128 then z else z - 256.
Definition r0_x8 (r : Z) : Z := s8 (Z.land (Z.shiftr r 8) 255).
Definition r0_y8 (r : Z) : Z := s8 (Z.land r 255).
Definition r0_x16 (r : Z) : Z := Z.land (Z.shiftr r 16) 65535.
Definition r0_y16 (r : Z) : Z := Z.land r 65535.

(** The X and Y outputs of a Joystick_Read of stick [stick] that returns
    without error, with reason code 0 (8 bit) and 1 (16 bit). *)
Definition Read_field (reason : Z) (field : Z -> Z) (stick : Z)
    (env : environment) (st : state) : option Z :=
  match MicoJoy_swihandler Joystick_Read
          (mkRegs (Z.lor (Z.shiftl reason 8) stick) 0) env st with
  | Some (None, r, _) => Some (field (r0 r))
  | _ => None
  end.

Definition Read_x8 : Z -> environment -> state -> option Z :=
  Read_field 0 r0_x8.
Definition Read_y8 : Z -> environment -> state -> option Z :=
  Read_field 0 r0_y8.
Definition Read_x16 : Z -> environment -> state -> option Z :=
  Read_field 1 r0_x16.
Definition Read_y16 : Z -> environment -> state -> option Z :=
  Read_field 1 r0_y16.

(** Every array element is an [unsigned int]. *)
Definition wf_state (st : state) : Prop :=
  forall a i, in_u32 (rd st a i).

(** The centre and end dead zones that [recalc_coefficients] works with:
    the calibration value, or 0 when the zones are configured off. *)
Definition ctr_dz (st : state) (a : avar) (i : nat) : Z :=
  if ctr_zones st then rd st a i else 0.

Definition end_dz (st : state) (a : avar) (i : nat) : Z :=
  if end_zones st then rd st a i else 0.

(** What [recalc_coefficients] leaves in element [i] of the array [a] when
    stick [i] is selected, from the calibration values and the two zone
    switches. *)
Definition coefficient (st : state) (a : avar) (i : nat) : Z :=
  let dividend := Z.shiftl 32768 SCALER_FRAC_SHIFT in
  let x_low := usub (rd st x_ctr i) (ctr_dz st x_ctr_deadz i) in
  let x_high := uadd (rd st x_ctr i) (ctr_dz st x_ctr_deadz i) in
  let y_low := usub (rd st y_ctr i) (ctr_dz st y_ctr_deadz i) in
  let y_high := uadd (rd st y_ctr i) (ctr_dz st y_ctr_deadz i) in
  match a with
  | x_ctr_low => x_low
  | x_ctr_high => x_high
  | y_ctr_low => y_low
  | y_ctr_high => y_high
  | x_low_scaler =>
      safedivide dividend
        (usub x_low (uadd (rd st x_min i) (end_dz st x_end_deadz i)))
  | x_high_scaler =>
      safedivide dividend
        (usub (usub (rd st x_max i) (end_dz st x_end_deadz i)) x_high)
  | y_low_scaler =>
      safedivide dividend
        (usub y_low (uadd (rd st y_min i) (end_dz st y_end_deadz i)))
  | y_high_scaler =>
      safedivide dividend
        (usub (usub (rd st y_max i) (end_dz st y_end_deadz i)) y_high)
  | _ => rd st a i
  end.

(** The offset from the centre that both conversions scale, positive above
    the centre dead zone and negative below it, in exact integers. *)
Definition offset (lo hi ls hs shift raw : Z) : Z :=
  if raw >? lo then
    if raw <? hi then 0 else (hs * (raw - hi)) / 2 ^ shift
  else - ((ls * (lo - raw)) / 2 ^ shift).

(** The four axes that [read_joystick] times, with the status bit, the
    stick, the cache and the smoothing width of each. *)
Inductive axis : Set := Ax | Ay | Bx | By.

Scheme Equality for axis.

Definition axis_bit (ax : axis) : Z :=
  match ax with
  | Ax => PC_JOY_A_X | Ay => PC_JOY_A_Y | Bx => PC_JOY_B_X | By => PC_JOY_B_Y
  end.

Definition axis_stick (ax : axis) : nat :=
  match ax with Ax | Ay => 0%nat | Bx | By => 1%nat end.

Definition axis_is_x (ax : axis) : bool :=
  match ax with Ax | Bx => true | Ay | By => false end.

Definition axis_cache (ax : axis) : avar :=
  if axis_is_x ax then x_axis else y_axis.

Definition axis_width (ax : axis) : avar :=
  if axis_is_x ax then x_smooth else y_smooth.

(** The flag of the stick an axis belongs to, for [sticks_lost]. *)
Definition axis_flag (ax : axis) : Z :=
  match ax with Ax | Ay => STICK_0 | Bx | By => STICK_1 end.

(** The number of the status bit of an axis. *)
Definition axis_index (ax : axis) : Z :=
  match ax with Ax => 0 | Ay => 1 | Bx => 2 | By => 3 end.

(** The new timing of an axis in the locals of [read_joystick]; UINT_MAX
    when there is none. *)
Definition axis_new (ax : axis) (a : acq) : Z :=
  get (if axis_is_x ax then new_x a else new_y a) (axis_stick ax).

(** The block of the timing loop for one axis. *)
Definition pass_of (tol interval joy : Z) (ax : axis) (a : acq) : acq :=
  axis_pass tol interval joy (axis_bit ax) (axis_is_x ax) (axis_stick ax)
    (axis_flag ax) a.

(** [mask & bit], [lost & (1u << stick)] *)
Definition bit_set (word bit : Z) : bool := negb (Z.land word bit =? 0).

(** An axis is pending while its bit is in the mask of the timing loop. *)
Definition pending (ax : axis) (a : acq) : bool :=
  bit_set (mask a) (axis_bit ax).

(** The four blocks of the loop body, in their order. *)
Definition passes (tol interval joy : Z) (l : list axis) (a : acq) : acq :=
  fold_left (fun a ax => pass_of tol interval joy ax a) l a.

(** What the last loop of [read_joystick] leaves in the cache of an axis:
    [new] is the new timing (UINT_MAX for none), [width] the smoothing
    width of the axis. *)
Definition committed (smooth_on : bool) (cache new width : Z) : Z :=
  if negb (new =? UINT_MAX) then
    if smooth_on && (width >? 0) then smooth_value cache new width else new
  else cache.

(** What happens to one requested axis during an acquisition cycle. *)
Inductive outcome : Set :=
  | Completed (elapsed : Z)
  | Discarded
  | TimedOut.

(** The fate of one axis, followed on its own: pass after pass while the
    time since the strobe is below the timeout, until its status bit shows
    it finished; the reading is accepted when the time since the previous
    pass is within the tolerance and discarded otherwise.  [None]: the
    observations end first. *)
Fixpoint axis_outcome (st : state) (bit : Z) (ss : list sample)
    (start_time prev_time wait : Z) : option outcome :=
  if u32 wait <? max_wait st then
    match ss with
    | [] => None
    | s :: ss' =>
        let '(start_time', prev_time', wait', interval) :=
          clock_pass s start_time prev_time in
        if bit_set (unot (port_byte s)) bit then
          Some (if interval <=? tolerance st
                then Completed (u32 wait') else Discarded)
        else axis_outcome st bit ss' start_time' prev_time' wait'
    end
  else Some TimedOut.

(** The bias each corner calibration passes to [get_av_stick_pos]. *)
Definition corner_bias (swi_no : Z) : Z :=
  if swi_no =? Joystick_CalibrateTopRight
  then Z.lor X_BIAS_MIN Y_BIAS_MAX else Z.lor X_BIAS_MAX Y_BIAS_MIN.

(** The deviation envelope measured in one calibration phase: the distances
    [get_av_stick_pos] reports for the X and the Y axes of both sticks, on
    the store and the cycles of that phase. *)
Definition envelope_of (bias : Z) (env : environment) (st : state)
  : option (arr * arr) :=
  match get_av_stick_pos (Z.lor STICK_0 STICK_1)
          (mkOut (mkArr 0 0) (mkArr 0 0) (mkArr 0 0) (mkArr 0 0))
          bias (cycles env) st with
  | Some (o, _, _) => Some (x_jitdist o, y_jitdist o)
  | None => None
  end.

Definition envelope (swi_no : Z) : environment -> state -> option (arr * arr) :=
  envelope_of (corner_bias swi_no).

(** *JoystickCalib with all six values. *)
Definition calib_command (joynum : Z) (xory : string)
    (min ctr max ctrzone endzone smooth : Z) : command :=
  CMD_JoystickCalib
    (inr (mkCalibArgs (block joynum) xory (Some (block min))
            (Some (block ctr)) (Some (block max)) (Some (block ctrzone))
            (Some (block endzone)) (Some (block smooth)))).

Definition quiet : environment := mkEnv None None None 255 [].

(** The calibration table of the module's documentation for stick 0, set
    with *JoystickCalib on the store of a freshly loaded module; polling
    has been started. *)
Definition documented_state : state :=
  let st := initial_state in
  let st := snd (MicoJoy_cmdhandler
                   (calib_command 0 "X" 0 703 1406 48 0 48) quiet st) in
  let st := snd (MicoJoy_cmdhandler
                   (calib_command 0 "Y" 0 847 1694 48 0 9) quiet st) in
  set_polling_stick st true.

(** A centre smaller than its dead zone: ctr - ctrzone wraps around. *)
Definition low_centre_state : state :=
  snd (MicoJoy_cmdhandler (calib_command 0 "X" 0 10 1406 48 0 48) quiet
         initial_state).

(** The documented store with only the top right corner calibrated, and
    no polling. *)
Definition half_calibrated : state :=
  set_calib_status (set_polling_stick documented_state false)
    CALIB_TOP_RIGHT.

(** The documented store before the first read: idle. *)
Definition idle_state : state := set_polling_stick documented_state false.

(** A reason code field of r0 that Joystick_Read supports. *)
Definition supported_reason (r : regs) : Prop :=
  Z.shiftr (Z.land (r0 r) 65280) 8 = 0
  \/ Z.shiftr (Z.land (r0 r) 65280) 8 = 1.

(** *JoystickConfig with switches only. *)
Definition config_command (smooth_sw nosmooth_sw ctrzone_sw noctrzone_sw
    endzone_sw noendzone_sw : bool) : command :=
  CMD_JoystickConfig 1
    (inr (mkConfigArgs smooth_sw nosmooth_sw ctrzone_sw noctrzone_sw
            endzone_sw noendzone_sw None None None)).

(** The documented store after *JoystickConfig -noendzone. *)
Definition end_zones_off : state :=
  snd (MicoJoy_cmdhandler
         (config_command false false false false false true) quiet
         documented_state).

(** A cycle on timer 0 counting down from 19999: a pass after 690 ticks
    that sees nothing finished, a pass after 700 ticks that sees the X axis
    of stick A finished, a pass after 900 ticks that sees its Y axis
    finished too, and a pass after 2000 ticks. *)
Definition example_cycle : cycle :=
  mkCycle 31 78
    [mkSample 255 109 75; mkSample 254 99 75; mkSample 252 155 74;
     mkSample 252 79 70].

(** A pass of the timing loop [elapsed] ticks after a strobe at 19999. *)
Definition sample_at (port elapsed : Z) : sample :=
  mkSample port ((19999 - elapsed) mod 256) ((19999 - elapsed) / 256).

(** A cycle in which the X axes of both sticks finish after [wx] ticks and
    the Y axes after [wy] ticks, each seen 10 ticks after the pass
    before. *)
Definition cycle_xy (wx wy : Z) : cycle :=
  mkCycle 31 78
    (if wx <? wy
     then [sample_at 255 (wx - 10); sample_at 250 wx;
           sample_at 250 (wy - 10); sample_at 240 wy]
     else [sample_at 255 (wy - 10); sample_at 245 wy;
           sample_at 245 (wx - 10); sample_at 240 wx]).

(** Two equal cycles for the stick to settle, then sixteen pairs. *)
Definition corner_cycles (x1 x2 y1 y2 : Z) : list cycle :=
  [cycle_xy x1 y1; cycle_xy x1 y1]
  ++ List.concat (List.repeat [cycle_xy x1 y1; cycle_xy x2 y2] 16).

(** The stick held top right, then bottom left. *)
Definition top_right : environment :=
  mkEnv None None None 255 (corner_cycles 1400 1408 20 30).
Definition bottom_left : environment :=
  mkEnv None None None 255 (corner_cycles 20 32 1400 1420).

(** The documented store with all four axes found connected. *)
Definition connected_state : state := set_axes_mask documented_state 15.

(** The documented store with [x] and [y] as the cached timings of stick 0. *)
Definition cached (x y : Z) : state :=
  wr (wr documented_state x_axis 0 x) y_axis 0 y.

(** ** reinit_joysticks *)

(** The first loop: "in case axes time out", and no smoothing width yet. *)
Definition reinit_start_stick (sticks : Z) (st : state) (stick_num : nat)
  : state :=
  if stick_selected sticks stick_num then
    let st := wr st x_axis stick_num 800 in
    let st := wr st y_axis stick_num 800 in
    let st := wr st x_smooth stick_num 0 in
    wr st y_smooth stick_num 0
  else st.

(** The loop over the sticks inside the test loop: the smoothing width
    grows to the largest jump between two consecutive readings.  The
    accumulator holds the store and the local arrays [last_x] and
    [last_y] (uninitialised in C, read only after the first test run has
    written them). *)
Definition reinit_stick_pass (sticks test : Z) (acc : state * arr * arr)
    (stick_num : nat) : state * arr * arr :=
  let '(st, last_x, last_y) := acc in
  if stick_selected sticks stick_num then
    let st :=
      if test <? NUM_TEST_RUNS - 1 then
        let x_diff := absdiff (get last_x stick_num) (rd st x_axis stick_num) in
        let st :=
          if x_diff >? rd st x_smooth stick_num
          then wr st x_smooth stick_num x_diff else st in
        let y_diff := absdiff (get last_y stick_num) (rd st y_axis stick_num) in
        if y_diff >? rd st y_smooth stick_num
        then wr st y_smooth stick_num y_diff else st
      else st in
    (st, set last_x stick_num (rd st x_axis stick_num),
     set last_y stick_num (rd st y_axis stick_num))
  else acc.

(** [for(test = (NUM_TEST_RUNS-1); test >= 0; test--)]: one acquisition
    cycle per test run; [new_mask] collects the axes that did not time
    out.  The busy wait on OS_ReadMonotonicTime is left out, as in
    [av_loop].  [None]: the cycles supplied end before the loop does. *)
Fixpoint reinit_loop (sticks stick_mask : Z) (cs : list cycle)
    (test new_mask : Z) (last_x last_y : arr) (st : state)
  : option (Z * state * list cycle) :=
  if test >=? 0 then
    match cs with
    | [] => None
    | c :: cs' =>
        match read_joystick stick_mask c st with
        | None => None
        | Some (m, _, st) =>
            let new_mask := Z.lor new_mask (unot m) in
            let '(st, last_x, last_y) :=
              fold_left (reinit_stick_pass sticks test) stick_loop
                (st, last_x, last_y) in
            reinit_loop sticks stick_mask cs' (test - 1) new_mask
              last_x last_y st
        end
    end
  else Some (new_mask, st, cs).

(** "Can't be sure of axis limits prior to calibration, so guess" *)
Definition reinit_guess_stick (sticks : Z) (st : state) (stick : nat)
  : state :=
  if stick_selected sticks stick then
    let st := wr st x_min stick 0 in
    let st := wr st y_min stick 0 in
    let st := wr st x_max stick (umul (rd st x_ctr stick) 2) in
    wr st y_max stick (umul (rd st y_ctr stick) 2)
  else st.

(** [stick_mask] of [reinit_joysticks]: the axis bits of the selected
    sticks. *)
Definition stick_axes (sticks : Z) : Z :=
  let stick_mask :=
    if stick_selected sticks 0 then Z.lor PC_JOY_A_X PC_JOY_A_Y else 0 in
  if stick_selected sticks 1
  then Z.lor stick_mask (Z.lor PC_JOY_B_X PC_JOY_B_Y) else stick_mask.

(** Returns the store and the cycles left over; [None] when the cycles
    end before the function does. *)
Definition reinit_joysticks (sticks : Z) (cs : list cycle) (st : state)
  : option (state * list cycle) :=
  let st := for_sticks (reinit_start_stick sticks) st in
  let old_s := smooth st in
  let st := set_smooth st false in
  let stick_mask := stick_axes sticks in
  match reinit_loop sticks stick_mask cs (NUM_TEST_RUNS - 1) 0
          (mkArr 0 0) (mkArr 0 0) st with
  | None => None
  | Some (new_mask, st, cs) =>
      let st :=
        set_axes_mask st
          (Z.lor (Z.land (axes_mask st) (unot stick_mask))
                 (Z.land new_mask stick_mask)) in
      let st := set_smooth st old_s in
      match get_av_stick_pos sticks
              (mkOut (arrays st x_ctr) (arrays st y_ctr)
                 (arrays st x_ctr_deadz) (arrays st y_ctr_deadz))
              0 cs st with
      | None => None
      | Some (o, st, cs) =>
          let st := wr_arr (wr_arr st x_ctr (x_array o)) y_ctr (y_array o) in
          let st := wr_arr (wr_arr st x_ctr_deadz (x_jitdist o))
                      y_ctr_deadz (y_jitdist o) in
          let st := for_sticks (reinit_guess_stick sticks) st in
          Some (recalc_coefficients sticks st, cs)
      end
  end.

(** [case CMD_JoystickReInit:] of [MicoJoy_cmdhandler], with what
    OS_ReadArgs made of the command tail: the number of its error, or the
    word of the optional stick number. *)
Definition cmd_JoystickReInit (args : Z + option (list Z))
    (env : environment) (st : state) : option (option oserror * state) :=
  match args with
  | inl e => Some (Some (os_error e), st)
  | inr (Some buffer) =>
      let joynum := eval_expr buffer in
      if (joynum >? Z.of_nat NUM_STICKS - 1) || (joynum <? 0)
      then Some (Some bad_joy_num, st)
      else
        match reinit_joysticks (Z.shiftl 1 joynum) (cycles env) st with
        | None => None
        | Some (st, _) => Some (None, st)
        end
  | inr None =>
      match reinit_joysticks (Z.lor STICK_0 STICK_1) (cycles env) st with
      | None => None
      | Some (st, _) => Some (None, st)
      end
  end.

(** ** MicoJoy_initialise and MicoJoy_finalise *)

(** [getenv] is the result of [_kernel_getenv] for
    PnPManager$GamesPort_Address ([None] for NULL, the variable exists)
    and [matched] the result of [sscanf] on its value (EOF is -1); the
    address itself stays with the hardware.  The final OS_CallEvery
    registers the usage monitor. *)
Definition MicoJoy_initialise (getenv : option Z) (matched : Z)
    (env : environment) (st : state) : option (option oserror * state) :=
  match getenv with
  | Some _ => Some (Some gameport_not_found, st)
  | None =>
      if (matched =? -1) || (matched <? 1)
      then Some (Some gameport_not_found, st)
      else
        match reinit_joysticks (Z.lor STICK_0 STICK_1) (cycles env) st with
        | None => None
        | Some (st, _) =>
            match CallEvery env with
            | Some e => Some (Some (os_error e), st)
            | None => Some (None, st)
            end
        end
  end.

(** The three OS calls of [MicoJoy_finalise], each with its own result:
    OS_RemoveTickerEvent for the polling routine, OS_RemoveCallBack, and
    OS_RemoveTickerEvent for the usage monitor. *)
Definition MicoJoy_finalise (remove_pollstick remove_callback
    remove_stoppoll : option Z) (st : state) : option oserror * state :=
  match (if polling_stick st then remove_pollstick else None) with
  | Some e => (Some (os_error e), st)
  | None =>
      let st := if polling_stick st then set_polling_stick st false else st in
      match (if callback_pending st then remove_callback else None) with
      | Some e => (Some (os_error e), st)
      | None =>
          let st :=
            if callback_pending st then set_callback_pending st false
            else st in
          match remove_stoppoll with
          | Some e => (Some (os_error e), st)
          | None => (None, st)
          end
      end
  end.

(** ** Vocabulary of the further properties *)

(** The derived values of stick [i] are those that [recalc_coefficients]
    computes from the calibration values and the zone switches. *)
Definition coherent_stick (st : state) (i : nat) : Prop :=
  forall a, derived a = true -> rd st a i = coefficient st a i.

(** Whenever a Joystick_Read can pass the calibration gate, the derived
    values of both sticks are up to date. *)
Definition coherent (st : state) : Prop :=
  calib_status st = CALIB_NONE ->
  coherent_stick st 0 /\ coherent_stick st 1.

(** At most one callback: a pending callback blocks the next one. *)
Definition single_slot (st : state) : Prop :=
  callback_pending st = true -> callback_free st = false.

(** The registers on exit from a Joystick_Read that returns without
    error. *)
Definition Read_regs (r : regs) (env : environment) (st : state)
  : option regs :=
  match MicoJoy_swihandler Joystick_Read r env st with
  | Some (None, r', _) => Some r'
  | _ => None
  end.

(** The calibration values that the derived values are computed from. *)
Definition calibration (a : avar) : bool :=
  match a with
  | x_min | x_max | y_min | y_max
  | x_ctr_deadz | y_ctr_deadz | x_ctr | y_ctr
  | x_end_deadz | y_end_deadz => true
  | _ => false
  end.

(** Two stores with the same zone switches and the same calibration values
    for stick [i]. *)
Definition same_calibration (st st' : state) (i : nat) : Prop :=
  ctr_zones st' = ctr_zones st /\ end_zones st' = end_zones st
  /\ forall a, calibration a = true -> rd st' a i = rd st a i.

(** [n] equal cycles of a stick at rest: the X axes finish after 700 ticks
    and the Y axes after 850. *)
Definition steady_cycles (n : nat) : list cycle :=
  List.repeat (cycle_xy 700 850) n.

(** The variables that no SWI writes: the store without the arrays, the
    calibration status and the two polling flags. *)
Definition configuration (st : state) : state :=
  set_swi_in_last_min
    (set_polling_stick
       (set_calib_status (set_arrays st (fun _ => mkArr 0 0)) 0) false)
    false.

(** "IOC Timer 0 ... Counts down from 19999 to 0": what the timer shows
    [elapsed] ticks after it showed [start]. *)
Definition timer_after (start elapsed : Z) : Z := (start - elapsed) mod 20000.

(** The locals [start_time] and [prev_time] of the timing loop after a
    pass made [elapsed] ticks after the strobe, the timer having shown
    [start] at the strobe. *)
Definition clock_at (start elapsed start_time prev_time : Z) : Prop :=
  start_time = (if elapsed <=? start then start else start + 20000)
  /\ prev_time = timer_after start elapsed.

(** A pass of the timing loop that reads [fst p] from the gameport,
    [snd p] ticks after a strobe at which timer 0 showed [start]. *)
Definition pass_sample (start : Z) (p : Z * Z) : sample :=
  let t := timer_after start (snd p) in
  mkSample (fst p) (t mod 256) (t / 256).

(** An acquisition cycle given by the timer at the strobe and by the
    gameport byte and the ticks since the strobe of each pass. *)
Definition timed_cycle (start : Z) (ps : list (Z * Z)) : cycle :=
  mkCycle (start mod 256) (start / 256) (List.map (pass_sample start) ps).

(** The passes come one after the other, within one period of the
    timer. *)
Fixpoint in_order (last : Z) (ps : list (Z * Z)) : bool :=
  match ps with
  | [] => true
  | p :: ps' =>
      (last <=? snd p) && (snd p <? 20000) && in_order (snd p) ps'
  end.

(** The fate of an axis in ticks since the strobe: [last] is the time of
    the pass before. *)
Fixpoint axis_elapsed (st : state) (bit : Z) (ps : list (Z * Z)) (last : Z)
  : option outcome :=
  if last <? max_wait st then
    match ps with
    | [] => None
    | p :: ps' =>
        if bit_set (unot (fst p)) bit then
          Some (if snd p - last <=? tolerance st
                then Completed (snd p) else Discarded)
        else axis_elapsed st bit ps' (snd p)
    end
  else Some TimedOut.


(** The six optional values of *JoystickCalib with the X and the Y array
    that each of them goes to. *)
Definition calib_fields
  : list ((calib_args -> option (list Z)) * avar * avar) :=
  [(CALIB_SYNTAX_MIN, x_min, y_min); (CALIB_SYNTAX_CTR, x_ctr, y_ctr);
   (CALIB_SYNTAX_MAX, x_max, y_max);
   (CALIB_SYNTAX_CTRZONE, x_ctr_deadz, y_ctr_deadz);
   (CALIB_SYNTAX_ENDZONE, x_end_deadz, y_end_deadz);
   (CALIB_SYNTAX_SMOOTH, x_smooth, y_smooth)].

(** The axis argument of *JoystickCalib names the X axis, or the Y axis. *)
Definition names_axis (is_x : bool) (xory : string) : Prop :=
  if is_x then xory = "x"%string \/ xory = "X"%string
  else xory = "y"%string \/ xory = "Y"%string.

(** *JoystickConfig -poll [n]. *)
Definition poll_command (n : Z) : command :=
  CMD_JoystickConfig 1
    (inr (mkConfigArgs false false false false false false None None
            (Some (block n)))).

(** The X and the Y axis of a stick. *)
Definition stick_x (n : nat) : axis := match n with O => Ax | _ => Bx end.
Definition stick_y (n : nat) : axis := match n with O => Ay | _ => By end.

Definition is_discarded (o : option outcome) : bool :=
  match o with Some Discarded => true | _ => false end.

(** A requested axis whose reading is discarded in the cycle [c]. *)
Definition discarded (st : state) (axes : Z) (c : cycle) (ax : axis) : bool :=
  let start := ioc_timer_0 (start_low c) (start_high c) in
  bit_set axes (axis_bit ax)
  && is_discarded
       (axis_outcome st (axis_bit ax) (samples c) start (s32 start) 0).


(** * Properties *)

(** ** 32-bit arithmetic *)

Lemma modulus_eq : modulus = 4294967296.
Proof. reflexivity. Qed.

Lemma u32_range (z : Z) : 0 <= u32 z < modulus.
Proof. unfold u32. apply Z.mod_pos_bound. reflexivity. Qed.

Lemma u32_id (z : Z) : 0 <= z < modulus -> u32 z = z.
Proof. intros H. unfold u32. apply Z.mod_small. exact H. Qed.

Lemma u32_idem (z : Z) : u32 (u32 z) = u32 z.
Proof. apply u32_id, u32_range. Qed.

Lemma s32_range (z : Z) : - 2 ^ 31 <= s32 z < 2 ^ 31.
Proof.
  unfold s32. pose proof (u32_range z) as H. rewrite modulus_eq in *.
  destruct (Z.ltb_spec (u32 z) (2 ^ 31)); lia.
Qed.

Lemma s32_id (z : Z) : - 2 ^ 31 <= z < 2 ^ 31 -> s32 z = z.
Proof.
  intros H. unfold s32, u32. rewrite modulus_eq.
  destruct (Z.le_gt_cases 0 z) as [Hz | Hz].
  - rewrite Z.mod_small by lia.
    destruct (Z.ltb_spec z (2 ^ 31)); lia.
  - replace (z mod 4294967296) with (z + 4294967296).
    + destruct (Z.ltb_spec (z + 4294967296) (2 ^ 31)); lia.
    + apply Z.mod_unique with (q := -1); lia.
Qed.

Lemma s32_u32 (z : Z) : s32 (u32 z) = s32 z.
Proof. unfold s32. rewrite u32_idem. reflexivity. Qed.

Lemma u32_s32 (z : Z) : u32 (s32 z) = u32 z.
Proof.
  unfold s32. destruct (u32 z <? 2 ^ 31).
  - apply u32_idem.
  - unfold u32 at 1. unfold modulus.
    rewrite Zminus_mod, Z.mod_same, Z.sub_0_r, Z.mod_mod by lia.
    apply u32_idem.
Qed.

Lemma s32_nonpos_cases (z : Z) :
  s32 z <= 0 -> u32 z = 0 \/ 2 ^ 31 <= u32 z.
Proof.
  unfold s32. pose proof (u32_range z).
  destruct (Z.ltb_spec (u32 z) (2 ^ 31)); lia.
Qed.

(** ** The store *)

Lemma get_set_same (a : arr) (i : nat) (v : Z) :
  (i < 2)%nat -> get (set a i v) i = v.
Proof. destruct i as [|[|i]]; intros H; try reflexivity; lia. Qed.

Lemma get_set_other (a : arr) (i j : nat) (v : Z) :
  i <> j -> get (set a i v) j = get a j.
Proof.
  destruct i as [|[|i]], j as [|[|j]]; intros H; try reflexivity;
    contradiction.
Qed.

Lemma rd_wr_same (st : state) (a : avar) (i : nat) (v : Z) :
  (i < 2)%nat -> rd (wr st a i v) a i = v.
Proof.
  intros H. unfold rd, wr. cbn.
  replace (avar_beq a a) with true by (destruct a; reflexivity).
  apply get_set_same, H.
Qed.

Lemma rd_wr_other_index (st : state) (a b : avar) (i j : nat) (v : Z) :
  i <> j -> rd (wr st a i v) b j = rd st b j.
Proof.
  intros H. unfold rd, wr. cbn. destruct (avar_beq a b) eqn:E.
  - apply internal_avar_dec_bl in E. subst b. apply get_set_other, H.
  - reflexivity.
Qed.

Lemma rd_wr_other_array (st : state) (a b : avar) (i j : nat) (v : Z) :
  a <> b -> rd (wr st a i v) b j = rd st b j.
Proof.
  intros H. unfold rd, wr. cbn. destruct (avar_beq a b) eqn:E.
  - apply internal_avar_dec_bl in E. contradiction.
  - reflexivity.
Qed.

(** Only stick numbers 0 and 1 are ever selected by a two-bit mask; the
    proofs below split on them. *)
Ltac two_sticks i :=
  destruct i as [|[|i]]; [ | | exfalso; lia ].

(** ** recalc_coefficients *)

Lemma recalc_centre_rd (st : state) (n : nat) (a : avar) (j : nat) :
  (n < 2)%nat ->
  rd (recalc_centre st n) a j =
  if (j =? n)%nat && derived a then
    match a with
    | x_ctr_low | x_ctr_high | y_ctr_low | y_ctr_high => coefficient st a j
    | _ => rd st a j
    end
  else rd st a j.
Proof.
  intros Hn. two_sticks n; destruct j as [|[|j]]; destruct a; reflexivity.
Qed.

Lemma recalc_centre_scalars (st : state) (n : nat) (f : avar -> arr) :
  set_arrays (recalc_centre st n) f = set_arrays st f.
Proof. reflexivity. Qed.

Lemma recalc_scalers_rd (st : state) (n : nat) (a : avar) (j : nat) :
  (n < 2)%nat ->
  rd (recalc_scalers st n) a j =
  if (j =? n)%nat then
    let dividend := Z.shiftl 32768 SCALER_FRAC_SHIFT in
    match a with
    | x_low_scaler =>
        safedivide dividend
          (usub (rd st x_ctr_low j)
                (uadd (rd st x_min j) (end_dz st x_end_deadz j)))
    | x_high_scaler =>
        safedivide dividend
          (usub (usub (rd st x_max j) (end_dz st x_end_deadz j))
                (rd st x_ctr_high j))
    | y_low_scaler =>
        safedivide dividend
          (usub (rd st y_ctr_low j)
                (uadd (rd st y_min j) (end_dz st y_end_deadz j)))
    | y_high_scaler =>
        safedivide dividend
          (usub (usub (rd st y_max j) (end_dz st y_end_deadz j))
                (rd st y_ctr_high j))
    | _ => rd st a j
    end
  else rd st a j.
Proof.
  intros Hn. two_sticks n; destruct j as [|[|j]]; destruct a; reflexivity.
Qed.

Lemma recalc_scalers_scalars (st : state) (n : nat) (f : avar -> arr) :
  set_arrays (recalc_scalers st n) f = set_arrays st f.
Proof. reflexivity. Qed.

Lemma recalc_stick_scalars (st : state) (n : nat) (f : avar -> arr) :
  set_arrays (recalc_stick st n) f = set_arrays st f.
Proof.
  unfold recalc_stick.
  rewrite recalc_scalers_scalars. apply recalc_centre_scalars.
Qed.

(** The zone switches are scalars: [recalc_stick] leaves them alone. *)
Lemma scalars_zones (st st' : state) :
  (forall f, set_arrays st' f = set_arrays st f) ->
  ctr_zones st' = ctr_zones st /\ end_zones st' = end_zones st.
Proof.
  intros H. specialize (H (arrays st)).
  split.
  - change (ctr_zones st') with (ctr_zones (set_arrays st' (arrays st))).
    rewrite H. reflexivity.
  - change (end_zones st') with (end_zones (set_arrays st' (arrays st))).
    rewrite H. reflexivity.
Qed.

Lemma recalc_stick_rd (st : state) (n : nat) (a : avar) (j : nat) :
  (n < 2)%nat ->
  rd (recalc_stick st n) a j =
  if (j =? n)%nat then coefficient st a j else rd st a j.
Proof.
  intros Hn. unfold recalc_stick. rewrite recalc_scalers_rd by exact Hn.
  destruct (Nat.eqb_spec j n) as [-> | Hj].
  - unfold end_dz.
    replace (end_zones (recalc_centre st n)) with (end_zones st)
      by reflexivity.
    rewrite !recalc_centre_rd by exact Hn. rewrite Nat.eqb_refl.
    destruct a; reflexivity.
  - rewrite recalc_centre_rd by exact Hn.
    destruct (Nat.eqb_spec j n); [contradiction | reflexivity].
Qed.

(** [coefficient] for one stick reads nothing that the recalculation for
    another stick writes. *)
Lemma coefficient_recalc_stick (st : state) (n : nat) (a : avar) (j : nat) :
  (n < 2)%nat -> j <> n ->
  coefficient (recalc_stick st n) a j = coefficient st a j.
Proof.
  intros Hn Hj. unfold coefficient, ctr_dz, end_dz.
  destruct (scalars_zones st (recalc_stick st n) (recalc_stick_scalars st n))
    as [-> ->].
  rewrite !recalc_stick_rd by exact Hn.
  destruct (Nat.eqb_spec j n); [contradiction | reflexivity].
Qed.

Lemma recalc_coefficients_rd (sticks : Z) (st : state) (a : avar) (j : nat) :
  (j < 2)%nat ->
  rd (recalc_coefficients sticks st) a j =
  if stick_selected sticks j then coefficient st a j else rd st a j.
Proof.
  intros Hj. unfold recalc_coefficients, for_sticks, stick_loop.
  cbn [fold_left].
  destruct (stick_selected sticks 1) eqn:E1,
           (stick_selected sticks 0) eqn:E0;
    two_sticks j; rewrite ?E0, ?E1;
    rewrite ?recalc_stick_rd by lia; cbn [Nat.eqb];
    rewrite ?coefficient_recalc_stick by lia; reflexivity.
Qed.

Lemma recalc_coefficients_scalars (sticks : Z) (st : state)
    (f : avar -> arr) :
  set_arrays (recalc_coefficients sticks st) f = set_arrays st f.
Proof.
  unfold recalc_coefficients, for_sticks, stick_loop. cbn [fold_left].
  destruct (stick_selected sticks 1), (stick_selected sticks 0);
    rewrite ?recalc_stick_scalars; reflexivity.
Qed.

Lemma coefficient_primary (st : state) (a : avar) (i : nat) :
  derived a = false -> coefficient st a i = rd st a i.
Proof. destruct a; intros H; try discriminate H; reflexivity. Qed.

Lemma recalc_coefficients_keeps (sticks : Z) (st : state) (a : avar)
    (i : nat) :
  derived a = false -> rd (recalc_coefficients sticks st) a i = rd st a i.
Proof.
  intros H. destruct (Nat.lt_ge_cases i 2) as [Hi | Hi].
  - rewrite recalc_coefficients_rd by exact Hi.
    rewrite coefficient_primary by exact H.
    destruct (stick_selected sticks i); reflexivity.
  - destruct i as [|[|i]]; [lia | lia | reflexivity].
Qed.

Lemma safedivide_nonpos (dividend divisor : Z) :
  0 <= dividend < 2 ^ 31 -> s32 divisor <= 0 ->
  safedivide dividend divisor = 0.
Proof.
  intros Hd Hs. unfold safedivide.
  destruct (Z.eqb_spec (s32 divisor) 0) as [E | E]; [reflexivity | cbn].
  destruct (s32_nonpos_cases _ Hs) as [H0 | Hbig].
  - exfalso. apply E. unfold s32. rewrite H0. reflexivity.
  - unfold udiv. rewrite (u32_id dividend) by (rewrite modulus_eq; lia).
    apply Z.div_small. lia.
Qed.

(** The same in exact integers: a difference [d] that does not leave the
    range of [int] and is zero or negative gives the scaler 0. *)
Lemma safedivide_exact_nonpos (dividend d : Z) :
  0 <= dividend < 2 ^ 31 -> - 2 ^ 31 <= d <= 0 ->
  safedivide dividend (u32 d) = 0.
Proof.
  intros Hd H. apply safedivide_nonpos; [exact Hd |].
  rewrite s32_u32, s32_id; lia.
Qed.

Lemma clamp_range (lo hi x : Z) : lo <= hi -> lo <= clamp lo hi x <= hi.
Proof.
  intros H. unfold clamp.
  destruct (Z.ltb_spec x lo); [lia |].
  destruct (Z.gtb_spec x hi); lia.
Qed.

Lemma read_ranges (st : state) (i : nat) :
  (-127 <= read8_x st i <= 127) /\ (-127 <= read8_y st i <= 127)
  /\ (0 <= read16_x st i <= 65535) /\ (0 <= read16_y st i <= 65535).
Proof.
  unfold read8_x, read8_y, read16_x, read16_y.
  repeat split; apply clamp_range; lia.
Qed.

(** C10: [recalc_coefficients] writes nothing but the derived values
    (ctr_low, ctr_high, low_scaler, high_scaler) of the sticks selected by
    its mask.  Every other array element (the calibration values min, ctr,
    max, ctr_deadz, end_deadz, smooth, the cached axis values, and all
    elements of a stick outside the mask) is as before, and so is every
    scalar of the store. *)
Theorem recalc_coefficients_frame (sticks : Z) (st : state) :
  (forall a i,
      derived a = false \/ stick_selected sticks i = false ->
      rd (recalc_coefficients sticks st) a i = rd st a i)
  /\ set_arrays (recalc_coefficients sticks st) (arrays st) = st.
Proof.
  split.
  - intros a i H. destruct (Nat.lt_ge_cases i 2) as [Hi | Hi].
    + destruct H as [H | H].
      * apply recalc_coefficients_keeps, H.
      * rewrite recalc_coefficients_rd by exact Hi. rewrite H. reflexivity.
    + destruct i as [|[|i]]; [lia | lia | reflexivity].
  - rewrite recalc_coefficients_scalars. destruct st. reflexivity.
Qed.

Lemma recalc_coefficients_frame_witness :
  rd (recalc_coefficients 1 documented_state) x_ctr 0 = 703
  /\ rd (recalc_coefficients 1 documented_state) x_ctr_low 1 = 0.
Proof.
  split.
  - rewrite (proj1 (recalc_coefficients_frame 1 documented_state) x_ctr 0%nat
               (or_introl eq_refl)).
    reflexivity.
  - rewrite (proj1 (recalc_coefficients_frame 1 documented_state) x_ctr_low
               1%nat (or_intror eq_refl)).
    reflexivity.
Defined.

(** C3: after [recalc_coefficients], for every selected stick, a scaler
    whose divisor (ctr_low - (min + end_dz), or (max - end_dz) - ctr_high,
    as computed and read as an [int]) is zero or negative is 0; the
    function is total, and whatever timing is cached afterwards the 8-bit
    and 16-bit conversions stay within -127..127 and 0..65535. *)
Theorem recalc_nonpositive_divisor (sticks : Z) (st : state) (i : nat) :
  (i < 2)%nat -> stick_selected sticks i = true ->
  let st' := recalc_coefficients sticks st in
  (s32 (usub (rd st' x_ctr_low i)
          (uadd (rd st x_min i) (end_dz st x_end_deadz i))) <= 0 ->
   rd st' x_low_scaler i = 0)
  /\ (s32 (usub (usub (rd st x_max i) (end_dz st x_end_deadz i))
             (rd st' x_ctr_high i)) <= 0 ->
      rd st' x_high_scaler i = 0)
  /\ (s32 (usub (rd st' y_ctr_low i)
             (uadd (rd st y_min i) (end_dz st y_end_deadz i))) <= 0 ->
      rd st' y_low_scaler i = 0)
  /\ (s32 (usub (usub (rd st y_max i) (end_dz st y_end_deadz i))
             (rd st' y_ctr_high i)) <= 0 ->
      rd st' y_high_scaler i = 0)
  /\ (forall j x y,
         let s := wr (wr st' x_axis j x) y_axis j y in
         (-127 <= read8_x s j <= 127) /\ (-127 <= read8_y s j <= 127)
         /\ (0 <= read16_x s j <= 65535) /\ (0 <= read16_y s j <= 65535)).
Proof.
  intros Hi Hs st'. subst st'.
  rewrite !recalc_coefficients_rd by exact Hi. rewrite Hs.
  cbn [coefficient].
  repeat split; try (intros H; apply safedivide_nonpos; [cbn; lia | exact H]);
    apply read_ranges.
Qed.

Lemma recalc_nonpositive_divisor_witness :
  rd (recalc_coefficients 1 low_centre_state) x_low_scaler 0 = 0.
Proof.
  apply (recalc_nonpositive_divisor 1 low_centre_state 0%nat);
    [ lia | reflexivity | vm_compute; discriminate ].
Defined.

(** ** The conversions of Joystick_Read *)

Lemma scaled_exact (s d shift : Z) :
  0 <= shift -> 0 <= s * d < modulus ->
  scaled s d shift = (s * d) / 2 ^ shift.
Proof.
  intros Hs H. unfold scaled, umul. rewrite u32_id by exact H.
  apply Z.shiftr_div_pow2, Hs.
Qed.

Lemma scaled_bounds (s d shift : Z) :
  0 < shift -> 0 <= scaled s d shift < 2 ^ 31.
Proof.
  intros Hs. unfold scaled. rewrite Z.shiftr_div_pow2 by lia.
  pose proof (u32_range (s * d)) as H. rewrite modulus_eq in H.
  unfold umul. split.
  - apply Z.div_pos; [lia | apply Z.pow_pos_nonneg; lia].
  - apply Z.div_lt_upper_bound; [apply Z.pow_pos_nonneg; lia |].
    assert (2 <= 2 ^ shift).
    { change 2 with (2 ^ 1) at 1. apply Z.pow_le_mono_r; lia. }
    nia.
Qed.

Lemma scaled_bound14 (s d : Z) : 0 <= scaled s d 14 < 2 ^ 18.
Proof.
  unfold scaled. rewrite Z.shiftr_div_pow2 by lia.
  pose proof (u32_range (s * d)) as H. rewrite modulus_eq in H.
  unfold umul. split.
  - apply Z.div_pos; lia.
  - apply Z.div_lt_upper_bound; lia.
Qed.

Lemma s32_uneg (v : Z) : 0 <= v < 2 ^ 31 -> s32 (uneg v) = - v.
Proof. intros H. unfold uneg. rewrite s32_u32. apply s32_id. lia. Qed.

Lemma s32_uadd (a b : Z) :
  - 2 ^ 31 <= a + b < 2 ^ 31 -> s32 (uadd a b) = a + b.
Proof. intros H. unfold uadd. rewrite s32_u32. apply s32_id, H. Qed.

Lemma s32_usub (a b : Z) :
  - 2 ^ 31 <= a - b < 2 ^ 31 -> s32 (usub a b) = a - b.
Proof. intros H. unfold usub. rewrite s32_u32. apply s32_id, H. Qed.

Lemma usub_exact (a b : Z) : 0 <= b <= a -> a < modulus -> usub a b = a - b.
Proof. intros H Ha. unfold usub. apply u32_id. lia. Qed.

Lemma clamp_mono (lo hi x y : Z) :
  lo <= hi -> x <= y -> clamp lo hi x <= clamp lo hi y.
Proof.
  intros Hlh Hxy. unfold clamp.
  destruct (Z.ltb_spec x lo), (Z.ltb_spec y lo); try lia;
    destruct (Z.gtb_spec x hi), (Z.gtb_spec y hi); lia.
Qed.

(** [offset] does not decrease with the timing, as long as the two
    products stay below 2^32. *)
Lemma offset_mono (lo hi ls hs shift r1 r2 : Z) :
  0 <= shift -> 0 <= ls -> 0 <= hs -> r1 <= r2 ->
  offset lo hi ls hs shift r1 <= offset lo hi ls hs shift r2.
Proof.
  intros Hsh Hls Hhs Hr. unfold offset.
  assert (Hp : 0 < 2 ^ shift) by (apply Z.pow_pos_nonneg; lia).
  destruct (Z.gtb_spec r1 lo), (Z.gtb_spec r2 lo); try lia.
  - destruct (Z.ltb_spec r1 hi), (Z.ltb_spec r2 hi); try lia.
    + apply Z.div_pos; [nia | lia].
    + apply Z.div_le_mono; [lia | nia].
  - assert (0 <= (ls * (lo - r1)) / 2 ^ shift)
      by (apply Z.div_pos; [nia | lia]).
    destruct (Z.ltb_spec r2 hi); [lia |].
    assert (0 <= (hs * (r2 - hi)) / 2 ^ shift)
      by (apply Z.div_pos; [nia | lia]).
    lia.
  - assert ((ls * (lo - r2)) / 2 ^ shift <= (ls * (lo - r1)) / 2 ^ shift)
      by (apply Z.div_le_mono; [lia | nia]).
    lia.
Qed.

Section Conversion.

Variables lo hi ls hs r : Z.
Hypothesis Hlo : in_u32 lo.
Hypothesis Hhi : in_u32 hi.
Hypothesis Hls : in_u32 ls.
Hypothesis Hhs : in_u32 hs.
Hypothesis Hr : in_u32 r.
(** The two products fit in an [unsigned int]. *)
Hypothesis Hlow : ls * (lo - r) < modulus.
Hypothesis Hhigh : hs * (r - hi) < modulus.

Lemma scaled_high (shift : Z) :
  0 <= shift -> r >= hi ->
  scaled hs (usub r hi) shift = (hs * (r - hi)) / 2 ^ shift.
Proof.
  intros Hs H. unfold in_u32 in *.
  rewrite usub_exact by lia. apply scaled_exact; [exact Hs | nia].
Qed.

Lemma scaled_low (shift : Z) :
  0 <= shift -> r <= lo ->
  scaled ls (usub lo r) shift = (ls * (lo - r)) / 2 ^ shift.
Proof.
  intros Hs H. unfold in_u32 in *.
  rewrite usub_exact by lia. apply scaled_exact; [exact Hs | nia].
Qed.

Lemma pre8_pos :
  (if r >? lo then
     if r <? hi then 0 else s32 (scaled hs (usub r hi) (SCALER_FRAC_SHIFT + 8))
   else s32 (uneg (scaled ls (usub lo r) (SCALER_FRAC_SHIFT + 8))))
  = offset lo hi ls hs 22 r.
Proof.
  unfold offset. change (SCALER_FRAC_SHIFT + 8) with 22.
  destruct (Z.gtb_spec r lo).
  - destruct (Z.ltb_spec r hi); [reflexivity |].
    rewrite s32_id by (pose proof (scaled_bounds hs (usub r hi) 22); lia).
    apply scaled_high; lia.
  - rewrite s32_uneg by (apply scaled_bounds; lia).
    rewrite scaled_low by lia. reflexivity.
Qed.

Lemma pre8_neg :
  (if r >? lo then
     if r <? hi then 0
     else s32 (uneg (scaled hs (usub r hi) (SCALER_FRAC_SHIFT + 8)))
   else s32 (scaled ls (usub lo r) (SCALER_FRAC_SHIFT + 8)))
  = - offset lo hi ls hs 22 r.
Proof.
  unfold offset. change (SCALER_FRAC_SHIFT + 8) with 22.
  destruct (Z.gtb_spec r lo).
  - destruct (Z.ltb_spec r hi); [reflexivity |].
    rewrite s32_uneg by (apply scaled_bounds; lia).
    rewrite scaled_high by lia. reflexivity.
  - rewrite s32_id by (pose proof (scaled_bounds ls (usub lo r) 22); lia).
    rewrite scaled_low by lia. lia.
Qed.

Lemma pre16_pos :
  (if r >? lo then
     if r <? hi then 32767
     else s32 (uadd 32767 (scaled hs (usub r hi) SCALER_FRAC_SHIFT))
   else s32 (usub 32767 (scaled ls (usub lo r) SCALER_FRAC_SHIFT)))
  = 32767 + offset lo hi ls hs 14 r.
Proof.
  unfold offset. change SCALER_FRAC_SHIFT with 14.
  destruct (Z.gtb_spec r lo).
  - destruct (Z.ltb_spec r hi); [reflexivity |].
    rewrite s32_uadd by (pose proof (scaled_bound14 hs (usub r hi)); lia).
    rewrite scaled_high by lia. reflexivity.
  - rewrite s32_usub by (pose proof (scaled_bound14 ls (usub lo r)); lia).
    rewrite scaled_low by lia. lia.
Qed.

Lemma pre16_neg :
  (if r >? lo then
     if r <? hi then 32767
     else s32 (usub 32767 (scaled hs (usub r hi) SCALER_FRAC_SHIFT))
   else s32 (uadd 32767 (scaled ls (usub lo r) SCALER_FRAC_SHIFT)))
  = 32767 - offset lo hi ls hs 14 r.
Proof.
  unfold offset. change SCALER_FRAC_SHIFT with 14.
  destruct (Z.gtb_spec r lo).
  - destruct (Z.ltb_spec r hi); [reflexivity |].
    rewrite s32_usub by (pose proof (scaled_bound14 hs (usub r hi)); lia).
    rewrite scaled_high by lia. reflexivity.
  - rewrite s32_uadd by (pose proof (scaled_bound14 ls (usub lo r)); lia).
    rewrite scaled_low by lia. lia.
Qed.

End Conversion.

Ltac other_array := rewrite !rd_wr_other_array by discriminate.

Lemma read8_x_offset (st : state) (i : nat) (r : Z) :
  (i < 2)%nat -> wf_state st -> in_u32 r ->
  rd st x_low_scaler i * (rd st x_ctr_low i - r) < modulus ->
  rd st x_high_scaler i * (r - rd st x_ctr_high i) < modulus ->
  read8_x (wr st x_axis i r) i =
  clamp (-127) 127
    (offset (rd st x_ctr_low i) (rd st x_ctr_high i)
       (rd st x_low_scaler i) (rd st x_high_scaler i) 22 r).
Proof.
  intros Hi Hwf Hr Hl Hh. unfold read8_x.
  rewrite !rd_wr_same by exact Hi. other_array.
  f_equal. apply pre8_pos; auto.
Qed.

Lemma read8_y_offset (st : state) (i : nat) (r : Z) :
  (i < 2)%nat -> wf_state st -> in_u32 r ->
  rd st y_low_scaler i * (rd st y_ctr_low i - r) < modulus ->
  rd st y_high_scaler i * (r - rd st y_ctr_high i) < modulus ->
  read8_y (wr st y_axis i r) i =
  clamp (-127) 127
    (- offset (rd st y_ctr_low i) (rd st y_ctr_high i)
         (rd st y_low_scaler i) (rd st y_high_scaler i) 22 r).
Proof.
  intros Hi Hwf Hr Hl Hh. unfold read8_y.
  rewrite !rd_wr_same by exact Hi. other_array.
  f_equal. apply pre8_neg; auto.
Qed.

Lemma read16_x_offset (st : state) (i : nat) (r : Z) :
  (i < 2)%nat -> wf_state st -> in_u32 r ->
  rd st x_low_scaler i * (rd st x_ctr_low i - r) < modulus ->
  rd st x_high_scaler i * (r - rd st x_ctr_high i) < modulus ->
  read16_x (wr st x_axis i r) i =
  clamp 0 65535
    (32767 + offset (rd st x_ctr_low i) (rd st x_ctr_high i)
               (rd st x_low_scaler i) (rd st x_high_scaler i) 14 r).
Proof.
  intros Hi Hwf Hr Hl Hh. unfold read16_x.
  rewrite !rd_wr_same by exact Hi. other_array.
  f_equal. apply pre16_pos; auto.
Qed.

Lemma read16_y_offset (st : state) (i : nat) (r : Z) :
  (i < 2)%nat -> wf_state st -> in_u32 r ->
  rd st y_low_scaler i * (rd st y_ctr_low i - r) < modulus ->
  rd st y_high_scaler i * (r - rd st y_ctr_high i) < modulus ->
  read16_y (wr st y_axis i r) i =
  clamp 0 65535
    (32767 - offset (rd st y_ctr_low i) (rd st y_ctr_high i)
               (rd st y_low_scaler i) (rd st y_high_scaler i) 14 r).
Proof.
  intros Hi Hwf Hr Hl Hh. unfold read16_y.
  rewrite !rd_wr_same by exact Hi. other_array.
  f_equal. apply pre16_neg; auto.
Qed.

(** The products of two timings [r1 <= r2] fit when the lower one fits
    below the centre and the higher one above it. *)
Lemma products_fit (lo hi ls hs r1 r2 : Z) :
  0 <= ls -> 0 <= hs -> r1 <= r2 ->
  ls * (lo - r1) < modulus -> hs * (r2 - hi) < modulus ->
  ls * (lo - r2) < modulus /\ hs * (r1 - hi) < modulus.
Proof. intros. split; nia. Qed.

(** C1, as the code has it: for a fixed calibration the four conversions
    of Joystick_Read always stay within -127..127 (8 bit) and 0..65535
    (16 bit); over raw timings whose scaler products fit in 32 bits the
    X conversions do not decrease and the Y conversions do not increase
    when the cached raw timing grows. *)
Theorem conversions_range_and_direction
    (st : state) (i : nat) (r1 r2 : Z) :
  (i < 2)%nat -> wf_state st -> 0 <= r1 -> r1 <= r2 -> r2 < modulus ->
  ((-127 <= read8_x (wr st x_axis i r1) i <= 127)
   /\ (-127 <= read8_y (wr st y_axis i r1) i <= 127)
   /\ (0 <= read16_x (wr st x_axis i r1) i <= 65535)
   /\ (0 <= read16_y (wr st y_axis i r1) i <= 65535))
  /\ (rd st x_low_scaler i * (rd st x_ctr_low i - r1) < modulus ->
      rd st x_high_scaler i * (r2 - rd st x_ctr_high i) < modulus ->
      read8_x (wr st x_axis i r1) i <= read8_x (wr st x_axis i r2) i
      /\ read16_x (wr st x_axis i r1) i <= read16_x (wr st x_axis i r2) i)
  /\ (rd st y_low_scaler i * (rd st y_ctr_low i - r1) < modulus ->
      rd st y_high_scaler i * (r2 - rd st y_ctr_high i) < modulus ->
      read8_y (wr st y_axis i r2) i <= read8_y (wr st y_axis i r1) i
      /\ read16_y (wr st y_axis i r2) i <= read16_y (wr st y_axis i r1) i).
Proof.
  intros Hi Hwf H0 H12 H2.
  assert (Hr1 : in_u32 r1) by (unfold in_u32; lia).
  assert (Hr2 : in_u32 r2) by (unfold in_u32; lia).
  split; [| split].
  - pose proof (read_ranges (wr st x_axis i r1) i) as (A & _ & C & _).
    pose proof (read_ranges (wr st y_axis i r1) i) as (_ & B & _ & D).
    auto.
  - intros Hl Hh.
    pose proof (Hwf x_low_scaler i) as Hls.
    pose proof (Hwf x_high_scaler i) as Hhs. unfold in_u32 in Hls, Hhs.
    destruct (products_fit _ _ _ _ r1 r2 (proj1 Hls) (proj1 Hhs) H12 Hl Hh)
      as [Hl2 Hh1].
    rewrite !read8_x_offset, !read16_x_offset by assumption.
    split; apply clamp_mono; try lia;
      [| apply Z.add_le_mono_l]; apply offset_mono; lia.
  - intros Hl Hh.
    pose proof (Hwf y_low_scaler i) as Hls.
    pose proof (Hwf y_high_scaler i) as Hhs. unfold in_u32 in Hls, Hhs.
    destruct (products_fit _ _ _ _ r1 r2 (proj1 Hls) (proj1 Hhs) H12 Hl Hh)
      as [Hl2 Hh1].
    rewrite !read8_y_offset, !read16_y_offset by assumption.
    assert (offset (rd st y_ctr_low i) (rd st y_ctr_high i)
              (rd st y_low_scaler i) (rd st y_high_scaler i) 22 r1
            <= offset (rd st y_ctr_low i) (rd st y_ctr_high i)
                 (rd st y_low_scaler i) (rd st y_high_scaler i) 22 r2)
      by (apply offset_mono; lia).
    assert (offset (rd st y_ctr_low i) (rd st y_ctr_high i)
              (rd st y_low_scaler i) (rd st y_high_scaler i) 14 r1
            <= offset (rd st y_ctr_low i) (rd st y_ctr_high i)
                 (rd st y_low_scaler i) (rd st y_high_scaler i) 14 r2)
      by (apply offset_mono; lia).
    split; apply clamp_mono; lia.
Qed.

(** The products fit for every timing within eight times the span that
    the scaler was computed for. *)
Lemma scaler_product_fits (divisor distance : Z) :
  0 < divisor < 2 ^ 31 -> 0 <= distance < 8 * divisor ->
  safedivide (Z.shiftl 32768 SCALER_FRAC_SHIFT) divisor * distance < modulus.
Proof.
  intros Hd Hx. unfold safedivide.
  rewrite s32_id by lia.
  destruct (Z.eqb_spec divisor 0) as [E | _]; [lia | cbn [negb]].
  unfold udiv. rewrite !u32_id by (rewrite modulus_eq; cbn; lia).
  change (Z.shiftl 32768 SCALER_FRAC_SHIFT) with 536870912.
  rewrite modulus_eq.
  pose proof (Z.mul_div_le 536870912 divisor (proj1 Hd)) as H.
  assert (0 <= 536870912 / divisor) by (apply Z.div_pos; lia).
  nia.
Qed.

Lemma documented_state_wf : wf_state documented_state.
Proof.
  intros a i. destruct a; destruct i as [|[|i]]; vm_compute;
    (split; [discriminate | reflexivity]).
Qed.

Lemma conversions_range_and_direction_witness :
  read8_x (wr documented_state x_axis 0 0) 0
  <= read8_x (wr documented_state x_axis 0 1406) 0
  /\ read16_y (wr documented_state y_axis 0 1694) 0
     <= read16_y (wr documented_state y_axis 0 0) 0.
Proof.
  assert (H2 : (0 < 2)%nat) by (apply Nat.lt_0_succ).
  split.
  - pose proof (conversions_range_and_direction documented_state 0%nat
                  0 1406 H2 documented_state_wf (Z.le_refl 0)
                  (proj1 (Z.leb_le 0 1406) eq_refl)
                  eq_refl) as (_ & Hx & _).
    apply Hx; vm_compute; reflexivity.
  - pose proof (conversions_range_and_direction documented_state 0%nat
                  0 1694 H2 documented_state_wf (Z.le_refl 0)
                  (proj1 (Z.leb_le 0 1694) eq_refl)
                  eq_refl) as (_ & _ & Hy).
    apply Hy; vm_compute; reflexivity.
Defined.

(** C1 as stated fails twice on the documented calibration of stick 0:
    the Y conversions fall from 127 to -127 and from 65534 to 0 as the
    timing grows from 0 to 1694, and the X conversions fall from 127 to 1
    and from 65535 to 33217 between the timings 1407 and 6000, where the
    product of scaler and distance no longer fits in 32 bits.  The last
    line shows the first fall in the registers that Joystick_Read
    returns. *)
Lemma conversions_not_nondecreasing :
  (read8_y (cached 0 0) 0 = 127 /\ read8_y (cached 0 1694) 0 = -127
   /\ read8_y (cached 0 1694) 0 < read8_y (cached 0 0) 0)
  /\ (read16_y (cached 0 0) 0 = 65534 /\ read16_y (cached 0 1694) 0 = 0
      /\ read16_y (cached 0 1694) 0 < read16_y (cached 0 0) 0)
  /\ (read8_x (cached 1407 0) 0 = 127 /\ read8_x (cached 6000 0) 0 = 1
      /\ read8_x (cached 6000 0) 0 < read8_x (cached 1407 0) 0)
  /\ (read16_x (cached 1407 0) 0 = 65535
      /\ read16_x (cached 6000 0) 0 = 33217
      /\ read16_x (cached 6000 0) 0 < read16_x (cached 1407 0) 0)
  /\ (Read_y8 0 quiet (cached 0 0) = Some 127
      /\ Read_y8 0 quiet (cached 0 1694) = Some (-127)).
Proof. vm_compute. repeat split. Qed.

(** ** The fields of r0 *)

Lemma land_255 (z : Z) : Z.land z 255 = z mod 256.
Proof. change 255 with (Z.ones 8). rewrite Z.land_ones by lia. reflexivity. Qed.

Lemma land_65535 (z : Z) : Z.land z 65535 = z mod 65536.
Proof.
  change 65535 with (Z.ones 16). rewrite Z.land_ones by lia. reflexivity.
Qed.

Lemma s8_byte (x : Z) : -127 <= x <= 127 -> s8 (Z.land x 255) = x.
Proof.
  intros H. rewrite land_255. unfold s8.
  destruct (Z.le_gt_cases 0 x).
  - rewrite Z.mod_small by lia. destruct (Z.ltb_spec x 128); lia.
  - replace (x mod 256) with (x + 256)
      by (apply Z.mod_unique with (q := -1); lia).
    destruct (Z.ltb_spec (x + 256) 128); lia.
Qed.

Lemma fire_buttons_cases (joy : Z) (n : nat) (b1 b2 : Z) :
  let b := fire_buttons joy n b1 b2 in
  b = 0 \/ b = b1 \/ b = b2 \/ b = Z.lor b1 b2.
Proof.
  unfold fire_buttons. destruct n.
  - destruct (Z.land joy PC_JOY_A_B1 =? 0), (Z.land joy PC_JOY_A_B2 =? 0);
      cbn; auto.
  - destruct (Z.land joy PC_JOY_B_B1 =? 0), (Z.land joy PC_JOY_B_B2 =? 0);
      cbn; auto.
Qed.

(** Reason code 0: bits 8-15 and 0-7 of r0 are the two 8-bit values. *)
Lemma packed8_fields (x y b : Z) :
  -127 <= x <= 127 -> -127 <= y <= 127 ->
  b = 0 \/ b = Z.shiftl 1 16 \/ b = Z.shiftl 1 17
  \/ b = Z.lor (Z.shiftl 1 16) (Z.shiftl 1 17) ->
  let r := Z.lor (Z.lor (Z.land y 255) (Z.shiftl (Z.land x 255) 8)) b in
  r0_x8 r = x /\ r0_y8 r = y.
Proof.
  intros Hx Hy Hb r. subst r. unfold r0_x8, r0_y8.
  assert (Eb8 : Z.land (Z.shiftr b 8) 255 = 0)
    by (destruct Hb as [-> | [-> | [-> | ->]]]; reflexivity).
  assert (Eb0 : Z.land b 255 = 0)
    by (destruct Hb as [-> | [-> | [-> | ->]]]; reflexivity).
  pose proof (Z.mod_pos_bound x 256 eq_refl) as Bx.
  pose proof (Z.mod_pos_bound y 256 eq_refl) as By.
  split.
  - rewrite !Z.shiftr_lor, !Z.land_lor_distr_l, Eb8, Z.lor_0_r.
    rewrite Z.shiftr_shiftl_l by lia. cbn [Z.sub Z.opp Z.pos_sub Z.add].
    rewrite Z.shiftl_0_r.
    rewrite (land_255 y), Z.shiftr_div_pow2, Z.div_small by (cbn; lia).
    rewrite Z.land_0_l, Z.lor_0_l, <- Z.land_assoc.
    change (Z.land 255 255) with 255. apply s8_byte, Hx.
  - rewrite !Z.land_lor_distr_l, Eb0, Z.lor_0_r, <- Z.land_assoc.
    change (Z.land 255 255) with 255.
    replace (Z.land (Z.shiftl (Z.land x 255) 8) 255) with 0.
    + rewrite Z.lor_0_r. apply s8_byte, Hy.
    + rewrite land_255, Z.shiftl_mul_pow2 by lia.
      rewrite land_255. change (2 ^ 8) with 256.
      rewrite Z.mod_mul by lia. reflexivity.
Qed.

(** Reason code 1: bits 16-31 and 0-15 of r0 are the two 16-bit values. *)
Lemma packed16_fields (x y : Z) :
  0 <= x <= 65535 -> 0 <= y <= 65535 ->
  let r := u32 (Z.lor (Z.land y 65535) (Z.shiftl x 16)) in
  r0_x16 r = x /\ r0_y16 r = y.
Proof.
  intros Hx Hy r. subst r. unfold r0_x16, r0_y16.
  assert (E : Z.lor (Z.land y 65535) (Z.shiftl x 16) = y + x * 65536).
  { rewrite land_65535, Z.mod_small by lia.
    rewrite Z.shiftl_mul_pow2 by lia. change (2 ^ 16) with 65536.
    rewrite <- Z.lxor_lor.
    - rewrite <- Z.add_nocarry_lxor; [reflexivity |].
      apply Z.bits_inj'. intros n Hn. rewrite Z.land_spec, Z.bits_0.
      destruct (Z.ltb_spec n 16).
      + replace (x * 65536) with (Z.shiftl x 16)
          by (rewrite Z.shiftl_mul_pow2 by lia; reflexivity).
        rewrite Z.shiftl_spec_low by lia. apply andb_false_r.
      + replace y with (y mod 2 ^ 16) by (apply Z.mod_small; cbn; lia).
        rewrite Z.mod_pow2_bits_high by lia. reflexivity.
    - apply Z.bits_inj'. intros n Hn. rewrite Z.land_spec, Z.bits_0.
      destruct (Z.ltb_spec n 16).
      + replace (x * 65536) with (Z.shiftl x 16)
          by (rewrite Z.shiftl_mul_pow2 by lia; reflexivity).
        rewrite Z.shiftl_spec_low by lia. apply andb_false_r.
      + replace y with (y mod 2 ^ 16) by (apply Z.mod_small; cbn; lia).
        rewrite Z.mod_pow2_bits_high by lia. reflexivity. }
  rewrite E, u32_id by (rewrite modulus_eq; lia).
  rewrite Z.shiftr_div_pow2, !land_65535 by lia. change (2 ^ 16) with 65536.
  split.
  - rewrite Z.div_add, Z.div_small, Z.mod_small by lia. lia.
  - rewrite Z.mod_add, Z.mod_small by lia. reflexivity.
Qed.

(** Joystick_Read with reason code 0 returns the 8-bit conversions of the
    cached timings in r0, with reason code 1 the 16-bit ones. *)
Lemma read_result_8 (r : regs) (joy : Z) (st : state) (n : nat) :
  (n < 2)%nat -> r0 r = Z.of_nat n ->
  fst (read_result r joy st) = None
  /\ r0_x8 (r0 (snd (read_result r joy st))) = read8_x st n
  /\ r0_y8 (r0 (snd (read_result r joy st))) = read8_y st n.
Proof.
  intros Hn Hr. unfold read_result. rewrite Hr.
  pose proof (read_ranges st n) as (Bx & By & _ & _).
  pose proof (fire_buttons_cases joy n (Z.shiftl 1 16) (Z.shiftl 1 17)) as Hb.
  two_sticks n; cbn [fst snd r0 Z.of_nat Z.land Z.shiftr Z.eqb Z.ltb
                       NUM_STICKS Z.to_nat Z.compare Pos.of_succ_nat
                       Pos.succ Z.shiftl Z.of_N Pos.land N.of_nat
                       Pos.compare Pos.compare_cont Pos.to_nat
                       Pos.iter_op Init.Nat.add] in *;
    (split; [reflexivity | apply packed8_fields; assumption]).
Qed.

Lemma read_result_16 (r : regs) (joy : Z) (st : state) (n : nat) :
  (n < 2)%nat -> r0 r = 256 + Z.of_nat n ->
  fst (read_result r joy st) = None
  /\ r0_x16 (r0 (snd (read_result r joy st))) = read16_x st n
  /\ r0_y16 (r0 (snd (read_result r joy st))) = read16_y st n.
Proof.
  intros Hn Hr. unfold read_result. rewrite Hr.
  pose proof (read_ranges st n) as (_ & _ & Bx & By).
  two_sticks n; cbn [fst snd r0 Z.of_nat Z.land Z.shiftr Z.eqb Z.ltb
                       NUM_STICKS Z.to_nat Z.compare Pos.of_succ_nat
                       Pos.succ Z.shiftl Z.of_N Pos.land N.of_nat
                       Pos.compare Pos.compare_cont Pos.to_nat
                       Pos.iter_op Init.Nat.add Z.add Pos.add] in *;
    (split; [reflexivity | apply packed16_fields; assumption]).
Qed.

Lemma recalc_coefficients_fields (sticks : Z) (st : state) :
  calib_status (recalc_coefficients sticks st) = calib_status st
  /\ polling_stick (recalc_coefficients sticks st) = polling_stick st
  /\ ctr_zones (recalc_coefficients sticks st) = ctr_zones st
  /\ end_zones (recalc_coefficients sticks st) = end_zones st.
Proof.
  pose proof (recalc_coefficients_scalars sticks st (arrays st)) as E.
  repeat split.
  - exact (f_equal calib_status E).
  - exact (f_equal polling_stick E).
  - exact (f_equal ctr_zones E).
  - exact (f_equal end_zones E).
Qed.

(** ** The documented calibration of stick 0 *)

Section Scenario.

Variables (st : state) (sticks : Z).
Hypothesis Hsel : stick_selected sticks 0 = true.
Hypothesis Hctr : rd st x_ctr 0 = 703.
Hypothesis Hzone : rd st x_ctr_deadz 0 = 48.
Hypothesis Hmin : rd st x_min 0 = 0.
Hypothesis Hmax : rd st x_max 0 = 1406.
Hypothesis Hend : rd st x_end_deadz 0 = 0.

(** The store after the recalculation, with [raw] cached for the X axis
    of stick 0. *)
Let at_raw (raw : Z) : state :=
  wr (recalc_coefficients sticks st) x_axis 0 raw.

Lemma scenario_conversions :
  read8_x (at_raw 703) 0 = 0 /\ read16_x (at_raw 703) 0 = 32767
  /\ read8_x (at_raw 0) 0 = -127 /\ read16_x (at_raw 0) 0 = 0
  /\ read8_x (at_raw 1406) 0 = 127 /\ read16_x (at_raw 1406) 0 = 65534.
Proof.
  unfold at_raw, read8_x, read16_x.
  rewrite !rd_wr_same by lia. other_array.
  rewrite !recalc_coefficients_rd by lia. rewrite Hsel.
  cbn [coefficient]. unfold ctr_dz, end_dz.
  rewrite Hctr, Hzone, Hmin, Hmax, Hend.
  destruct (ctr_zones st), (end_zones st); vm_compute; repeat split.
Qed.

End Scenario.

(** ** Joystick_Read *)

Lemma swihandler_Read (r : regs) (env : environment) (st : state) :
  MicoJoy_swihandler Joystick_Read r env st
  = Some (swi_Joystick_Read r env st).
Proof. reflexivity. Qed.

Lemma read_when_polling (r : regs) (env : environment) (st : state) :
  calib_status st = CALIB_NONE -> polling_stick st = true ->
  swi_Joystick_Read r env st
  = (read_result r (game_port env) (set_swi_in_last_min st true),
     set_swi_in_last_min st true).
Proof.
  intros Hc Hp. unfold swi_Joystick_Read. rewrite Hc.
  cbn [CALIB_NONE Z.eqb negb polling_stick set_swi_in_last_min].
  rewrite Hp. reflexivity.
Qed.

Lemma Read_fields_when_polling (n : nat) (env : environment) (st : state) :
  (n < 2)%nat -> calib_status st = CALIB_NONE -> polling_stick st = true ->
  Read_x8 (Z.of_nat n) env st = Some (read8_x st n)
  /\ Read_y8 (Z.of_nat n) env st = Some (read8_y st n)
  /\ Read_x16 (Z.of_nat n) env st = Some (read16_x st n)
  /\ Read_y16 (Z.of_nat n) env st = Some (read16_y st n).
Proof.
  intros Hn Hc Hp.
  unfold Read_x8, Read_y8, Read_x16, Read_y16, Read_field.
  rewrite !swihandler_Read, !read_when_polling by assumption.
  assert (E8 : r0 (mkRegs (Z.lor (Z.shiftl 0 8) (Z.of_nat n)) 0)
               = Z.of_nat n) by reflexivity.
  assert (E16 : r0 (mkRegs (Z.lor (Z.shiftl 1 8) (Z.of_nat n)) 0)
                = 256 + Z.of_nat n) by (two_sticks n; reflexivity).
  destruct (read_result_8 _ (game_port env) (set_swi_in_last_min st true)
              n Hn E8) as (A & B & C).
  destruct (read_result_16 _ (game_port env) (set_swi_in_last_min st true)
              n Hn E16) as (A' & B' & C').
  destruct (read_result (mkRegs (Z.lor (Z.shiftl 0 8) (Z.of_nat n)) 0)
              (game_port env) (set_swi_in_last_min st true)) as [e r].
  destruct (read_result (mkRegs (Z.lor (Z.shiftl 1 8) (Z.of_nat n)) 0)
              (game_port env) (set_swi_in_last_min st true)) as [e' r'].
  cbn [fst snd] in *. subst e e'. rewrite B, C, B', C'.
  repeat split; reflexivity.
Qed.

(** C2, as the code has it: with stick 0 axis X calibrated as ctr=703,
    ctrDeadzone=48, min=0, max=1406 and end dead zone 0, the coefficients
    recalculated, the calibration state None and polling active, a
    Joystick_Read of stick 0 with the raw timing cached returns X = 0
    (8 bit) and 0x7fff (16 bit) for raw=703, -127 and 0x0000 for raw=0,
    and 127 and 0xFFFE for raw=1406. *)
Theorem documented_scenario
    (st : state) (sticks : Z) (env : environment) :
  stick_selected sticks 0 = true ->
  rd st x_ctr 0 = 703 -> rd st x_ctr_deadz 0 = 48 ->
  rd st x_min 0 = 0 -> rd st x_max 0 = 1406 -> rd st x_end_deadz 0 = 0 ->
  calib_status st = CALIB_NONE -> polling_stick st = true ->
  let at_raw raw := wr (recalc_coefficients sticks st) x_axis 0 raw in
  Read_x8 0 env (at_raw 703) = Some 0
  /\ Read_x16 0 env (at_raw 703) = Some 32767
  /\ Read_x8 0 env (at_raw 0) = Some (-127)
  /\ Read_x16 0 env (at_raw 0) = Some 0
  /\ Read_x8 0 env (at_raw 1406) = Some 127
  /\ Read_x16 0 env (at_raw 1406) = Some 65534.
Proof.
  intros Hsel Hctr Hzone Hmin Hmax Hend Hc Hp at_raw.
  destruct (recalc_coefficients_fields sticks st) as (Ec & Ep & _).
  assert (H : forall raw,
             Read_x8 0 env (at_raw raw) = Some (read8_x (at_raw raw) 0)
             /\ Read_x16 0 env (at_raw raw) = Some (read16_x (at_raw raw) 0)).
  { intros raw.
    destruct (Read_fields_when_polling 0 env (at_raw raw)) as (A & _ & B & _);
      [ lia | exact (eq_trans Ec Hc) | exact (eq_trans Ep Hp) | ].
    split; assumption. }
  destruct (scenario_conversions st sticks Hsel Hctr Hzone Hmin Hmax Hend)
    as (E1 & E2 & E3 & E4 & E5 & E6).
  fold (at_raw 703) in E1, E2. fold (at_raw 0) in E3, E4.
  fold (at_raw 1406) in E5, E6.
  repeat split;
    [ rewrite (proj1 (H 703)), E1 | rewrite (proj2 (H 703)), E2
    | rewrite (proj1 (H 0)), E3 | rewrite (proj2 (H 0)), E4
    | rewrite (proj1 (H 1406)), E5 | rewrite (proj2 (H 1406)), E6 ];
    reflexivity.
Qed.

Lemma documented_scenario_witness :
  Read_x8 0 quiet (wr (recalc_coefficients 1 documented_state) x_axis 0 0)
  = Some (-127)
  /\ Read_x16 0 quiet
       (wr (recalc_coefficients 1 documented_state) x_axis 0 1406)
     = Some 65534.
Proof.
  pose proof (documented_scenario documented_state 1 quiet
                eq_refl eq_refl eq_refl eq_refl eq_refl eq_refl eq_refl
                eq_refl) as (_ & _ & A & _ & _ & B).
  split; [exact A | exact B].
Defined.

(** C2 as stated fails at its last value: on the documented calibration,
    with the raw timing 1406 cached, the 16-bit read of stick 0 returns
    X = 0xFFFE, not 0xFFFF. *)
Lemma documented_scenario_16bit_maximum :
  Read_x16 0 quiet (cached 1406 0) = Some 65534
  /\ Read_x16 0 quiet (cached 1406 0) <> Some 65535.
Proof. split; [vm_compute; reflexivity | vm_compute; discriminate]. Qed.

Lemma read_result_supported (r : regs) (joy : Z) (st : state) :
  supported_reason r -> fst (read_result r joy st) = None.
Proof.
  intros [H | H]; unfold read_result; rewrite H; cbn [Z.eqb];
    destruct (Z.land (r0 r) 255 <? Z.of_nat NUM_STICKS); reflexivity.
Qed.

Lemma read_result_not_calib (r : regs) (joy : Z) (st : state) :
  fst (read_result r joy st) <> Some error_calib.
Proof.
  unfold read_result.
  destruct (Z.shiftr (Z.land (r0 r) 65280) 8 =? 0);
    [ destruct (Z.land (r0 r) 255 <? Z.of_nat NUM_STICKS); discriminate | ].
  destruct (Z.shiftr (Z.land (r0 r) 65280) 8 =? 1);
    [ destruct (Z.land (r0 r) 255 <? Z.of_nat NUM_STICKS); discriminate | ].
  discriminate.
Qed.

(** C6: while the calibration state is not None, Joystick_Read fails with
    the CalibrationIncomplete error ([error_calib]) and the store is as
    before.  Once the state is None the call returns, never with that
    error, and without any error when the reason code is one of the two
    supported and polling is running or can be started. *)
Theorem read_gated_by_calibration
    (r : regs) (env : environment) (st : state) :
  (calib_status st <> CALIB_NONE ->
   MicoJoy_swihandler Joystick_Read r env st
   = Some (Some error_calib, r, st))
  /\ (calib_status st = CALIB_NONE ->
      exists e r' st',
        MicoJoy_swihandler Joystick_Read r env st = Some (e, r', st')
        /\ e <> Some error_calib
        /\ (supported_reason r ->
            polling_stick st = true \/ CallEvery env = None ->
            e = None)).
Proof.
  rewrite swihandler_Read. unfold swi_Joystick_Read. split.
  - intros H. destruct (Z.eqb_spec (calib_status st) CALIB_NONE);
      [contradiction | reflexivity].
  - intros H. rewrite H.
    cbn [CALIB_NONE Z.eqb negb polling_stick set_swi_in_last_min].
    destruct (polling_stick st) eqn:Hp; cbn [negb].
    + destruct (read_result r (game_port env) (set_swi_in_last_min st true))
        as [e r'] eqn:E.
      exists e, r', (set_swi_in_last_min st true).
      split; [reflexivity | split].
      * pose proof (read_result_not_calib r (game_port env)
                      (set_swi_in_last_min st true)) as N.
        rewrite E in N. exact N.
      * intros Hr _.
        pose proof (read_result_supported r (game_port env)
                      (set_swi_in_last_min st true) Hr) as S.
        rewrite E in S. exact S.
    + destruct (CallEvery env) as [n |] eqn:Ec.
      * exists (Some (os_error n)), r, (set_swi_in_last_min st true).
        split; [reflexivity | split; [discriminate |]].
        intros _ [F | F]; discriminate F.
      * match goal with
        | |- context [read_result r ?j ?s] =>
            destruct (read_result r j s) as [e r'] eqn:E;
            exists e, r', s;
            pose proof (read_result_not_calib r j s) as N;
            pose proof (read_result_supported r j s) as S
        end.
        rewrite E in N, S.
        split; [reflexivity | split; [exact N |]].
        intros Hr _. exact (S Hr).
Qed.

Lemma read_gated_by_calibration_witness :
  MicoJoy_swihandler Joystick_Read (mkRegs 0 0) quiet half_calibrated
  = Some (Some error_calib, mkRegs 0 0, half_calibrated)
  /\ exists e r' st',
       MicoJoy_swihandler Joystick_Read (mkRegs 0 0) quiet idle_state
       = Some (e, r', st')
       /\ e <> Some error_calib
       /\ (supported_reason (mkRegs 0 0) ->
           polling_stick idle_state = true \/ CallEvery quiet = None ->
           e = None).
Proof.
  split.
  - apply (read_gated_by_calibration (mkRegs 0 0) quiet half_calibrated).
    discriminate.
  - apply (read_gated_by_calibration (mkRegs 0 0) quiet idle_state).
    reflexivity.
Defined.

Lemma reseed_rd (st : state) (a : avar) (i : nat) :
  (i < 2)%nat ->
  rd (for_sticks reseed_stick st) a i =
  match a with
  | x_axis => u32 (s32 (rd st x_ctr i))
  | y_axis => u32 (s32 (rd st y_ctr i))
  | _ => rd st a i
  end.
Proof. intros Hi. two_sticks i; destruct a; reflexivity. Qed.

Lemma reseed_scalars (st : state) (f : avar -> arr) :
  set_arrays (for_sticks reseed_stick st) f = set_arrays st f.
Proof. reflexivity. Qed.

(** C7: a Joystick_Read made while polling is inactive and the
    calibration state is None first registers the periodic timer.  When
    that succeeds the driver records itself as polling, sets the cached X
    and Y values of every stick to that stick's X and Y centre values,
    and computes its result from the store so reseeded.  When it fails
    the system's error is returned and the driver still records itself as
    not polling. *)
Theorem read_after_idle (r : regs) (env : environment) (st : state) :
  wf_state st ->
  calib_status st = CALIB_NONE -> polling_stick st = false ->
  (CallEvery env = None ->
   exists e r' st',
     MicoJoy_swihandler Joystick_Read r env st = Some (e, r', st')
     /\ polling_stick st' = true
     /\ (forall i, (i < 2)%nat ->
           rd st' x_axis i = rd st x_ctr i
           /\ rd st' y_axis i = rd st y_ctr i)
     /\ (e, r') = read_result r (game_port env) st')
  /\ (forall n, CallEvery env = Some n ->
      exists st',
        MicoJoy_swihandler Joystick_Read r env st
        = Some (Some (os_error n), r, st')
        /\ polling_stick st' = false).
Proof.
  intros Hwf Hc Hp. rewrite swihandler_Read. unfold swi_Joystick_Read.
  rewrite Hc. cbn [CALIB_NONE Z.eqb negb polling_stick set_swi_in_last_min].
  rewrite Hp. cbn [negb]. split.
  - intros Hce. rewrite Hce.
    match goal with
    | |- context [read_result r ?j ?s] =>
        destruct (read_result r j s) as [e r'] eqn:E; exists e, r', s
    end.
    split; [reflexivity | split; [reflexivity | split]].
    + intros i Hi. rewrite !reseed_rd by exact Hi.
      rewrite !u32_s32. cbn [rd set_polling_stick set_swi_in_last_min arrays].
      split; apply u32_id; [apply (Hwf x_ctr i) | apply (Hwf y_ctr i)].
    + symmetry. exact E.
  - intros n Hce. rewrite Hce.
    exists (set_swi_in_last_min st true). split; [reflexivity | exact Hp].
Qed.

Lemma read_after_idle_witness :
  exists e r' st',
    MicoJoy_swihandler Joystick_Read (mkRegs 0 0) quiet
      (wr idle_state x_axis 0 1406)
    = Some (e, r', st')
    /\ polling_stick st' = true
    /\ (forall i, (i < 2)%nat ->
          rd st' x_axis i = rd (wr idle_state x_axis 0 1406) x_ctr i
          /\ rd st' y_axis i = rd (wr idle_state x_axis 0 1406) y_ctr i)
    /\ (e, r') = read_result (mkRegs 0 0) (game_port quiet) st'.
Proof.
  apply (read_after_idle (mkRegs 0 0) quiet (wr idle_state x_axis 0 1406)).
  - intros a i. destruct a; destruct i as [|[|i]]; vm_compute;
      (split; [discriminate | reflexivity]).
  - reflexivity.
  - reflexivity.
  - reflexivity.
Defined.

(** ** smooth_value *)

(** Where nothing wraps around, a new value within [stddev] of the
    previous one is smoothed with three quarters of the previous value. *)
Lemma smooth_value_heavy (prev_value new_value stddev : Z) :
  0 <= new_value -> 0 <= stddev <= prev_value ->
  prev_value + stddev < modulus ->
  3 * prev_value + new_value < modulus ->
  Z.abs (new_value - prev_value) <= stddev ->
  smooth_value prev_value new_value stddev
  = (3 * prev_value + new_value) / 4.
Proof.
  intros Hn Hs Hp H3 Hd. pose proof modulus_eq as M. unfold smooth_value.
  rewrite usub_exact by lia.
  unfold uadd at 1. rewrite u32_id by lia.
  destruct (Z.geb_spec new_value (prev_value - stddev)); [| lia].
  destruct (Z.leb_spec new_value (prev_value + stddev)); [| lia].
  cbn [andb]. unfold udiv, uadd, umul.
  rewrite (u32_id (prev_value * 3)) by lia.
  rewrite u32_idem, !u32_id by lia.
  f_equal. lia.
Qed.

(** C4 fails on the code where [prev_value - stddev] wraps around: with
    the previous value 10, the new value 15 and the width 20 the
    difference 5 is within the width, but no tier matches and the new
    value is returned as it is, not (3*10 + 15) / 4 = 11. *)
Theorem smooth_value_wraps :
  Z.abs (15 - 10) <= 20
  /\ smooth_value 10 15 20 = 15
  /\ (3 * 10 + 15) / 4 = 11.
Proof. vm_compute. repeat split; discriminate. Qed.

(** ** *JoystickConfig *)

(** What the end zone block of *JoystickConfig does with [-endzone]: the
    switch is tested against [ctr_zones]. *)
Lemma config_switches_endzone (args : config_args) (st : state) :
  CONFIG_SYNTAX_ENDZONE args = true ->
  CONFIG_SYNTAX_CTRZONE args = false ->
  CONFIG_SYNTAX_NOCTRZONE args = false ->
  end_zones (fst (config_switches args st))
  = if ctr_zones st then end_zones st else true.
Proof.
  intros He Hc Hn. unfold config_switches. rewrite He, Hc, Hn.
  destruct (CONFIG_SYNTAX_SMOOTH args), (CONFIG_SYNTAX_NOSMOOTH args),
    (ctr_zones st) eqn:E; cbn; rewrite ?E; reflexivity.
Qed.

(** C8 fails on the code: after *JoystickConfig -noendzone on the
    documented store (centre zones on), *JoystickConfig -endzone returns
    without error and leaves the end zones off. *)
Theorem config_endzone_ignored :
  ctr_zones end_zones_off = true
  /\ end_zones end_zones_off = false
  /\ fst (MicoJoy_cmdhandler
            (config_command false false false false true false) quiet
            end_zones_off)
     = None
  /\ end_zones
       (snd (MicoJoy_cmdhandler
               (config_command false false false false true false) quiet
               end_zones_off))
     = false.
Proof. vm_compute. repeat split. Qed.

(** ** read_joystick *)

Lemma land_pow2_eqb (w k : Z) :
  0 <= k -> (Z.land w (2 ^ k) =? 0) = negb (Z.testbit w k).
Proof.
  intros Hk. destruct (Z.testbit w k) eqn:E; cbn [negb].
  - apply Z.eqb_neq. intros H.
    assert (F : Z.testbit (Z.land w (2 ^ k)) k = true)
      by (rewrite Z.land_spec, E, Z.pow2_bits_true by exact Hk; reflexivity).
    rewrite H, Z.bits_0 in F. discriminate F.
  - apply Z.eqb_eq. apply Z.bits_inj'. intros n Hn.
    rewrite Z.land_spec, Z.bits_0, Z.pow2_bits_eqb by exact Hk.
    destruct (Z.eqb_spec k n) as [<- | _].
    + rewrite E. reflexivity.
    + apply andb_false_r.
Qed.

Lemma bit_set_axis (w : Z) (ax : axis) :
  bit_set w (axis_bit ax) = Z.testbit w (axis_index ax).
Proof.
  unfold bit_set.
  replace (axis_bit ax) with (2 ^ axis_index ax) by (destruct ax; reflexivity).
  rewrite land_pow2_eqb by (destruct ax; cbn; lia).
  apply negb_involutive.
Qed.

Lemma testbit_unot (p k : Z) :
  0 <= k < 32 -> Z.testbit (unot p) k = negb (Z.testbit p k).
Proof.
  intros Hk. unfold unot, u32, modulus.
  rewrite Z.mod_pow2_bits_low by lia. apply Z.lnot_spec. lia.
Qed.

Lemma axis_index_range (ax : axis) : 0 <= axis_index ax < 32.
Proof. destruct ax; cbn; lia. Qed.

Lemma pass_of_clock (tol interval joy : Z) (ax : axis) (a : acq) :
  start_time (pass_of tol interval joy ax a) = start_time a
  /\ prev_time (pass_of tol interval joy ax a) = prev_time a
  /\ wait (pass_of tol interval joy ax a) = wait a.
Proof.
  unfold pass_of, axis_pass.
  destruct (negb (Z.land joy (axis_bit ax) =? 0)); repeat split.
Qed.

Lemma pass_of_other (tol interval joy : Z) (ax' ax : axis) (a : acq) :
  ax <> ax' ->
  pending ax (pass_of tol interval joy ax' a) = pending ax a
  /\ axis_new ax (pass_of tol interval joy ax' a) = axis_new ax a.
Proof.
  intros Hne. unfold pass_of, axis_pass.
  destruct (negb (Z.land joy (axis_bit ax') =? 0)); [| split; reflexivity].
  split.
  - unfold pending. cbn [mask]. rewrite !bit_set_axis, Z.land_spec.
    replace (Z.testbit (unot (axis_bit ax')) (axis_index ax)) with true
      by (destruct ax, ax'; try contradiction; reflexivity).
    apply andb_true_r.
  - destruct ax, ax'; try contradiction; unfold axis_new;
      cbn; destruct (interval <=? tol); reflexivity.
Qed.

Lemma pass_of_same (tol interval joy : Z) (ax : axis) (a : acq) :
  if bit_set joy (axis_bit ax)
  then pending ax (pass_of tol interval joy ax a) = false
       /\ axis_new ax (pass_of tol interval joy ax a)
          = (if interval <=? tol then u32 (wait a) else axis_new ax a)
  else pass_of tol interval joy ax a = a.
Proof.
  unfold pass_of, axis_pass, bit_set.
  destruct (negb (Z.land joy (axis_bit ax) =? 0)); [| reflexivity].
  split.
  - unfold pending. cbn [mask]. rewrite !bit_set_axis, Z.land_spec.
    replace (Z.testbit (unot (axis_bit ax)) (axis_index ax)) with false
      by (destruct ax; reflexivity).
    apply andb_false_r.
  - destruct ax; unfold axis_new; cbn; destruct (interval <=? tol);
      reflexivity.
Qed.

Lemma axis_beq_eq (x y : axis) : axis_beq x y = true <-> x = y.
Proof.
  split; [apply internal_axis_dec_bl | apply internal_axis_dec_lb].
Qed.

(** A run of blocks for distinct axes changes an axis only in its own
    block, and only when its bit shows in [joy]. *)
Lemma passes_axis (tol interval joy : Z) (ax : axis) (l : list axis) :
  NoDup l -> forall a,
  let a' := passes tol interval joy l a in
  (start_time a' = start_time a /\ prev_time a' = prev_time a
   /\ wait a' = wait a)
  /\ (if existsb (axis_beq ax) l && bit_set joy (axis_bit ax)
      then pending ax a' = false
           /\ axis_new ax a'
              = (if interval <=? tol then u32 (wait a) else axis_new ax a)
      else pending ax a' = pending ax a /\ axis_new ax a' = axis_new ax a).
Proof.
  induction 1 as [| ax' l Hnin Hnd IH]; intros a.
  - cbn. repeat split.
  - cbn [passes fold_left existsb].
    change (fold_left _ l ?x) with (passes tol interval joy l x).
    specialize (IH (pass_of tol interval joy ax' a)). cbv zeta in IH.
    destruct IH as [(C1 & C2 & C3) IH].
    destruct (pass_of_clock tol interval joy ax' a) as (D1 & D2 & D3).
    split; [rewrite C1, C2, C3; auto |].
    destruct (axis_beq ax ax') eqn:E.
    + apply axis_beq_eq in E. subst ax'.
      replace (existsb (axis_beq ax) l) with false in IH.
      * cbn [andb orb] in *. destruct IH as [I1 I2].
        pose proof (pass_of_same tol interval joy ax a) as S.
        destruct (bit_set joy (axis_bit ax)).
        -- destruct S as [S1 S2]. rewrite I1, I2. auto.
        -- rewrite I1, I2, S. auto.
      * symmetry. apply not_true_is_false. intros F.
        apply existsb_exists in F. destruct F as (y & Hy & F).
        apply axis_beq_eq in F. subst y. contradiction.
    + assert (Hne : ax <> ax')
        by (intros F; apply axis_beq_eq in F; congruence).
      destruct (pass_of_other tol interval joy ax' ax a Hne) as [O1 O2].
      cbn [orb]. rewrite O1, O2, D3 in IH. exact IH.
Qed.

Lemma four_axes_nodup : NoDup [Ax; Ay; Bx; By].
Proof.
  repeat constructor; cbn; intuition discriminate.
Qed.

(** One pass of the timing loop, seen from one axis. *)
Lemma loop_pass_axis (st : state) (s : sample) (a : acq) (ax : axis)
    (start' prev' wait' interval : Z) :
  clock_pass s (start_time a) (prev_time a)
  = (start', prev', wait', interval) ->
  let a' := loop_pass st s a in
  (start_time a' = start' /\ prev_time a' = prev' /\ wait a' = wait')
  /\ (if pending ax a && bit_set (unot (port_byte s)) (axis_bit ax)
      then pending ax a' = false
           /\ axis_new ax a'
              = (if interval <=? tolerance st then u32 wait'
                 else axis_new ax a)
      else pending ax a' = pending ax a /\ axis_new ax a' = axis_new ax a).
Proof.
  intros H. unfold loop_pass. rewrite H.
  set (a0 := mkAcq (mask a) start' prev' wait' (new_x a) (new_y a)
               (sticks_lost a)).
  set (joy := Z.land (unot (port_byte s)) (mask a0)).
  pose proof (passes_axis (tolerance st) interval joy ax [Ax; Ay; Bx; By]
                four_axes_nodup a0) as P.
  cbv zeta in P. unfold passes in P. cbn [fold_left] in P. unfold pass_of in P.
  cbn [axis_bit axis_is_x axis_stick axis_flag] in P.
  cbv zeta. destruct P as [P1 P2]. split; [exact P1 |].
  replace (existsb (axis_beq ax) [Ax; Ay; Bx; By]) with true in P2
    by (destruct ax; reflexivity).
  cbn [andb] in P2.
  assert (Ej : bit_set joy (axis_bit ax)
               = pending ax a && bit_set (unot (port_byte s)) (axis_bit ax)).
  { unfold joy, pending. rewrite !bit_set_axis, Z.land_spec.
    apply andb_comm. }
  rewrite Ej in P2.
  change (pending ax a0) with (pending ax a) in P2.
  change (axis_new ax a0) with (axis_new ax a) in P2.
  change (wait a0) with wait' in P2.
  exact P2.
Qed.

Lemma pending_running (st : state) (ax : axis) (a : acq) :
  pending ax a = true ->
  loop_running st a = (u32 (wait a) <? max_wait st).
Proof.
  intros H. unfold loop_running.
  destruct (Z.eqb_spec (mask a) 0) as [E | E]; [| reflexivity].
  unfold pending, bit_set in H. rewrite E in H. discriminate H.
Qed.

(** An axis that is no longer pending keeps its new timing. *)
Lemma timing_loop_settled (st : state) (ax : axis) (ss : list sample) :
  forall a a',
  timing_loop st ss a = Some a' -> pending ax a = false ->
  axis_new ax a' = axis_new ax a /\ pending ax a' = false.
Proof.
  induction ss as [| s ss IH]; intros a a' H Hp; cbn [timing_loop] in H.
  - destruct (loop_running st a); [discriminate H |].
    injection H as <-. auto.
  - destruct (loop_running st a).
    + destruct (clock_pass s (start_time a) (prev_time a))
        as [[[start' prev'] wait'] interval] eqn:Ec.
      destruct (loop_pass_axis st s a ax _ _ _ _ Ec) as [_ L].
      rewrite Hp in L. cbn [andb] in L. destruct L as [L1 L2].
      destruct (IH _ _ H) as [I1 I2]; [congruence |].
      split; congruence.
    + injection H as <-. auto.
Qed.

(** The timing loop treats a pending axis as [axis_outcome] says. *)
Lemma timing_loop_pending (st : state) (ax : axis) (ss : list sample) :
  forall a a',
  timing_loop st ss a = Some a' -> pending ax a = true ->
  exists o,
    axis_outcome st (axis_bit ax) ss (start_time a) (prev_time a) (wait a)
    = Some o
    /\ match o with
       | Completed t => axis_new ax a' = t /\ pending ax a' = false
       | Discarded => axis_new ax a' = axis_new ax a /\ pending ax a' = false
       | TimedOut => axis_new ax a' = axis_new ax a /\ pending ax a' = true
       end.
Proof.
  induction ss as [| s ss IH]; intros a a' H Hp;
    cbn [timing_loop axis_outcome] in *;
    rewrite (pending_running st ax a Hp) in H.
  - destruct (u32 (wait a) <? max_wait st); [discriminate H |].
    injection H as <-. exists TimedOut. auto.
  - destruct (u32 (wait a) <? max_wait st).
    + destruct (clock_pass s (start_time a) (prev_time a))
        as [[[start' prev'] wait'] interval] eqn:Ec.
      destruct (loop_pass_axis st s a ax _ _ _ _ Ec) as [(C1 & C2 & C3) L].
      rewrite Hp in L. cbn [andb] in L.
      destruct (bit_set (unot (port_byte s)) (axis_bit ax)).
      * destruct L as [L1 L2].
        destruct (timing_loop_settled st ax ss _ _ H L1) as [S1 S2].
        destruct (interval <=? tolerance st).
        -- exists (Completed (u32 wait')). split; [reflexivity |].
           split; congruence.
        -- exists Discarded. split; [reflexivity |]. split; congruence.
      * destruct L as [L1 L2].
        destruct (IH _ _ H) as (o & Eo & Ho); [congruence |].
        rewrite C1, C2, C3 in Eo. exists o. split; [exact Eo |].
        destruct o; try rewrite <- L2; exact Ho.
    + injection H as <-. exists TimedOut. auto.
Qed.

Lemma commit_axis_scalars (cache width : avar) (new : arr) (st : state)
    (n : nat) (f : avar -> arr) :
  set_arrays (commit_axis cache width new st n) f = set_arrays st f.
Proof.
  unfold commit_axis.
  destruct (negb (get new n =? UINT_MAX));
    destruct (smooth st && (rd st width n >? 0)); reflexivity.
Qed.

Lemma commit_axis_smooth (cache width : avar) (new : arr) (st : state)
    (n : nat) :
  smooth (commit_axis cache width new st n) = smooth st.
Proof.
  exact (f_equal smooth (commit_axis_scalars cache width new st n (arrays st))).
Qed.

Lemma commit_axis_rd (cache width : avar) (new : arr) (st : state)
    (n : nat) (v : avar) (j : nat) :
  (n < 2)%nat ->
  rd (commit_axis cache width new st n) v j =
  if (j =? n)%nat && avar_beq cache v
  then committed (smooth st) (rd st cache j) (get new j) (rd st width j)
  else rd st v j.
Proof.
  intros Hn. unfold commit_axis, committed.
  destruct (Nat.eqb_spec j n) as [-> | Hj]; cbn [andb].
  - destruct (avar_beq cache v) eqn:E.
    + apply internal_avar_dec_bl in E. subst v.
      destruct (negb (get new n =? UINT_MAX)); [| reflexivity].
      destruct (smooth st && (rd st width n >? 0));
        apply rd_wr_same, Hn.
    + assert (cache <> v)
        by (intros F; apply internal_avar_dec_lb in F; congruence).
      destruct (negb (get new n =? UINT_MAX)); [| reflexivity].
      destruct (smooth st && (rd st width n >? 0));
        apply rd_wr_other_array; assumption.
  - destruct (negb (get new n =? UINT_MAX)); [| reflexivity].
    destruct (smooth st && (rd st width n >? 0));
      apply rd_wr_other_index; congruence.
Qed.

Lemma commit_stick_scalars (a : acq) (st : state) (n : nat)
    (f : avar -> arr) :
  set_arrays (commit_stick a st n) f = set_arrays st f.
Proof.
  unfold commit_stick. rewrite !commit_axis_scalars. reflexivity.
Qed.

(** The last loop of [read_joystick], seen from one axis. *)
Lemma commit_axis_of (a : acq) (st : state) (ax : axis) :
  rd (for_sticks (commit_stick a) st) (axis_cache ax) (axis_stick ax)
  = committed (smooth st) (rd st (axis_cache ax) (axis_stick ax))
      (axis_new ax a) (rd st (axis_width ax) (axis_stick ax)).
Proof.
  unfold for_sticks, stick_loop, commit_stick. cbn [fold_left].
  destruct ax; unfold axis_cache, axis_width, axis_new, axis_stick, axis_is_x;
    rewrite !commit_axis_rd by lia; cbn [Nat.eqb andb avar_beq];
    rewrite ?commit_axis_smooth; rewrite ?commit_axis_rd by lia;
    cbn [Nat.eqb andb avar_beq]; reflexivity.
Qed.

(** [read_joystick] writes the two caches and nothing else. *)
Lemma commit_frame (a : acq) (st : state) :
  (forall v j, v <> x_axis -> v <> y_axis ->
     rd (for_sticks (commit_stick a) st) v j = rd st v j)
  /\ (forall f, set_arrays (for_sticks (commit_stick a) st) f
               = set_arrays st f).
Proof.
  unfold for_sticks, stick_loop. cbn [fold_left]. split.
  - intros v j Hx Hy. unfold commit_stick.
    destruct (Nat.lt_ge_cases j 2) as [Hj | Hj].
    + rewrite !commit_axis_rd by lia.
      replace (avar_beq x_axis v) with false
        by (destruct v; try reflexivity; contradiction).
      replace (avar_beq y_axis v) with false
        by (destruct v; try reflexivity; contradiction).
      rewrite !andb_false_r. reflexivity.
    + destruct j as [|[|j]]; [lia | lia | reflexivity].
  - intros f. rewrite !commit_stick_scalars. reflexivity.
Qed.

Lemma read_joystick_frame (axes : Z) (c : cycle) (st : state)
    (m lost : Z) (st' : state) :
  read_joystick axes c st = Some (m, lost, st') ->
  (forall v j, v <> x_axis -> v <> y_axis -> rd st' v j = rd st v j)
  /\ (forall f, set_arrays st' f = set_arrays st f).
Proof.
  unfold read_joystick. intros H.
  destruct (timing_loop st (samples c) (acq_start axes c)) as [a |];
    [| discriminate H].
  injection H as _ _ <-. apply commit_frame.
Qed.

(** C9: in an acquisition cycle that returns, every axis is treated as
    its own fate says.  An axis that was not requested, an axis that does
    not show completion before the timeout (its bit stays in the returned
    mask) and an axis whose reading is discarded because the time since
    the previous pass exceeds the tolerance keep their cached timing
    exactly; the cache of an axis is rewritten only from a reading that
    completed within the tolerance, with the smoothed or the plain
    elapsed time.  [read_joystick] has no error result. *)
Theorem read_joystick_axis
    (st : state) (axes : Z) (c : cycle) (ax : axis)
    (m lost : Z) (st' : state) :
  read_joystick axes c st = Some (m, lost, st') ->
  let n := axis_stick ax in
  let start := ioc_timer_0 (start_low c) (start_high c) in
  if bit_set axes (axis_bit ax) then
    exists o,
      axis_outcome st (axis_bit ax) (samples c) start (s32 start) 0 = Some o
      /\ match o with
         | Completed elapsed =>
             bit_set m (axis_bit ax) = false
             /\ rd st' (axis_cache ax) n
                = committed (smooth st) (rd st (axis_cache ax) n) elapsed
                    (rd st (axis_width ax) n)
         | Discarded =>
             bit_set m (axis_bit ax) = false
             /\ rd st' (axis_cache ax) n = rd st (axis_cache ax) n
         | TimedOut =>
             bit_set m (axis_bit ax) = true
             /\ rd st' (axis_cache ax) n = rd st (axis_cache ax) n
         end
  else rd st' (axis_cache ax) n = rd st (axis_cache ax) n.
Proof.
  intros H n start. unfold read_joystick in H.
  destruct (timing_loop st (samples c) (acq_start axes c)) as [a |] eqn:E;
    [| discriminate H].
  injection H as <- _ <-. subst n. rewrite commit_axis_of.
  assert (N : axis_new ax (acq_start axes c) = UINT_MAX)
    by (destruct ax; reflexivity).
  assert (U : forall x w, committed (smooth st) x UINT_MAX w = x)
    by reflexivity.
  destruct (bit_set axes (axis_bit ax)) eqn:Hb.
  - destruct (timing_loop_pending st ax _ _ _ E Hb) as (o & Eo & Ho).
    exists o. split; [exact Eo |].
    destruct o; destruct Ho as [Hn Hp]; (split; [exact Hp |]).
    + rewrite Hn. reflexivity.
    + rewrite Hn, N. apply U.
    + rewrite Hn, N. apply U.
  - destruct (timing_loop_settled st ax _ _ _ E Hb) as [Hn _].
    rewrite Hn, N. apply U.
Qed.

(** *** The cycle returns *)








Lemma read_joystick_axis_witness :
  exists m lost st',
    read_joystick 15 example_cycle documented_state = Some (m, lost, st')
    /\ rd st' x_axis 0 = 700
    /\ rd st' y_axis 0 = rd documented_state y_axis 0
    /\ bit_set m PC_JOY_B_X = true.
Proof.
  destruct (read_joystick 15 example_cycle documented_state)
    as [[[m lost] st'] |] eqn:E.
  - exists m, lost, st'. split; [reflexivity |].
    pose proof (read_joystick_axis _ _ _ Ax _ _ _ E) as HA.
    pose proof (read_joystick_axis _ _ _ Ay _ _ _ E) as HB.
    pose proof (read_joystick_axis _ _ _ Bx _ _ _ E) as HC.
    cbv zeta in HA, HB, HC.
    change (bit_set 15 (axis_bit Ax)) with true in HA.
    change (bit_set 15 (axis_bit Ay)) with true in HB.
    change (bit_set 15 (axis_bit Bx)) with true in HC.
    cbv iota in HA, HB, HC.
    destruct HA as (oa & Ea & Ha). destruct HB as (ob & Eb & Hb).
    destruct HC as (oc & Ec & Hc).
    vm_compute in Ea. vm_compute in Eb. vm_compute in Ec.
    injection Ea as <-. injection Eb as <-. injection Ec as <-.
    destruct Ha as [_ Ha]. destruct Hb as [_ Hb]. destruct Hc as [Hc _].
    cbn [axis_cache axis_stick axis_is_x axis_width axis_bit] in Ha, Hb, Hc.
    split; [rewrite Ha; reflexivity | split; [exact Hb | exact Hc]].
  - exfalso. vm_compute in E. discriminate E.
Defined.

(** ** The calibration SWIs *)

(** [get_av_stick_pos] and what it calls read the caches, the smoothing
    widths, [smooth], [tolerance], [max_wait] and [axes_mask], and they
    write the caches.  A change [g] of other scalars of the store passes
    through them. *)
Section OtherScalars.

Variable g : state -> state.
Hypothesis g_arrays : forall st, arrays (g st) = arrays st.
Hypothesis g_set_arrays : forall st f, g (set_arrays st f) = set_arrays (g st) f.
Hypothesis g_smooth : forall st, smooth (g st) = smooth st.
Hypothesis g_tolerance : forall st, tolerance (g st) = tolerance st.
Hypothesis g_max_wait : forall st, max_wait (g st) = max_wait st.
Hypothesis g_axes_mask : forall st, axes_mask (g st) = axes_mask st.

Lemma g_rd (st : state) (v : avar) (j : nat) : rd (g st) v j = rd st v j.
Proof. unfold rd. rewrite g_arrays. reflexivity. Qed.

Lemma g_wr (st : state) (v : avar) (j : nat) (x : Z) :
  wr (g st) v j x = g (wr st v j x).
Proof. unfold wr. rewrite g_set_arrays, g_arrays. reflexivity. Qed.

Lemma g_timing_loop (st : state) (ss : list sample) :
  forall a, timing_loop (g st) ss a = timing_loop st ss a.
Proof.
  induction ss as [| s ss IH]; intros a; cbn [timing_loop];
    unfold loop_running; rewrite g_max_wait; [reflexivity |].
  unfold loop_pass. rewrite g_tolerance.
  destruct (negb (mask a =? 0) && (u32 (wait a) <? max_wait st));
    [apply IH | reflexivity].
Qed.

Lemma g_commit_axis (cache width : avar) (new : arr) (st : state) (n : nat) :
  commit_axis cache width new (g st) n = g (commit_axis cache width new st n).
Proof.
  unfold commit_axis. rewrite g_smooth, !g_rd, !g_wr.
  destruct (negb (get new n =? UINT_MAX)); [| reflexivity].
  destruct (smooth st && (rd st width n >? 0)); reflexivity.
Qed.

Lemma g_commit (a : acq) (st : state) :
  for_sticks (commit_stick a) (g st) = g (for_sticks (commit_stick a) st).
Proof.
  unfold for_sticks, stick_loop, commit_stick. cbn [fold_left].
  rewrite !g_commit_axis. reflexivity.
Qed.

Lemma g_read_joystick (axes : Z) (c : cycle) (st : state) :
  read_joystick axes c (g st)
  = match read_joystick axes c st with
    | Some (m, lost, st') => Some (m, lost, g st')
    | None => None
    end.
Proof.
  unfold read_joystick. rewrite g_timing_loop.
  destruct (timing_loop st (samples c) (acq_start axes c)); [| reflexivity].
  rewrite g_commit. reflexivity.
Qed.

Lemma g_av_stick_pass (sticks go_go_go lost : Z) (st : state)
    (lw : av_locals * Z) (n : nat) :
  av_stick_pass sticks go_go_go lost (g st) lw n
  = av_stick_pass sticks go_go_go lost st lw n.
Proof.
  unfold av_stick_pass. rewrite !g_rd, !g_arrays. reflexivity.
Qed.

Lemma g_av_loop (sticks read_axes : Z) (cs : list cycle) :
  forall test go_go_go l st,
  av_loop sticks read_axes cs test go_go_go l (g st)
  = match av_loop sticks read_axes cs test go_go_go l st with
    | Some (l', st', cs') => Some (l', g st', cs')
    | None => None
    end.
Proof.
  induction cs as [| c cs IH]; intros test go_go_go l st; cbn [av_loop].
  - destruct (test >=? 0); reflexivity.
  - destruct (test >=? 0); [| reflexivity].
    rewrite g_read_joystick.
    destruct (read_joystick read_axes c st) as [[[m lost] st'] |];
      [| reflexivity].
    unfold stick_loop. cbn [fold_left]. rewrite !g_av_stick_pass.
    destruct (av_stick_pass sticks go_go_go lost st'
                (av_stick_pass sticks go_go_go lost st' (l, 0) 1) 0)
      as [l' within].
    destruct (go_go_go >? 0).
    + destruct (within =? sticks); apply IH.
    + destruct (go_go_go =? 0); apply IH.
Qed.

Lemma g_get_av_stick_pos (sticks : Z) (o : av_out) (bias : Z)
    (cs : list cycle) (st : state) :
  get_av_stick_pos sticks o bias cs (g st)
  = match get_av_stick_pos sticks o bias cs st with
    | Some (o', st', cs') => Some (o', g st', cs')
    | None => None
    end.
Proof.
  unfold get_av_stick_pos. rewrite g_av_loop, g_axes_mask.
  match goal with
  | |- context [av_loop ?a ?b ?c ?d ?e ?f st] =>
      destruct (av_loop a b c d e f st) as [[[l' st'] cs'] |]
  end; reflexivity.
Qed.

End OtherScalars.

Lemma av_finish_both (bias : Z) (l : av_locals) (o o0 : av_out) :
  fold_left (av_finish_stick (Z.lor STICK_0 STICK_1) bias l) stick_loop o
  = fold_left (av_finish_stick (Z.lor STICK_0 STICK_1) bias l) stick_loop o0.
Proof. reflexivity. Qed.

(** With both sticks selected the four arrays come back fully written:
    their contents on entry do not matter. *)
Lemma get_av_both_out (o o0 : av_out) (bias : Z) (cs : list cycle)
    (st : state) :
  get_av_stick_pos (Z.lor STICK_0 STICK_1) o bias cs st
  = get_av_stick_pos (Z.lor STICK_0 STICK_1) o0 bias cs st.
Proof.
  unfold get_av_stick_pos.
  match goal with
  | |- context [av_loop ?a ?b ?c ?d ?e ?f st] =>
      destruct (av_loop a b c d e f st) as [[[l' st'] cs'] |]
  end; [| reflexivity].
  rewrite (av_finish_both bias l' o o0). reflexivity.
Qed.

Lemma av_loop_frame (sticks read_axes : Z) (cs : list cycle) :
  forall test go_go_go l st l' st' cs',
  av_loop sticks read_axes cs test go_go_go l st = Some (l', st', cs') ->
  (forall v j, v <> x_axis -> v <> y_axis -> rd st' v j = rd st v j)
  /\ (forall f, set_arrays st' f = set_arrays st f).
Proof.
  induction cs as [| c cs IH]; intros test go_go_go l st l' st' cs' H;
    cbn [av_loop] in H.
  - destruct (test >=? 0); [discriminate H |].
    injection H as _ <- _. auto.
  - destruct (test >=? 0); [| injection H as _ <- _; auto].
    destruct (read_joystick read_axes c st) as [[[m lost] st1] |] eqn:E;
      [| discriminate H].
    destruct (read_joystick_frame _ _ _ _ _ _ E) as [F1 F2].
    destruct (fold_left (av_stick_pass sticks go_go_go lost st1)
                stick_loop (l, 0)) as [l1 within].
    assert (G : forall t g l2,
               av_loop sticks read_axes cs t g l2 st1 = Some (l', st', cs') ->
               (forall v j, v <> x_axis -> v <> y_axis ->
                  rd st' v j = rd st v j)
               /\ (forall f, set_arrays st' f = set_arrays st f)).
    { intros t g l2 H2. destruct (IH _ _ _ _ _ _ _ H2) as [I1 I2].
      split.
      - intros v j Hx Hy. rewrite I1, F1 by assumption. reflexivity.
      - intros f. rewrite I2, F2. reflexivity. }
    destruct (go_go_go >? 0).
    + destruct (within =? sticks); eapply G; exact H.
    + destruct (go_go_go =? 0); eapply G; exact H.
Qed.

Lemma get_av_stick_pos_frame (sticks : Z) (o : av_out) (bias : Z)
    (cs : list cycle) (st : state) (o' : av_out) (st' : state)
    (cs' : list cycle) :
  get_av_stick_pos sticks o bias cs st = Some (o', st', cs') ->
  (forall v j, v <> x_axis -> v <> y_axis -> rd st' v j = rd st v j)
  /\ (forall f, set_arrays st' f = set_arrays st f).
Proof.
  unfold get_av_stick_pos. intros H.
  match type of H with
  | context [av_loop ?a ?b ?c ?d ?e ?f st] =>
      destruct (av_loop a b c d e f st) as [[[l1 st1] cs1] |] eqn:E
  end; [| discriminate H].
  injection H as _ <- _. eapply av_loop_frame. exact E.
Qed.

Lemma widen_end_deadz_rd (o : av_out) (st : state) (n : nat) (v : avar)
    (j : nat) :
  (n < 2)%nat ->
  rd (widen_end_deadz o st n) v j =
  if (j =? n)%nat then
    match v with
    | x_end_deadz => Z.max (rd st x_end_deadz j) (get (x_jitdist o) j)
    | y_end_deadz => Z.max (rd st y_end_deadz j) (get (y_jitdist o) j)
    | _ => rd st v j
    end
  else rd st v j.
Proof.
  intros Hn. unfold widen_end_deadz.
  destruct (Z.gtb_spec (get (x_jitdist o) n) (rd st x_end_deadz n));
    rewrite ?rd_wr_other_array by discriminate;
    destruct (Z.gtb_spec (get (y_jitdist o) n) (rd st y_end_deadz n));
    (destruct (Nat.eqb_spec j n) as [-> | Hj];
     [ destruct v;
       repeat first [ rewrite rd_wr_same by exact Hn
                    | rewrite rd_wr_other_array by discriminate ];
       try reflexivity; lia
     | rewrite ?rd_wr_other_index by congruence; reflexivity ]).
Qed.

Lemma widen_both (o : av_out) (st : state) (i : nat) :
  (i < 2)%nat ->
  rd (for_sticks (widen_end_deadz o) st) x_end_deadz i
  = Z.max (rd st x_end_deadz i) (get (x_jitdist o) i)
  /\ rd (for_sticks (widen_end_deadz o) st) y_end_deadz i
     = Z.max (rd st y_end_deadz i) (get (y_jitdist o) i).
Proof.
  intros Hi. unfold for_sticks, stick_loop. cbn [fold_left].
  rewrite !widen_end_deadz_rd by lia.
  two_sticks i; cbn [Nat.eqb]; rewrite ?widen_end_deadz_rd by lia;
    cbn [Nat.eqb]; auto.
Qed.

Lemma rd_wr_arr (st : state) (a b : avar) (x : arr) (j : nat) :
  rd (wr_arr st a x) b j = if avar_beq a b then get x j else rd st b j.
Proof. unfold rd, wr_arr. cbn. destruct (avar_beq a b); reflexivity. Qed.

Lemma envelope_of_calib_status (bias : Z) (env : environment) (st : state)
    (c : Z) :
  envelope_of bias env (set_calib_status st c) = envelope_of bias env st.
Proof.
  unfold envelope_of.
  rewrite (g_get_av_stick_pos (fun s => set_calib_status s c))
    by reflexivity.
  destruct (get_av_stick_pos _ _ bias (cycles env) st) as [[[o' st'] cs'] |];
    reflexivity.
Qed.

Lemma envelope_of_polling_stick (bias : Z) (env : environment) (st : state)
    (p : bool) :
  envelope_of bias env (set_polling_stick st p) = envelope_of bias env st.
Proof.
  unfold envelope_of.
  rewrite (g_get_av_stick_pos (fun s => set_polling_stick s p))
    by reflexivity.
  destruct (get_av_stick_pos _ _ bias (cycles env) st) as [[[o' st'] cs'] |];
    reflexivity.
Qed.

Lemma envelope_of_cease (bias : Z) (env env' : environment) (swi_no : Z)
    (st : state) :
  envelope_of bias env (cease_polling swi_no env' st) = envelope_of bias env st.
Proof.
  unfold cease_polling.
  destruct (_ && polling_stick st); [| reflexivity].
  destruct (RemoveTickerEvent env');
    [reflexivity | apply envelope_of_polling_stick].
Qed.

Lemma cease_calib_status (swi_no : Z) (env : environment) (st : state) :
  calib_status (cease_polling swi_no env st) = calib_status st.
Proof.
  unfold cease_polling.
  destruct (_ && polling_stick st); [| reflexivity].
  destruct (RemoveTickerEvent env); reflexivity.
Qed.

(** The first corner: the measured distances become the end dead zones. *)
Lemma calibrate_corner_first (corner : Z) (xa ya : avar) (bias : Z)
    (env : environment) (st : state) (e : arr * arr) :
  corner = CALIB_TOP_RIGHT \/ corner = CALIB_BOTTOM_LEFT ->
  calib_status st = CALIB_NONE ->
  envelope_of bias env st = Some e ->
  exists sa,
    calibrate_corner corner xa ya bias env st = Some sa
    /\ calib_status sa = corner
    /\ (forall i, rd sa x_end_deadz i = get (fst e) i
                  /\ rd sa y_end_deadz i = get (snd e) i).
Proof.
  intros Hc Hs He. unfold calibrate_corner. rewrite Hs.
  assert (E3 : (calib_status
                  (set_calib_status st (Z.lor CALIB_NONE corner))
                =? Z.lor CALIB_TOP_RIGHT CALIB_BOTTOM_LEFT) = false)
    by (destruct Hc as [-> | ->]; reflexivity).
  rewrite E3.
  rewrite <- (envelope_of_calib_status bias env st (Z.lor CALIB_NONE corner))
    in He.
  unfold envelope_of in He.
  rewrite (get_av_both_out _
             (mkOut (mkArr 0 0) (mkArr 0 0) (mkArr 0 0) (mkArr 0 0))).
  destruct (get_av_stick_pos _ _ bias (cycles env)
              (set_calib_status st (Z.lor CALIB_NONE corner)))
    as [[[o st'] cs'] |] eqn:G; [| discriminate He].
  injection He as <-.
  destruct (get_av_stick_pos_frame _ _ _ _ _ _ _ _ G) as [_ F].
  eexists. split; [reflexivity | split].
  - specialize (F (arrays st)).
    apply (f_equal calib_status) in F. cbn in F. cbn.
    rewrite F. destruct Hc as [-> | ->]; reflexivity.
  - intros i. rewrite !rd_wr_arr. cbn [fst snd avar_beq].
    split; reflexivity.
Qed.

Lemma rd_set_calib_status (s : state) (c : Z) (v : avar) (i : nat) :
  rd (set_calib_status s c) v i = rd s v i.
Proof. reflexivity. Qed.

(** The second corner: the end dead zones grow to the distances measured
    now where these are larger, and the calibration is complete. *)
Lemma calibrate_corner_second (corner : Z) (xa ya : avar) (bias : Z)
    (env : environment) (sa : state) (e : arr * arr) :
  Z.lor (calib_status sa) corner = Z.lor CALIB_TOP_RIGHT CALIB_BOTTOM_LEFT ->
  avar_beq xa x_end_deadz = false -> avar_beq xa y_end_deadz = false ->
  avar_beq ya x_end_deadz = false -> avar_beq ya y_end_deadz = false ->
  envelope_of bias env sa = Some e ->
  exists sb,
    calibrate_corner corner xa ya bias env sa = Some sb
    /\ calib_status sb = CALIB_NONE
    /\ (forall i, (i < 2)%nat ->
          rd sb x_end_deadz i = Z.max (rd sa x_end_deadz i) (get (fst e) i)
          /\ rd sb y_end_deadz i
             = Z.max (rd sa y_end_deadz i) (get (snd e) i)).
Proof.
  intros Hc Hxx Hxy Hyx Hyy He. unfold calibrate_corner.
  cbn [calib_status set_calib_status]. rewrite Hc, Z.eqb_refl.
  rewrite <- (envelope_of_calib_status bias env sa
                (Z.lor CALIB_TOP_RIGHT CALIB_BOTTOM_LEFT)) in He.
  unfold envelope_of in He.
  rewrite (get_av_both_out _
             (mkOut (mkArr 0 0) (mkArr 0 0) (mkArr 0 0) (mkArr 0 0))).
  destruct (get_av_stick_pos _ _ bias (cycles env)
              (set_calib_status sa (Z.lor CALIB_TOP_RIGHT CALIB_BOTTOM_LEFT)))
    as [[[o st'] cs'] |] eqn:G; [| discriminate He].
  injection He as <-.
  destruct (get_av_stick_pos_frame _ _ _ _ _ _ _ _ G) as [F _].
  eexists. split; [reflexivity | split; [reflexivity |]].
  intros i Hi.
  rewrite !rd_set_calib_status.
  rewrite !recalc_coefficients_keeps by reflexivity.
  destruct (widen_both o
              (wr_arr (wr_arr st' xa (x_array o)) ya (y_array o)) i Hi)
    as [Wx Wy].
  rewrite Wx, Wy, !rd_wr_arr, Hxx, Hxy, Hyx, Hyy.
  rewrite !F by discriminate. split; reflexivity.
Qed.

(** C5: from the calibration state None, CalibrateTopRight and
    CalibrateBottomLeft called one after the other, in either order, both
    return without error once the hardware has supplied the cycles of
    each phase; the calibration state is None again, and the end dead
    zone of every axis is the larger of the two deviation envelopes
    measured in the two phases. *)
Theorem two_corner_calibration
    (swi1 swi2 : Z) (r1 r2 : regs) (env1 env2 : environment)
    (st : state) (e1 e2 : arr * arr) :
  (swi1 = Joystick_CalibrateTopRight /\ swi2 = Joystick_CalibrateBottomLeft)
  \/ (swi1 = Joystick_CalibrateBottomLeft
      /\ swi2 = Joystick_CalibrateTopRight) ->
  calib_status st = CALIB_NONE ->
  envelope swi1 env1 st = Some e1 ->
  exists sa,
    MicoJoy_swihandler swi1 r1 env1 st = Some (None, r1, sa)
    /\ (envelope swi2 env2 sa = Some e2 ->
        exists sb,
          MicoJoy_swihandler swi2 r2 env2 sa = Some (None, r2, sb)
          /\ calib_status sb = CALIB_NONE
          /\ (forall i, (i < 2)%nat ->
                rd sb x_end_deadz i = Z.max (get (fst e1) i) (get (fst e2) i)
                /\ rd sb y_end_deadz i
                   = Z.max (get (snd e1) i) (get (snd e2) i))).
Proof.
  intros Hswi Hs He1. unfold envelope in *.
  rewrite <- (envelope_of_cease _ env1 env1 swi1 st) in He1.
  pose proof (cease_calib_status swi1 env1 st) as Hcs. rewrite Hs in Hcs.
  destruct Hswi as [[-> ->] | [-> ->]].
  - destruct (calibrate_corner_first CALIB_TOP_RIGHT x_max y_min _ env1 _ e1
                (or_introl eq_refl) Hcs He1) as (sa & Ea & Sa & Da).
    exists sa. unfold MicoJoy_swihandler at 1.
    cbn [Joystick_CalibrateTopRight Joystick_Read Z.eqb Pos.eqb].
    change (Z.lor X_BIAS_MIN Y_BIAS_MAX)
      with (corner_bias Joystick_CalibrateTopRight).
    rewrite Ea. split; [reflexivity |]. intros He2.
    rewrite <- (envelope_of_cease _ env2 env2
                  Joystick_CalibrateBottomLeft sa) in He2.
    pose proof (cease_calib_status Joystick_CalibrateBottomLeft env2 sa)
      as Hcb. rewrite Sa in Hcb.
    destruct (calibrate_corner_second CALIB_BOTTOM_LEFT x_min y_max _ env2
                _ e2 (f_equal (fun c => Z.lor c CALIB_BOTTOM_LEFT) Hcb)
                eq_refl eq_refl eq_refl eq_refl He2) as (sb & Eb & Sb & Db).
    exists sb. unfold MicoJoy_swihandler.
    cbn [Joystick_CalibrateBottomLeft Joystick_CalibrateTopRight
           Joystick_Read Z.eqb Pos.eqb].
    change (Z.lor X_BIAS_MAX Y_BIAS_MIN)
      with (corner_bias Joystick_CalibrateBottomLeft).
    rewrite Eb. split; [reflexivity | split; [exact Sb |]].
    intros i Hi. destruct (Db i Hi) as [Dx Dy]. destruct (Da i) as [Ax' Ay'].
    assert (C : forall v, rd (cease_polling Joystick_CalibrateBottomLeft
                                env2 sa) v i = rd sa v i).
    { intros v. unfold cease_polling.
      destruct (_ && polling_stick sa); [| reflexivity].
      destruct (RemoveTickerEvent env2); reflexivity. }
    rewrite Dx, Dy, !C, Ax', Ay'. split; reflexivity.
  - destruct (calibrate_corner_first CALIB_BOTTOM_LEFT x_min y_max _ env1 _
                e1 (or_intror eq_refl) Hcs He1) as (sa & Ea & Sa & Da).
    exists sa. unfold MicoJoy_swihandler at 1.
    cbn [Joystick_CalibrateBottomLeft Joystick_CalibrateTopRight
           Joystick_Read Z.eqb Pos.eqb].
    change (Z.lor X_BIAS_MAX Y_BIAS_MIN)
      with (corner_bias Joystick_CalibrateBottomLeft).
    rewrite Ea. split; [reflexivity |]. intros He2.
    rewrite <- (envelope_of_cease _ env2 env2
                  Joystick_CalibrateTopRight sa) in He2.
    pose proof (cease_calib_status Joystick_CalibrateTopRight env2 sa)
      as Hcb. rewrite Sa in Hcb.
    destruct (calibrate_corner_second CALIB_TOP_RIGHT x_max y_min _ env2
                _ e2 (f_equal (fun c => Z.lor c CALIB_TOP_RIGHT) Hcb)
                eq_refl eq_refl eq_refl eq_refl He2) as (sb & Eb & Sb & Db).
    exists sb. unfold MicoJoy_swihandler.
    cbn [Joystick_CalibrateBottomLeft Joystick_CalibrateTopRight
           Joystick_Read Z.eqb Pos.eqb].
    change (Z.lor X_BIAS_MIN Y_BIAS_MAX)
      with (corner_bias Joystick_CalibrateTopRight).
    rewrite Eb. split; [reflexivity | split; [exact Sb |]].
    intros i Hi. destruct (Db i Hi) as [Dx Dy]. destruct (Da i) as [Ax' Ay'].
    assert (C : forall v, rd (cease_polling Joystick_CalibrateTopRight
                                env2 sa) v i = rd sa v i).
    { intros v. unfold cease_polling.
      destruct (_ && polling_stick sa); [| reflexivity].
      destruct (RemoveTickerEvent env2); reflexivity. }
    rewrite Dx, Dy, !C, Ax', Ay'. split; reflexivity.
Qed.

Lemma two_corner_calibration_witness :
  exists sa sb,
    MicoJoy_swihandler Joystick_CalibrateTopRight (mkRegs 0 0) top_right
      connected_state = Some (None, mkRegs 0 0, sa)
    /\ MicoJoy_swihandler Joystick_CalibrateBottomLeft (mkRegs 0 0)
         bottom_left sa = Some (None, mkRegs 0 0, sb)
    /\ calib_status sb = CALIB_NONE
    /\ rd sb x_end_deadz 0 = 6 /\ rd sb y_end_deadz 0 = 9.
Proof.
  assert (E1 : envelope Joystick_CalibrateTopRight top_right connected_state
               = Some (mkArr 1 4, mkArr 2 5)) by (vm_compute; reflexivity).
  destruct (two_corner_calibration Joystick_CalibrateTopRight
              Joystick_CalibrateBottomLeft (mkRegs 0 0) (mkRegs 0 0)
              top_right bottom_left connected_state (mkArr 1 4, mkArr 2 5)
              (mkArr 6 6, mkArr 9 10) (or_introl (conj eq_refl eq_refl))
              eq_refl E1) as (sa & Ha & Hb).
  assert (E2 : envelope Joystick_CalibrateBottomLeft bottom_left sa
               = Some (mkArr 6 6, mkArr 9 10)).
  { pose proof Ha as Hc. vm_compute in Hc. injection Hc as <-.
    vm_compute. reflexivity. }
  destruct (Hb E2) as (sb & Hsb & Hn & Hd).
  exists sa, sb.
  destruct (Hd 0%nat (Nat.lt_0_succ 1)) as [Dx Dy].
  repeat split; assumption.
Defined.

(** * Further properties of the driver *)

(** ** The centre dead zone *)

Lemma scaled_zero (scaler shift : Z) : scaled scaler (usub 0 0) shift = 0.
Proof.
  unfold scaled, umul. change (usub 0 0) with 0.
  rewrite Z.mul_0_r. apply Z.shiftr_0_l.
Qed.

Lemma usub_diag (x : Z) : usub x x = usub 0 0.
Proof. unfold usub. rewrite Z.sub_diag. reflexivity. Qed.

(** X1: a cached timing anywhere in the centre dead zone, its two limits
    included, reads as the centre: 0 in the 8-bit forms and 0x7fff in the
    16-bit forms, on both axes and whatever the scalers are. *)
Theorem centre_dead_zone (st : state) (i : nat) (r : Z) :
  (i < 2)%nat ->
  (rd st x_ctr_low i <= r <= rd st x_ctr_high i ->
   read8_x (wr st x_axis i r) i = 0
   /\ read16_x (wr st x_axis i r) i = 32767)
  /\ (rd st y_ctr_low i <= r <= rd st y_ctr_high i ->
      read8_y (wr st y_axis i r) i = 0
      /\ read16_y (wr st y_axis i r) i = 32767).
Proof.
  intros Hi. split; intros [Hl Hh];
    unfold read8_x, read16_x, read8_y, read16_y;
    rewrite !rd_wr_same by exact Hi; other_array.
  - destruct (Z.gtb_spec r (rd st x_ctr_low i)).
    + destruct (Z.ltb_spec r (rd st x_ctr_high i)); [split; reflexivity |].
      replace r with (rd st x_ctr_high i) by lia.
      rewrite usub_diag, !scaled_zero. split; reflexivity.
    + replace r with (rd st x_ctr_low i) by lia.
      rewrite usub_diag, !scaled_zero. split; reflexivity.
  - destruct (Z.gtb_spec r (rd st y_ctr_low i)).
    + destruct (Z.ltb_spec r (rd st y_ctr_high i)); [split; reflexivity |].
      replace r with (rd st y_ctr_high i) by lia.
      rewrite usub_diag, !scaled_zero. split; reflexivity.
    + replace r with (rd st y_ctr_low i) by lia.
      rewrite usub_diag, !scaled_zero. split; reflexivity.
Qed.

Lemma centre_dead_zone_witness :
  read8_x (wr documented_state x_axis 0 751) 0 = 0
  /\ read16_y (wr documented_state y_axis 0 799) 0 = 32767.
Proof.
  split.
  - apply (centre_dead_zone documented_state 0 751 (Nat.lt_0_succ 1)).
    vm_compute. split; discriminate.
  - apply (centre_dead_zone documented_state 0 799 (Nat.lt_0_succ 1)).
    vm_compute. split; discriminate.
Defined.

(** ** Joystick_Read on what it does not support *)

(** X2: with the calibration state None and polling running, a
    Joystick_Read for a stick number of 2 or more returns without error
    the centred position with no button pushed (r0 = 0 for reason code 0;
    r0 = 0x7fff7fff and r1 = 0 for reason code 1), and any other reason
    code fails with [bad_reason] and leaves the registers as they were.
    In all three cases the call is recorded as joystick activity. *)
Theorem read_unsupported (r : regs) (env : environment) (st : state) :
  calib_status st = CALIB_NONE -> polling_stick st = true ->
  let stick_num := Z.land (r0 r) 255 in
  let reason_code := Z.shiftr (Z.land (r0 r) 65280) 8 in
  let result := MicoJoy_swihandler Joystick_Read r env st in
  (reason_code = 0 -> Z.of_nat NUM_STICKS <= stick_num ->
   result = Some (None, mkRegs 0 (r1 r), set_swi_in_last_min st true))
  /\ (reason_code = 1 -> Z.of_nat NUM_STICKS <= stick_num ->
      result = Some (None, mkRegs 2147450879 0, set_swi_in_last_min st true))
  /\ (reason_code <> 0 -> reason_code <> 1 ->
      result = Some (Some bad_reason, r, set_swi_in_last_min st true)).
Proof.
  intros Hc Hp stick_num reason_code result. subst result.
  rewrite swihandler_Read, read_when_polling by assumption.
  unfold read_result. fold stick_num reason_code.
  repeat split.
  - intros H0 Hs. rewrite H0. cbn [Z.eqb].
    destruct (Z.ltb_spec stick_num (Z.of_nat NUM_STICKS)); [lia | reflexivity].
  - intros H1 Hs. rewrite H1. cbn [Z.eqb Pos.eqb].
    destruct (Z.ltb_spec stick_num (Z.of_nat NUM_STICKS)); [lia | reflexivity].
  - intros H0 H1.
    destruct (Z.eqb_spec reason_code 0); [contradiction |].
    destruct (Z.eqb_spec reason_code 1); [contradiction | reflexivity].
Qed.

Lemma read_unsupported_witness :
  MicoJoy_swihandler Joystick_Read (mkRegs 2 7) quiet documented_state
  = Some (None, mkRegs 0 7, set_swi_in_last_min documented_state true)
  /\ MicoJoy_swihandler Joystick_Read (mkRegs 512 7) quiet documented_state
     = Some (Some bad_reason, mkRegs 512 7,
             set_swi_in_last_min documented_state true).
Proof.
  split.
  - apply (read_unsupported (mkRegs 2 7) quiet documented_state
             eq_refl eq_refl); [reflexivity | discriminate].
  - apply (read_unsupported (mkRegs 512 7) quiet documented_state
             eq_refl eq_refl); discriminate.
Defined.

(** ** Fire buttons *)

Lemma fire_buttons_bits (joy : Z) (n : nat) (k1 k2 : Z) :
  (n < 2)%nat -> 0 <= k1 -> 0 <= k2 -> k1 <> k2 ->
  let b := fire_buttons joy n (Z.shiftl 1 k1) (Z.shiftl 1 k2) in
  Z.testbit b k1 = negb (Z.testbit joy (4 + 2 * Z.of_nat n))
  /\ Z.testbit b k2 = negb (Z.testbit joy (5 + 2 * Z.of_nat n))
  /\ (forall k, 0 <= k -> k <> k1 -> k <> k2 -> Z.testbit b k = false).
Proof.
  intros Hn H1 H2 Hne b. subst b. unfold fire_buttons.
  rewrite !Z.shiftl_1_l.
  assert (T : forall k j, 0 <= k -> 0 <= j ->
                Z.testbit (2 ^ k) j = (k =? j))
    by (intros; apply Z.pow2_bits_eqb; assumption).
  two_sticks n; cbn [Z.of_nat Z.mul Z.add Pos.of_succ_nat Pos.succ Pos.mul
                       Pos.add];
    [ change PC_JOY_A_B1 with (2 ^ 4); change PC_JOY_A_B2 with (2 ^ 5)
    | change PC_JOY_B_B1 with (2 ^ 6); change PC_JOY_B_B2 with (2 ^ 7) ];
    rewrite !land_pow2_eqb by lia;
    [ destruct (Z.testbit joy 4), (Z.testbit joy 5)
    | destruct (Z.testbit joy 6), (Z.testbit joy 7) ];
    cbn [negb]; repeat split; intros;
    rewrite ?Z.lor_spec, ?T, ?Z.bits_0, ?Z.eqb_refl by lia;
    repeat match goal with
           | |- context [?a =? ?b] =>
               destruct (Z.eqb_spec a b); [lia |]
           end; reflexivity.
Qed.

(** X3: Joystick_Read takes the fire buttons from the gameport byte read
    during the call, not from the store.  For stick 0 the buttons are the
    status bits 4 and 5, for stick 1 the bits 6 and 7, a clear bit being a
    pushed button; reason code 1 returns them as bits 0 and 1 of r1 with
    nothing else set, reason code 0 as bits 16 and 17 of r0. *)
Theorem read_buttons (n : nat) (env : environment) (st : state) :
  (n < 2)%nat -> calib_status st = CALIB_NONE -> polling_stick st = true ->
  let b1 := negb (Z.testbit (game_port env) (4 + 2 * Z.of_nat n)) in
  let b2 := negb (Z.testbit (game_port env) (5 + 2 * Z.of_nat n)) in
  exists r r',
    Read_regs (mkRegs (256 + Z.of_nat n) 0) env st = Some r
    /\ Read_regs (mkRegs (Z.of_nat n) 0) env st = Some r'
    /\ Z.testbit (r1 r) 0 = b1 /\ Z.testbit (r1 r) 1 = b2
    /\ (forall k, 2 <= k -> Z.testbit (r1 r) k = false)
    /\ Z.testbit (r0 r') 16 = b1 /\ Z.testbit (r0 r') 17 = b2.
Proof.
  intros Hn Hc Hp b1 b2. subst b1 b2. unfold Read_regs.
  rewrite !swihandler_Read, !read_when_polling by assumption.
  unfold read_result. cbn [r0 r1].
  replace (Z.shiftr (Z.land (256 + Z.of_nat n) 65280) 8) with 1
    by (two_sticks n; reflexivity).
  replace (Z.land (256 + Z.of_nat n) 255) with (Z.of_nat n)
    by (two_sticks n; reflexivity).
  replace (Z.shiftr (Z.land (Z.of_nat n) 65280) 8) with 0
    by (two_sticks n; reflexivity).
  replace (Z.land (Z.of_nat n) 255) with (Z.of_nat n)
    by (two_sticks n; reflexivity).
  cbn [Z.eqb Pos.eqb].
  replace (Z.of_nat n <? Z.of_nat NUM_STICKS) with true
    by (two_sticks n; reflexivity).
  rewrite Nat2Z.id. cbv iota.
  destruct (fire_buttons_bits (game_port env) n 0 1 Hn) as (A & B & C);
    [lia | lia | lia |].
  destruct (fire_buttons_bits (game_port env) n 16 17 Hn) as (A' & B' & _);
    [lia | lia | lia |].
  eexists; eexists. split; [reflexivity |]. split; [reflexivity |].
  cbn [r0 r1]. split; [exact A |]. split; [exact B |].
  split; [intros k Hk; apply C; lia |].
  rewrite !Z.lor_spec, A', B', !Z.shiftl_spec, !Z.land_spec by lia.
  replace (Z.testbit 255 16) with false by reflexivity.
  replace (Z.testbit 255 17) with false by reflexivity.
  replace (Z.testbit 255 (16 - 8)) with false by reflexivity.
  replace (Z.testbit 255 (17 - 8)) with false by reflexivity.
  rewrite !andb_false_r. split; reflexivity.
Qed.

Lemma read_buttons_witness :
  exists r r',
    Read_regs (mkRegs 257 0) (mkEnv None None None 127 []) documented_state
    = Some r
    /\ Read_regs (mkRegs 1 0) (mkEnv None None None 127 []) documented_state
       = Some r'
    /\ Z.testbit (r1 r) 0 = false /\ Z.testbit (r1 r) 1 = true
    /\ (forall k, 2 <= k -> Z.testbit (r1 r) k = false)
    /\ Z.testbit (r0 r') 16 = false /\ Z.testbit (r0 r') 17 = true.
Proof.
  exact (read_buttons 1 (mkEnv None None None 127 []) documented_state
           (le_n 2) eq_refl eq_refl).
Defined.

(** ** smooth_value: the other tiers *)

Lemma div_between (a k lo hi : Z) :
  0 < k -> k * lo <= a -> a <= k * hi -> lo <= a / k <= hi.
Proof.
  intros Hk Hl Hh. split.
  - apply Z.div_le_lower_bound; assumption.
  - apply Z.div_le_upper_bound; assumption.
Qed.

(** X4: whatever the width, and whether or not the comparisons of a tier
    wrap around, the smoothed value of two readings below 2^30 lies between
    the previous and the new one: smoothing never overshoots, and a reading
    equal to the previous one is returned as it is. *)
Theorem smooth_value_between (prev_value new_value stddev : Z) :
  0 <= prev_value < 2 ^ 30 -> 0 <= new_value < 2 ^ 30 ->
  Z.min prev_value new_value
  <= smooth_value prev_value new_value stddev
  <= Z.max prev_value new_value.
Proof.
  intros Hp Hn. pose proof modulus_eq as M. unfold smooth_value.
  assert (E4 : u32 4 = 4) by reflexivity.
  assert (E2 : u32 2 = 2) by reflexivity.
  destruct (_ && _).
  - unfold udiv, uadd, umul. rewrite E4, u32_idem.
    rewrite (u32_id (prev_value * 3)), u32_id by lia.
    apply div_between; lia.
  - destruct (_ && _).
    + unfold udiv, uadd. rewrite E2, u32_idem, u32_id by lia.
      apply div_between; lia.
    + destruct (_ && _).
      * unfold udiv, uadd, umul. rewrite E4, u32_idem.
        rewrite (u32_id (new_value * 3)), u32_id by lia.
        apply div_between; lia.
      * lia.
Qed.

Lemma smooth_value_between_witness :
  Z.min 1000 1010 <= smooth_value 1000 1010 4000 <= Z.max 1000 1010
  /\ smooth_value 703 703 48 = 703.
Proof.
  split.
  - apply smooth_value_between; lia.
  - pose proof (smooth_value_between 703 703 48) as H. lia.
Defined.

(** X5: where nothing wraps around, the tiers above the first are
    inclusive at their upper ends too: a difference above the width and up
    to twice the width gives the mean of the two values, a difference above
    that and up to four times the width gives three quarters of the new
    value, and a larger difference gives the new value as it is. *)
Theorem smooth_value_tiers (prev_value new_value stddev : Z) :
  0 <= new_value -> 0 <= 4 * stddev <= prev_value ->
  prev_value + 4 * stddev < modulus ->
  3 * new_value + prev_value < modulus ->
  let d := Z.abs (new_value - prev_value) in
  (stddev < d <= 2 * stddev ->
   smooth_value prev_value new_value stddev
   = (prev_value + new_value) / 2)
  /\ (2 * stddev < d <= 4 * stddev ->
      smooth_value prev_value new_value stddev
      = (3 * new_value + prev_value) / 4)
  /\ (4 * stddev < d ->
      smooth_value prev_value new_value stddev = new_value).
Proof.
  intros Hn Hs Hp H3 d. subst d. pose proof modulus_eq as M.
  unfold smooth_value.
  assert (U1 : umul stddev 2 = 2 * stddev)
    by (unfold umul; rewrite u32_id; lia).
  assert (U2 : umul stddev 4 = 4 * stddev)
    by (unfold umul; rewrite u32_id; lia).
  rewrite U1, U2, !usub_exact by lia.
  assert (A1 : uadd prev_value stddev = prev_value + stddev)
    by (apply u32_id; lia).
  assert (A2 : uadd prev_value (2 * stddev) = prev_value + 2 * stddev)
    by (apply u32_id; lia).
  assert (A4 : uadd prev_value (4 * stddev) = prev_value + 4 * stddev)
    by (apply u32_id; lia).
  rewrite A1, A2, A4.
  assert (E4 : u32 4 = 4) by reflexivity.
  assert (E2 : u32 2 = 2) by reflexivity.
  repeat split; intros Hd;
    destruct (Z.geb_spec new_value (prev_value - stddev));
    destruct (Z.leb_spec new_value (prev_value + stddev));
    destruct (Z.geb_spec new_value (prev_value - 2 * stddev));
    destruct (Z.leb_spec new_value (prev_value + 2 * stddev));
    destruct (Z.geb_spec new_value (prev_value - 4 * stddev));
    destruct (Z.leb_spec new_value (prev_value + 4 * stddev));
    cbn [andb]; try lia; try reflexivity;
    unfold udiv, uadd, umul; rewrite ?E4, ?E2, u32_idem;
    rewrite ?(u32_id (new_value * 3)) by lia; rewrite u32_id by lia;
    f_equal; lia.
Qed.

Lemma smooth_value_tiers_witness :
  smooth_value 1000 1020 10 = 1010
  /\ smooth_value 1000 960 10 = 970
  /\ smooth_value 1000 1041 10 = 1041.
Proof.
  pose proof modulus_eq as M.
  split; [| split].
  - apply (smooth_value_tiers 1000 1020 10); lia.
  - apply (smooth_value_tiers 1000 960 10); lia.
  - apply (smooth_value_tiers 1000 1041 10); lia.
Defined.

(** ** The derived values follow the calibration values *)

Lemma coefficient_same (st st' : state) (i : nat) (a : avar) :
  same_calibration st st' i -> derived a = true ->
  coefficient st' a i = coefficient st a i.
Proof.
  intros (Hc & He & H) Ha. unfold coefficient, ctr_dz, end_dz.
  rewrite Hc, He.
  rewrite (H x_ctr), (H y_ctr), (H x_ctr_deadz), (H y_ctr_deadz),
    (H x_min), (H y_min), (H x_max), (H y_max), (H x_end_deadz),
    (H y_end_deadz) by reflexivity.
  destruct a; try discriminate Ha; reflexivity.
Qed.

Lemma coherent_stick_same (st st' : state) (i : nat) :
  same_calibration st st' i ->
  (forall a, derived a = true -> rd st' a i = rd st a i) ->
  coherent_stick st i -> coherent_stick st' i.
Proof.
  intros Hs Hd H a Ha.
  rewrite (coefficient_same st st' i a Hs Ha), (Hd a Ha). apply H, Ha.
Qed.

Lemma scalars_calib_status (st st' : state) :
  (forall f, set_arrays st' f = set_arrays st f) ->
  calib_status st' = calib_status st.
Proof.
  intros H. specialize (H (arrays st)).
  change (calib_status st')
    with (calib_status (set_arrays st' (arrays st))).
  rewrite H. reflexivity.
Qed.

Lemma calibration_not_derived (a : avar) :
  calibration a = true -> derived a = false.
Proof. destruct a; intros H; try discriminate H; reflexivity. Qed.

Lemma recalc_same_calibration (sticks : Z) (st : state) (i : nat) :
  same_calibration st (recalc_coefficients sticks st) i.
Proof.
  destruct (scalars_zones st (recalc_coefficients sticks st)
              (recalc_coefficients_scalars sticks st)) as [Hc He].
  split; [exact Hc | split; [exact He |]].
  intros a Ha. apply recalc_coefficients_keeps, calibration_not_derived, Ha.
Qed.

Lemma recalc_coherent_selected (sticks : Z) (st : state) (i : nat) :
  (i < 2)%nat -> stick_selected sticks i = true ->
  coherent_stick (recalc_coefficients sticks st) i.
Proof.
  intros Hi Hs a Ha. rewrite recalc_coefficients_rd, Hs by exact Hi.
  symmetry. apply coefficient_same; [apply recalc_same_calibration | exact Ha].
Qed.

Lemma recalc_coherent_kept (sticks : Z) (st : state) (i : nat) :
  (i < 2)%nat -> coherent_stick st i ->
  coherent_stick (recalc_coefficients sticks st) i.
Proof.
  intros Hi H. destruct (stick_selected sticks i) eqn:Hs.
  - apply recalc_coherent_selected; assumption.
  - apply (coherent_stick_same st); [apply recalc_same_calibration | | exact H].
    intros a _. rewrite recalc_coefficients_rd, Hs by exact Hi. reflexivity.
Qed.

(** X6: after [recalc_coefficients] the derived values of every selected
    stick are those that the calibration values and the zone switches
    determine, a stick whose derived values were up to date keeps them so
    whether selected or not, and a second call with the same mask changes
    no array element. *)
Theorem recalc_coefficients_coherent (sticks : Z) (st : state) (i : nat) :
  (i < 2)%nat ->
  (stick_selected sticks i = true ->
   coherent_stick (recalc_coefficients sticks st) i)
  /\ (coherent_stick st i ->
      coherent_stick (recalc_coefficients sticks st) i)
  /\ (forall a,
        rd (recalc_coefficients sticks (recalc_coefficients sticks st)) a i
        = rd (recalc_coefficients sticks st) a i).
Proof.
  intros Hi. split; [| split].
  - apply recalc_coherent_selected, Hi.
  - apply recalc_coherent_kept, Hi.
  - intros a. rewrite (recalc_coefficients_rd sticks (recalc_coefficients _ _))
      by exact Hi.
    destruct (stick_selected sticks i) eqn:Hs; [| reflexivity].
    destruct (derived a) eqn:Ha.
    + symmetry. apply recalc_coherent_selected; assumption.
    + apply coefficient_primary, Ha.
Qed.

Lemma recalc_coefficients_coherent_witness :
  coherent_stick (recalc_coefficients 1 documented_state) 0
  /\ forall a,
       rd (recalc_coefficients 1 (recalc_coefficients 1 documented_state)) a 0
       = rd (recalc_coefficients 1 documented_state) a 0.
Proof.
  pose proof (recalc_coefficients_coherent 1 documented_state 0
                (Nat.lt_0_succ 1)) as (H1 & _ & H3).
  split; [apply H1; reflexivity | exact H3].
Defined.

(** ** The invariant of the entry points *)

Lemma coherent_preserved (st st' : state) :
  (calib_status st' = CALIB_NONE -> calib_status st = CALIB_NONE) ->
  ctr_zones st' = ctr_zones st -> end_zones st' = end_zones st ->
  (forall v j, (j < 2)%nat -> calibration v || derived v = true ->
     rd st' v j = rd st v j) ->
  coherent st -> coherent st'.
Proof.
  intros Hs Hc He Hr H Hn. destruct (H (Hs Hn)) as [H0 H1].
  split; [apply (coherent_stick_same st); [| | exact H0]
         | apply (coherent_stick_same st); [| | exact H1]];
    try (split; [exact Hc | split; [exact He |]]);
    intros a Ha; apply Hr; try lia; rewrite Ha;
    [reflexivity | apply orb_true_r | reflexivity | apply orb_true_r].
Qed.

(** The same, for a callee that may have changed the cached timings and
    nothing else. *)
Lemma coherent_frame (st st' : state) :
  (forall v j, v <> x_axis -> v <> y_axis -> rd st' v j = rd st v j)
  /\ (forall f, set_arrays st' f = set_arrays st f) ->
  coherent st -> coherent st'.
Proof.
  intros [Hr Hs]. destruct (scalars_zones st st' Hs) as [Hc He].
  apply coherent_preserved; [| exact Hc | exact He |].
  - rewrite (scalars_calib_status st st' Hs). exact (fun H => H).
  - intros v j _ Hv. apply Hr; intros ->; discriminate Hv.
Qed.

Lemma coherent_reseed (st : state) :
  coherent st -> coherent (for_sticks reseed_stick st).
Proof.
  apply coherent_preserved; try reflexivity; [exact (fun H => H) |].
  intros v j Hj Hv. rewrite reseed_rd by exact Hj.
  destruct v; try discriminate Hv; reflexivity.
Qed.

Lemma coherent_Read (r : regs) (env : environment) (st : state) :
  coherent st -> coherent (snd (swi_Joystick_Read r env st)).
Proof.
  intros H. unfold swi_Joystick_Read.
  destruct (negb (calib_status st =? CALIB_NONE)); [exact H |].
  cbn [polling_stick set_swi_in_last_min].
  destruct (polling_stick st); cbn [negb].
  - exact H.
  - destruct (CallEvery env); [exact H |].
    apply (coherent_reseed
             (set_polling_stick (set_swi_in_last_min st true) true)).
    exact H.
Qed.

Lemma coherent_cease (swi_no : Z) (env : environment) (st : state) :
  coherent st -> coherent (cease_polling swi_no env st).
Proof.
  intros H. unfold cease_polling.
  destruct (_ && _); [| exact H].
  destruct (RemoveTickerEvent env); exact H.
Qed.

Lemma coherent_stick_set_calib_status (st : state) (c : Z) (i : nat) :
  coherent_stick st i -> coherent_stick (set_calib_status st c) i.
Proof. intros H a Ha. exact (H a Ha). Qed.

Lemma calib_status_wr_arr (st : state) (a : avar) (x : arr) :
  calib_status (wr_arr st a x) = calib_status st.
Proof. reflexivity. Qed.

Lemma selected_both (i : nat) :
  (i < 2)%nat -> stick_selected (Z.lor STICK_0 STICK_1) i = true.
Proof. intros Hi. two_sticks i; reflexivity. Qed.

(** A corner calibration leaves the derived values up to date when it
    completes the calibration, and the calibration incomplete otherwise. *)
Lemma coherent_calibrate_corner (corner : Z) (xa ya : avar) (bias : Z)
    (env : environment) (st st' : state) :
  corner <> 0 ->
  calibrate_corner corner xa ya bias env st = Some st' -> coherent st'.
Proof.
  intros Hk. unfold calibrate_corner.
  cbn [calib_status set_calib_status].
  destruct (Z.lor (calib_status st) corner
            =? Z.lor CALIB_TOP_RIGHT CALIB_BOTTOM_LEFT).
  - destruct (get_av_stick_pos _ _ _ _ _) as [[[o s] cs] |];
      [| discriminate].
    intros E. injection E as <-. intros _.
    split; apply coherent_stick_set_calib_status, recalc_coherent_selected;
      try lia; apply selected_both; lia.
  - destruct (get_av_stick_pos _ _ _ _ _) as [[[o s] cs] |] eqn:G;
      [| discriminate].
    intros E. injection E as <-. intros Hn. exfalso.
    rewrite !calib_status_wr_arr in Hn.
    destruct (get_av_stick_pos_frame _ _ _ _ _ _ _ _ G) as [_ Hs].
    rewrite (scalars_calib_status _ _ Hs) in Hn.
    cbn [calib_status set_calib_status] in Hn.
    apply Z.lor_eq_0_iff in Hn. unfold CALIB_NONE in Hn. tauto.
Qed.

(** X7: the derived values stay up to date over every SWI.  If, whenever
    the calibration is complete, the derived values of both sticks are
    what [recalc_coefficients] computes from the calibration values, then
    the same holds of the store that [MicoJoy_swihandler] leaves, for every
    SWI number and whether or not the SWI fails. *)
Theorem swihandler_coherent (swi_no : Z) (r : regs) (env : environment)
    (st : state) (e : option oserror) (r' : regs) (st' : state) :
  coherent st ->
  MicoJoy_swihandler swi_no r env st = Some (e, r', st') ->
  coherent st'.
Proof.
  intros H. unfold MicoJoy_swihandler.
  pose proof (coherent_cease swi_no env st H) as Hc.
  assert (K1 : CALIB_TOP_RIGHT <> 0) by (intros K; discriminate K).
  assert (K2 : CALIB_BOTTOM_LEFT <> 0) by (intros K; discriminate K).
  destruct (swi_no =? Joystick_Read).
  - intros E. injection E as E.
    apply (f_equal snd) in E. cbn [snd] in E. rewrite <- E.
    apply coherent_Read, Hc.
  - destruct (swi_no =? Joystick_CalibrateTopRight).
    + destruct (calibrate_corner _ _ _ _ _ _) as [s |] eqn:K;
        [| discriminate].
      intros E. injection E as _ _ <-.
      apply (coherent_calibrate_corner _ _ _ _ _ _ _ K1 K).
    + destruct (swi_no =? Joystick_CalibrateBottomLeft).
      * destruct (calibrate_corner _ _ _ _ _ _) as [s |] eqn:K;
          [| discriminate].
        intros E. injection E as _ _ <-.
        apply (coherent_calibrate_corner _ _ _ _ _ _ _ K2 K).
      * intros E. injection E as _ _ <-. exact Hc.
Qed.

Lemma swihandler_coherent_witness :
  coherent (set_swi_in_last_min documented_state true).
Proof.
  assert (H : coherent documented_state)
    by (intros _; split; intros a Ha; destruct a; try discriminate Ha;
        vm_compute; reflexivity).
  assert (E : MicoJoy_swihandler Joystick_Read (mkRegs 2 7) quiet
                documented_state
              = Some (None, mkRegs 0 7,
                      set_swi_in_last_min documented_state true))
    by (vm_compute; reflexivity).
  exact (swihandler_coherent _ _ _ _ _ _ _ H E).
Defined.

(** A change of the scalar variables other than the zone switches and the
    calibration status. *)
Lemma coherent_scalars (st st' : state) :
  arrays st' = arrays st -> calib_status st' = calib_status st ->
  ctr_zones st' = ctr_zones st -> end_zones st' = end_zones st ->
  coherent st -> coherent st'.
Proof.
  intros Ha Hs Hc He. apply coherent_preserved; [| exact Hc | exact He |].
  - rewrite Hs. exact (fun H => H).
  - intros v j _ _. unfold rd. rewrite Ha. reflexivity.
Qed.

Lemma config_switches_view (args : config_args) (st : state) :
  arrays (fst (config_switches args st)) = arrays st
  /\ calib_status (fst (config_switches args st)) = calib_status st
  /\ (snd (config_switches args st) = false ->
      ctr_zones (fst (config_switches args st)) = ctr_zones st
      /\ end_zones (fst (config_switches args st)) = end_zones st).
Proof.
  unfold config_switches.
  destruct st as [ar cs am ps sw cp cf mw tol sm ez cz pf].
  destruct cz, (CONFIG_SYNTAX_SMOOTH args), (CONFIG_SYNTAX_NOSMOOTH args),
    (CONFIG_SYNTAX_CTRZONE args), (CONFIG_SYNTAX_NOCTRZONE args),
    (CONFIG_SYNTAX_ENDZONE args), (CONFIG_SYNTAX_NOENDZONE args);
    simpl;
    (split; [reflexivity | split; [reflexivity |]]);
    intros H; try discriminate H; split; reflexivity.
Qed.

Lemma config_poll_view (buffer : list Z) (env : environment) (st : state) :
  let st' := snd (config_poll buffer env st) in
  arrays st' = arrays st /\ calib_status st' = calib_status st
  /\ ctr_zones st' = ctr_zones st /\ end_zones st' = end_zones st.
Proof.
  unfold config_poll.
  destruct (negb _); [| repeat split].
  destruct (polling_stick st); [| repeat split].
  destruct (RemoveTickerEvent env); [repeat split |].
  destruct (CallEvery env); repeat split.
Qed.

Lemma coherent_recalc_both (st : state) :
  coherent (recalc_coefficients (Z.lor STICK_0 STICK_1) st).
Proof.
  intros _. split; apply recalc_coherent_selected; try lia;
    apply selected_both; lia.
Qed.

Lemma coherent_Config (argc : Z) (args : Z + config_args)
    (env : environment) (st : state) :
  coherent st -> coherent (snd (cmd_JoystickConfig argc args env st)).
Proof.
  intros H. unfold cmd_JoystickConfig.
  destruct (argc >? 0); [| exact H].
  destruct args as [e | args]; [exact H |].
  destruct (_ || _); [exact H |].
  destruct (config_switches_view args st) as (Va & Vs & Vz).
  destruct (config_switches args st) as [s1 recalc].
  cbn [fst snd] in Va, Vs, Vz.
  assert (H2 : coherent (if recalc
                         then recalc_coefficients (Z.lor STICK_0 STICK_1) s1
                         else s1)).
  { destruct recalc; [apply coherent_recalc_both |].
    destruct (Vz eq_refl) as [Vc Ve].
    apply (coherent_scalars st); assumption. }
  set (s2 := if recalc then _ else s1) in *. clearbody s2.
  assert (H3 : coherent
                 match CONFIG_SYNTAX_TOLERANCE args with
                 | Some buffer => set_tolerance s2 (u32 (eval_expr buffer))
                 | None => s2
                 end)
    by (destruct (CONFIG_SYNTAX_TOLERANCE args); exact H2).
  set (s3 := match CONFIG_SYNTAX_TOLERANCE args with
             | Some _ => _ | None => _ end) in *. clearbody s3.
  assert (H4 : coherent
                 match CONFIG_SYNTAX_TIMEOUT args with
                 | Some buffer => set_max_wait s3 (u32 (eval_expr buffer))
                 | None => s3
                 end)
    by (destruct (CONFIG_SYNTAX_TIMEOUT args); exact H3).
  set (s4 := match CONFIG_SYNTAX_TIMEOUT args with
             | Some _ => _ | None => _ end) in *. clearbody s4.
  destruct (CONFIG_SYNTAX_POLL args) as [buffer |]; [| exact H4].
  destruct (config_poll_view buffer env s4) as (A & B & C & D).
  apply (coherent_scalars s4); assumption.
Qed.

Lemma calib_field_rd (arg : option (list Z)) (change_x : bool)
    (xv yv : avar) (n : nat) (st : state) (v : avar) (j : nat) :
  j <> n -> rd (calib_field arg change_x xv yv n st) v j = rd st v j.
Proof.
  intros Hj. unfold calib_field.
  destruct arg; [| reflexivity].
  destruct change_x; apply rd_wr_other_index; congruence.
Qed.

Lemma calib_field_scalars (arg : option (list Z)) (change_x : bool)
    (xv yv : avar) (n : nat) (st : state) (f : avar -> arr) :
  set_arrays (calib_field arg change_x xv yv n st) f = set_arrays st f.
Proof.
  unfold calib_field. destruct arg; [| reflexivity].
  destruct change_x; reflexivity.
Qed.

Lemma selected_one (joynum : Z) (j : nat) :
  0 <= joynum <= 1 -> (j < 2)%nat ->
  stick_selected (Z.shiftl 1 joynum) j = (j =? Z.to_nat joynum)%nat.
Proof.
  intros Hn Hj.
  assert (joynum = 0 \/ joynum = 1) as [-> | ->] by lia;
    two_sticks j; reflexivity.
Qed.

Lemma coherent_Calib (args : Z + calib_args) (st : state) :
  coherent st -> coherent (snd (cmd_JoystickCalib args st)).
Proof.
  intros H. unfold cmd_JoystickCalib.
  destruct args as [e | args]; [exact H |].
  destruct (Z.gtb_spec (eval_expr (CALIB_SYNTAX_JOYNUM args))
              (Z.of_nat NUM_STICKS - 1)); [exact H |].
  destruct (Z.ltb_spec (eval_expr (CALIB_SYNTAX_JOYNUM args)) 0);
    [exact H |].
  cbn [orb].
  set (joynum := eval_expr (CALIB_SYNTAX_JOYNUM args)) in *.
  assert (Hn : 0 <= joynum <= 1) by (unfold NUM_STICKS in *; lia).
  destruct (if _ || _ then Some true else _) as [change_x |]; [| exact H].
  cbn [snd].
  set (s := calib_field (CALIB_SYNTAX_SMOOTH args) _ _ _ _ _).
  assert (Hr : forall v j, j <> Z.to_nat joynum -> rd s v j = rd st v j).
  { intros v j Hj. unfold s. rewrite !calib_field_rd by exact Hj.
    reflexivity. }
  assert (Hs : forall f, set_arrays s f = set_arrays st f).
  { intros f. unfold s. rewrite !calib_field_scalars. reflexivity. }
  clearbody s.
  destruct (scalars_zones st s Hs) as [Hc He].
  pose proof (scalars_calib_status st s Hs) as Hk.
  pose proof (scalars_calib_status s _
                (recalc_coefficients_scalars (Z.shiftl 1 joynum) s)) as Hk'.
  intros Hnone. rewrite Hk', Hk in Hnone. destruct (H Hnone) as [C0 C1].
  assert (G : forall j, (j < 2)%nat -> coherent_stick st j ->
                coherent_stick (recalc_coefficients (Z.shiftl 1 joynum) s) j).
  { intros j Hj Hst.
    destruct (Nat.eqb_spec j (Z.to_nat joynum)) as [E | E].
    - apply recalc_coherent_selected; [exact Hj |].
      rewrite selected_one by assumption. apply Nat.eqb_eq, E.
    - apply recalc_coherent_kept; [exact Hj |].
      apply (coherent_stick_same st); [| | exact Hst].
      + split; [exact Hc | split; [exact He |]].
        intros a _. apply Hr, E.
      + intros a _. apply Hr, E. }
  split; apply G; try lia; assumption.
Qed.

(** X8: the derived values stay up to date over every command.  If,
    whenever the calibration is complete, the derived values of both
    sticks are what [recalc_coefficients] computes from the calibration
    values and the zone switches, then the same holds after
    *JoystickInfo, *JoystickConfig and *JoystickCalib, whatever the
    arguments and whether or not the command fails. *)
Theorem cmdhandler_coherent (cmd : command) (env : environment)
    (st : state) :
  coherent st -> coherent (snd (MicoJoy_cmdhandler cmd env st)).
Proof.
  intros H. destruct cmd as [| argc args | args]; cbn [MicoJoy_cmdhandler].
  - exact H.
  - apply coherent_Config, H.
  - apply coherent_Calib, H.
Qed.

Lemma cmdhandler_coherent_witness :
  coherent
    (snd (MicoJoy_cmdhandler
            (config_command false false false true false true) quiet
            documented_state)).
Proof.
  apply cmdhandler_coherent.
  intros _; split; intros a Ha; destruct a; try discriminate Ha;
    vm_compute; reflexivity.
Defined.

(** ** Axes that are not requested *)

Lemma read_joystick_unrequested (axes : Z) (c : cycle) (st : state)
    (m lost : Z) (st' : state) (ax : axis) :
  read_joystick axes c st = Some (m, lost, st') ->
  bit_set axes (axis_bit ax) = false ->
  rd st' (axis_cache ax) (axis_stick ax)
  = rd st (axis_cache ax) (axis_stick ax).
Proof.
  unfold read_joystick. intros H Hb.
  destruct (timing_loop st (samples c) (acq_start axes c)) as [a |] eqn:T;
    [| discriminate H].
  injection H as _ _ <-. rewrite commit_axis_of.
  destruct (timing_loop_settled st ax _ _ _ T Hb) as [-> _].
  unfold committed.
  replace (axis_new ax (acq_start axes c)) with UINT_MAX
    by (destruct ax; reflexivity).
  reflexivity.
Qed.

(** A stick none of whose axes is requested keeps all its values. *)
Lemma read_joystick_stick (axes : Z) (c : cycle) (st : state)
    (m lost : Z) (st' : state) (j : nat) :
  read_joystick axes c st = Some (m, lost, st') ->
  (forall ax, axis_stick ax = j -> bit_set axes (axis_bit ax) = false) ->
  (j < 2)%nat -> forall v, rd st' v j = rd st v j.
Proof.
  intros H Hb Hj v.
  destruct (read_joystick_frame _ _ _ _ _ _ H) as [F _].
  pose proof (fun ax => read_joystick_unrequested _ _ _ _ _ _ ax H) as U.
  two_sticks j.
  - pose proof (U Ax (Hb Ax eq_refl)) as Ux.
    pose proof (U Ay (Hb Ay eq_refl)) as Uy.
    destruct v; try (apply F; discriminate); assumption.
  - pose proof (U Bx (Hb Bx eq_refl)) as Ux.
    pose proof (U By (Hb By eq_refl)) as Uy.
    destruct v; try (apply F; discriminate); assumption.
Qed.

Lemma stick_axes_bit (sticks : Z) (ax : axis) :
  bit_set (stick_axes sticks) (axis_bit ax)
  = stick_selected sticks (axis_stick ax).
Proof.
  unfold stick_axes.
  destruct (stick_selected sticks 0) eqn:E0,
           (stick_selected sticks 1) eqn:E1;
    destruct ax; cbn [axis_stick]; rewrite ?E0, ?E1; reflexivity.
Qed.

Lemma bit_set_land (a b : Z) (ax : axis) :
  bit_set (Z.land a b) (axis_bit ax)
  = bit_set a (axis_bit ax) && bit_set b (axis_bit ax).
Proof. rewrite !bit_set_axis. apply Z.land_spec. Qed.

(** What every acquisition cycle of the averaging loop preserves, the loop
    preserves. *)
Lemma av_loop_rel (R : state -> state -> Prop) (sticks read_axes : Z) :
  (forall st, R st st) ->
  (forall s1 s2 s3, R s1 s2 -> R s2 s3 -> R s1 s3) ->
  (forall c st m lost st',
     read_joystick read_axes c st = Some (m, lost, st') -> R st st') ->
  forall cs test go_go_go l st l' st' cs',
  av_loop sticks read_axes cs test go_go_go l st = Some (l', st', cs') ->
  R st st'.
Proof.
  intros Rr Rt Rs.
  induction cs as [| c cs IH]; intros test go_go_go l st l' st' cs' H;
    cbn [av_loop] in H.
  - destruct (test >=? 0); [discriminate H |].
    injection H as _ <- _. apply Rr.
  - destruct (test >=? 0); [| injection H as _ <- _; apply Rr].
    destruct (read_joystick read_axes c st) as [[[m lost] st1] |] eqn:E;
      [| discriminate H].
    apply (Rt _ st1); [exact (Rs _ _ _ _ _ E) |].
    destruct (fold_left (av_stick_pass sticks go_go_go lost st1)
                stick_loop (l, 0)) as [l1 within].
    destruct (go_go_go >? 0).
    + destruct (within =? sticks); eapply IH; exact H.
    + destruct (go_go_go =? 0); eapply IH; exact H.
Qed.

Lemma get_av_stick_pos_stick (sticks : Z) (o : av_out) (bias : Z)
    (cs : list cycle) (st : state) (o' : av_out) (st' : state)
    (cs' : list cycle) (j : nat) :
  get_av_stick_pos sticks o bias cs st = Some (o', st', cs') ->
  (j < 2)%nat -> stick_selected sticks j = false ->
  (forall v, rd st' v j = rd st v j)
  /\ get (x_array o') j = get (x_array o) j
  /\ get (y_array o') j = get (y_array o) j
  /\ get (x_jitdist o') j = get (x_jitdist o) j
  /\ get (y_jitdist o') j = get (y_jitdist o) j.
Proof.
  unfold get_av_stick_pos. intros H Hj Hs.
  match type of H with
  | context [av_loop ?a ?b ?c ?d ?e ?f st] =>
      destruct (av_loop a b c d e f st) as [[[l1 st1] cs1] |] eqn:E
  end; [| discriminate H].
  injection H as <- <- _. split.
  - revert E.
    apply (av_loop_rel (fun s s' => forall v, rd s' v j = rd s v j)).
    + reflexivity.
    + intros s1 s2 s3 H1 H2 v. rewrite H2. apply H1.
    + intros c s m lost s' R. apply (read_joystick_stick _ _ _ _ _ _ _ R);
        [| exact Hj].
      intros ax <-. rewrite bit_set_land.
      change (if stick_selected sticks 1
              then Z.lor (if stick_selected sticks 0
                          then Z.lor PC_JOY_A_X PC_JOY_A_Y else 0)
                     (Z.lor PC_JOY_B_X PC_JOY_B_Y)
              else if stick_selected sticks 0
                   then Z.lor PC_JOY_A_X PC_JOY_A_Y else 0)
        with (stick_axes sticks).
      rewrite stick_axes_bit, Hs. reflexivity.
  - unfold stick_loop. cbn [fold_left]. unfold av_finish_stick.
    destruct (stick_selected sticks 1) eqn:E1,
             (stick_selected sticks 0) eqn:E0;
      two_sticks j; try congruence; cbn [x_array y_array x_jitdist y_jitdist];
      repeat split; reflexivity.
Qed.

(** ** reinit_joysticks *)

Lemma reinit_start_rd (sticks : Z) (st : state) (v : avar) (j : nat) :
  (j < 2)%nat ->
  rd (for_sticks (reinit_start_stick sticks) st) v j =
  if stick_selected sticks j then
    match v with
    | x_axis | y_axis => 800
    | x_smooth | y_smooth => 0
    | _ => rd st v j
    end
  else rd st v j.
Proof.
  intros Hj. unfold for_sticks, stick_loop. cbn [fold_left].
  unfold reinit_start_stick.
  destruct (stick_selected sticks 1) eqn:E1,
           (stick_selected sticks 0) eqn:E0;
    two_sticks j; rewrite ?E0, ?E1; destruct v; reflexivity.
Qed.

Lemma reinit_start_scalars (sticks : Z) (st : state) (f : avar -> arr) :
  set_arrays (for_sticks (reinit_start_stick sticks) st) f = set_arrays st f.
Proof.
  unfold for_sticks, stick_loop. cbn [fold_left]. unfold reinit_start_stick.
  destruct (stick_selected sticks 1), (stick_selected sticks 0); reflexivity.
Qed.

(** The widths are the only values that the loop over the sticks inside
    the test loop writes, and only those of the selected sticks. *)
Lemma reinit_stick_pass_state (sticks test : Z) (st : state)
    (lx ly : arr) (n : nat) :
  let st' := fst (fst (reinit_stick_pass sticks test (st, lx, ly) n)) in
  (forall v j,
     stick_selected sticks j = false \/ (v <> x_smooth /\ v <> y_smooth) ->
     rd st' v j = rd st v j)
  /\ (forall f, set_arrays st' f = set_arrays st f).
Proof.
  unfold reinit_stick_pass.
  destruct (stick_selected sticks n) eqn:En; [| split; reflexivity].
  destruct (test <? NUM_TEST_RUNS - 1); [| split; reflexivity].
  cbn [fst].
  assert (W : forall s a d v j,
            a = x_smooth \/ a = y_smooth ->
            stick_selected sticks j = false
            \/ (v <> x_smooth /\ v <> y_smooth) ->
            rd (wr s a n d) v j = rd s v j).
  { intros s a d v j Ha [Hs | [Hx Hy]].
    - apply rd_wr_other_index. congruence.
    - apply rd_wr_other_array. destruct Ha; congruence. }
  destruct (_ >? rd st x_smooth n).
  - destruct (_ >? _); split; intros; rewrite ?W by auto; reflexivity.
  - destruct (_ >? _); split; intros; rewrite ?W by auto; reflexivity.
Qed.

Lemma reinit_sticks_pass_state (sticks test : Z) (st : state)
    (lx ly : arr) :
  let st' := fst (fst (fold_left (reinit_stick_pass sticks test) stick_loop
                         (st, lx, ly))) in
  (forall v j,
     stick_selected sticks j = false \/ (v <> x_smooth /\ v <> y_smooth) ->
     rd st' v j = rd st v j)
  /\ (forall f, set_arrays st' f = set_arrays st f).
Proof.
  unfold stick_loop. cbn [fold_left].
  destruct (reinit_stick_pass_state sticks test st lx ly 1) as [A1 A2].
  destruct (reinit_stick_pass sticks test (st, lx, ly) 1) as [[s1 lx1] ly1].
  destruct (reinit_stick_pass_state sticks test s1 lx1 ly1 0) as [B1 B2].
  cbn [fst] in *. split.
  - intros v j H. rewrite B1, A1 by exact H. reflexivity.
  - intros f. rewrite B2, A2. reflexivity.
Qed.

(** The test loop writes the cached timings and the widths of the selected
    sticks and nothing else. *)
Lemma reinit_loop_frame (sticks : Z) (cs : list cycle) :
  forall test new_mask lx ly st m st' cs',
  reinit_loop sticks (stick_axes sticks) cs test new_mask lx ly st
  = Some (m, st', cs') ->
  (forall v j, (j < 2)%nat ->
     stick_selected sticks j = false
     \/ (v <> x_axis /\ v <> y_axis /\ v <> x_smooth /\ v <> y_smooth) ->
     rd st' v j = rd st v j)
  /\ (forall f, set_arrays st' f = set_arrays st f).
Proof.
  induction cs as [| c cs IH]; intros test new_mask lx ly st m st' cs' H;
    cbn [reinit_loop] in H.
  - destruct (test >=? 0); [discriminate H |].
    injection H as _ <- _. split; reflexivity.
  - destruct (test >=? 0); [| injection H as _ <- _; split; reflexivity].
    destruct (read_joystick (stick_axes sticks) c st)
      as [[[m1 lost] s1] |] eqn:E; [| discriminate H].
    destruct (read_joystick_frame _ _ _ _ _ _ E) as [F1 F2].
    destruct (reinit_sticks_pass_state sticks test s1 lx ly) as [P1 P2].
    destruct (fold_left (reinit_stick_pass sticks test) stick_loop
                (s1, lx, ly)) as [[s2 lx2] ly2].
    cbn [fst] in P1, P2.
    destruct (IH _ _ _ _ _ _ _ _ H) as [I1 I2]. split.
    + intros v j Hj Hv. rewrite I1 by assumption.
      destruct Hv as [Hs | (Hx & Hy & Hsx & Hsy)].
      * rewrite P1 by (left; exact Hs).
        apply (read_joystick_stick _ _ _ _ _ _ _ E); [| exact Hj].
        intros ax <-. rewrite stick_axes_bit. exact Hs.
      * rewrite P1 by (right; split; assumption). apply F1; assumption.
    + intros f. rewrite I2, P2, F2. reflexivity.
Qed.

Lemma reinit_guess_rd (sticks : Z) (st : state) (v : avar) (j : nat) :
  (j < 2)%nat ->
  rd (for_sticks (reinit_guess_stick sticks) st) v j =
  if stick_selected sticks j then
    match v with
    | x_min | y_min => 0
    | x_max => umul (rd st x_ctr j) 2
    | y_max => umul (rd st y_ctr j) 2
    | _ => rd st v j
    end
  else rd st v j.
Proof.
  intros Hj. unfold for_sticks, stick_loop. cbn [fold_left].
  unfold reinit_guess_stick.
  destruct (stick_selected sticks 1) eqn:E1,
           (stick_selected sticks 0) eqn:E0;
    two_sticks j; rewrite ?E0, ?E1; destruct v; reflexivity.
Qed.

Lemma reinit_guess_scalars (sticks : Z) (st : state) (f : avar -> arr) :
  set_arrays (for_sticks (reinit_guess_stick sticks) st) f = set_arrays st f.
Proof.
  unfold for_sticks, stick_loop. cbn [fold_left]. unfold reinit_guess_stick.
  destruct (stick_selected sticks 1), (stick_selected sticks 0); reflexivity.
Qed.

Lemma scalars_axes_mask (st st' : state) :
  (forall f, set_arrays st' f = set_arrays st f) ->
  axes_mask st' = axes_mask st /\ smooth st' = smooth st.
Proof.
  intros H. specialize (H (arrays st)). split.
  - change (axes_mask st') with (axes_mask (set_arrays st' (arrays st))).
    rewrite H. reflexivity.
  - change (smooth st') with (smooth (set_arrays st' (arrays st))).
    rewrite H. reflexivity.
Qed.

Lemma reinit_joysticks_facts (sticks : Z) (cs : list cycle) (st : state)
    (st' : state) (cs' : list cycle) :
  reinit_joysticks sticks cs st = Some (st', cs') ->
  (forall j, (j < 2)%nat -> stick_selected sticks j = false ->
     forall v, rd st' v j = rd st v j)
  /\ (forall j, (j < 2)%nat -> stick_selected sticks j = true ->
        rd st' x_min j = 0 /\ rd st' y_min j = 0
        /\ rd st' x_max j = umul (rd st' x_ctr j) 2
        /\ rd st' y_max j = umul (rd st' y_ctr j) 2
        /\ coherent_stick st' j)
  /\ (forall f, set_arrays st' f
                = set_axes_mask (set_arrays st f) (axes_mask st'))
  /\ (forall ax, stick_selected sticks (axis_stick ax) = false ->
        Z.testbit (axes_mask st') (axis_index ax)
        = Z.testbit (axes_mask st) (axis_index ax)).
Proof.
  intros H. unfold reinit_joysticks in H.
  pose proof (reinit_start_rd sticks st) as S1.
  pose proof (reinit_start_scalars sticks st) as S2.
  set (s0 := for_sticks (reinit_start_stick sticks) st) in *. clearbody s0.
  destruct (reinit_loop _ _ _ _ _ _ _ _) as [[[m s2] cs2] |] eqn:L;
    [| discriminate H].
  destruct (reinit_loop_frame _ _ _ _ _ _ _ _ _ _ L) as [L1 L2].
  match type of H with
  | context [get_av_stick_pos ?a ?b ?c ?d ?e] =>
      destruct (get_av_stick_pos a b c d e) as [[[o s4] cs4] |] eqn:G
  end; [| discriminate H].
  destruct (get_av_stick_pos_frame _ _ _ _ _ _ _ _ G) as [F1 F2].
  pose proof (fun j => get_av_stick_pos_stick _ _ _ _ _ _ _ _ j G) as F3.
  injection H as <- _.
  set (M := Z.lor (Z.land (axes_mask s2) (unot (stick_axes sticks)))
              (Z.land m (stick_axes sticks))) in *.
  assert (Sc : forall f,
            set_arrays
              (recalc_coefficients sticks
                 (for_sticks (reinit_guess_stick sticks)
                    (wr_arr
                       (wr_arr
                          (wr_arr (wr_arr s4 x_ctr (x_array o)) y_ctr
                             (y_array o)) x_ctr_deadz (x_jitdist o))
                       y_ctr_deadz (y_jitdist o)))) f
            = set_axes_mask (set_arrays st f) M).
  { intros f. rewrite recalc_coefficients_scalars, reinit_guess_scalars.
    change (set_arrays (wr_arr (wr_arr (wr_arr (wr_arr s4 x_ctr (x_array o))
                                          y_ctr (y_array o))
                                  x_ctr_deadz (x_jitdist o))
                          y_ctr_deadz (y_jitdist o)) f)
      with (set_arrays s4 f).
    rewrite F2.
    change (set_arrays (set_smooth (set_axes_mask s2 M) (smooth s0)) f)
      with (set_smooth (set_axes_mask (set_arrays s2 f) M) (smooth s0)).
    rewrite L2.
    change (set_arrays (set_smooth s0 false) f)
      with (set_smooth (set_arrays s0 f) false).
    rewrite S2. destruct (scalars_axes_mask st s0 S2) as [_ ->].
    reflexivity. }
  set (sg := wr_arr (wr_arr (wr_arr (wr_arr s4 x_ctr (x_array o)) y_ctr
                               (y_array o)) x_ctr_deadz (x_jitdist o))
               y_ctr_deadz (y_jitdist o)) in *.
  assert (Am : axes_mask
                 (recalc_coefficients sticks
                    (for_sticks (reinit_guess_stick sticks) sg)) = M).
  { change (axes_mask (recalc_coefficients sticks
                         (for_sticks (reinit_guess_stick sticks) sg)))
      with (axes_mask
              (set_arrays (recalc_coefficients sticks
                             (for_sticks (reinit_guess_stick sticks) sg))
                 (arrays st))).
    rewrite Sc. reflexivity. }
  split; [| split; [| split]].
  - intros j Hj Hs v. destruct (F3 j Hj Hs) as (U & Ox & Oy & Jx & Jy).
    rewrite recalc_coefficients_rd, Hs by exact Hj.
    rewrite reinit_guess_rd, Hs by exact Hj.
    assert (B : rd s2 v j = rd st v j).
    { rewrite L1 by (try exact Hj; left; exact Hs).
      change (rd (set_smooth s0 false) v j) with (rd s0 v j).
      rewrite S1, Hs by exact Hj. reflexivity. }
    unfold sg. rewrite !rd_wr_arr. rewrite Ox, Oy, Jx, Jy, U.
    cbn [x_array y_array x_jitdist y_jitdist].
    change (rd (set_smooth (set_axes_mask s2 M) (smooth s0)) v j)
      with (rd s2 v j).
    rewrite B. unfold rd in B |- *.
    destruct v; cbn [avar_beq]; try reflexivity;
      change (arrays (set_smooth (set_axes_mask s2 M) (smooth s0)))
        with (arrays s2); exact B.
  - intros j Hj Hs.
    pose proof (recalc_coherent_selected sticks
                  (for_sticks (reinit_guess_stick sticks) sg) j Hj Hs) as C.
    rewrite !recalc_coefficients_keeps by reflexivity.
    rewrite !reinit_guess_rd, Hs by exact Hj.
    repeat split; try reflexivity. exact C.
  - intros f. rewrite Am. apply Sc.
  - intros ax Hs. rewrite Am. unfold M.
    pose proof (axis_index_range ax) as Hr.
    rewrite Z.lor_spec, !Z.land_spec, testbit_unot by exact Hr.
    rewrite <- !(bit_set_axis (stick_axes sticks)), stick_axes_bit, Hs.
    destruct (scalars_axes_mask _ _ L2) as [-> _].
    change (axes_mask (set_smooth s0 false)) with (axes_mask s0).
    destruct (scalars_axes_mask _ _ S2) as [-> _].
    cbn [negb]. rewrite andb_true_r, andb_false_r, orb_false_r.
    reflexivity.
Qed.

(** X9: [reinit_joysticks] works on the selected sticks only.  A stick
    outside the mask keeps every array element, the cached timings
    included, and its two bits of [axes_mask]; for a stick in the mask the
    minima are 0, each maximum is twice the centre found, and the derived
    values are up to date.  No scalar variable other than [axes_mask]
    changes: the smoothing switch is back to what it was. *)
Theorem reinit_joysticks_stick (sticks : Z) (cs : list cycle) (st : state)
    (st' : state) (cs' : list cycle) (j : nat) :
  (j < 2)%nat ->
  reinit_joysticks sticks cs st = Some (st', cs') ->
  (if stick_selected sticks j
   then rd st' x_min j = 0 /\ rd st' y_min j = 0
        /\ rd st' x_max j = umul (rd st' x_ctr j) 2
        /\ rd st' y_max j = umul (rd st' y_ctr j) 2
        /\ coherent_stick st' j
   else (forall v, rd st' v j = rd st v j)
        /\ (forall ax, axis_stick ax = j ->
              Z.testbit (axes_mask st') (axis_index ax)
              = Z.testbit (axes_mask st) (axis_index ax)))
  /\ (forall f, set_arrays st' f
                = set_axes_mask (set_arrays st f) (axes_mask st')).
Proof.
  intros Hj H.
  destruct (reinit_joysticks_facts _ _ _ _ _ H) as (A & B & C & D).
  split; [| exact C].
  destruct (stick_selected sticks j) eqn:Hs.
  - apply B; assumption.
  - split; [apply A; assumption |].
    intros ax <-. apply D, Hs.
Qed.

Lemma reinit_joysticks_stick_witness :
  exists st' cs',
    reinit_joysticks 1 (steady_cycles 72) initial_state = Some (st', cs')
    /\ rd st' x_max 0 = umul (rd st' x_ctr 0) 2
    /\ (forall v, rd st' v 1 = rd initial_state v 1).
Proof.
  destruct (reinit_joysticks 1 (steady_cycles 72) initial_state)
    as [[st' cs'] |] eqn:E.
  - exists st', cs'. split; [reflexivity |].
    pose proof (reinit_joysticks_stick 1 _ _ _ _ 0 (Nat.lt_0_succ 1) E)
      as [(_ & _ & X & _) _].
    pose proof (reinit_joysticks_stick 1 _ _ _ _ 1 (Nat.lt_succ_diag_r 1) E)
      as [(Y & _) _].
    split; [exact X | exact Y].
  - exfalso. vm_compute in E. discriminate E.
Defined.

Lemma reinit_coherent (sticks : Z) (cs : list cycle) (st st' : state)
    (cs' : list cycle) :
  reinit_joysticks sticks cs st = Some (st', cs') ->
  coherent st -> coherent st'.
Proof.
  intros H Hc.
  destruct (reinit_joysticks_facts _ _ _ _ _ H) as (A & B & C & _).
  assert (Z1 : ctr_zones st' = ctr_zones st
               /\ end_zones st' = end_zones st
               /\ calib_status st' = calib_status st).
  { specialize (C (arrays st)).
    change (ctr_zones st') with (ctr_zones (set_arrays st' (arrays st))).
    change (end_zones st') with (end_zones (set_arrays st' (arrays st))).
    change (calib_status st')
      with (calib_status (set_arrays st' (arrays st))).
    rewrite C. repeat split. }
  destruct Z1 as (Zc & Ze & Zs).
  intros Hn. rewrite Zs in Hn. destruct (Hc Hn) as [C0 C1].
  assert (G : forall j, (j < 2)%nat -> coherent_stick st j ->
                coherent_stick st' j).
  { intros j Hj Hst. destruct (stick_selected sticks j) eqn:Hs.
    - apply B; assumption.
    - apply (coherent_stick_same st); [| | exact Hst].
      + split; [exact Zc | split; [exact Ze |]].
        intros a _. apply A; assumption.
      + intros a _. apply A; assumption. }
  split; apply G; try lia; assumption.
Qed.

(** X10: the derived values stay up to date over *JoystickReInit and over
    the initialisation of the module, for one stick or both and whether
    or not an error is returned. *)
Theorem reinit_entries_coherent (env : environment) (st : state)
    (e : option oserror) (st' : state) :
  coherent st ->
  (forall args,
     cmd_JoystickReInit args env st = Some (e, st') -> coherent st')
  /\ (forall getenv matched,
        MicoJoy_initialise getenv matched env st = Some (e, st') ->
        coherent st').
Proof.
  intros Hc. split.
  - intros args H. unfold cmd_JoystickReInit in H.
    destruct args as [n | [buffer |]].
    + injection H as _ <-. exact Hc.
    + destruct (_ || _); [injection H as _ <-; exact Hc |].
      destruct (reinit_joysticks _ _ _) as [[s cs] |] eqn:R;
        [| discriminate H].
      injection H as _ <-. exact (reinit_coherent _ _ _ _ _ R Hc).
    + destruct (reinit_joysticks _ _ _) as [[s cs] |] eqn:R;
        [| discriminate H].
      injection H as _ <-. exact (reinit_coherent _ _ _ _ _ R Hc).
  - intros getenv matched H. unfold MicoJoy_initialise in H.
    destruct getenv; [injection H as _ <-; exact Hc |].
    destruct (_ || _); [injection H as _ <-; exact Hc |].
    destruct (reinit_joysticks _ _ _) as [[s cs] |] eqn:R;
      [| discriminate H].
    pose proof (reinit_coherent _ _ _ _ _ R Hc) as Hs.
    destruct (CallEvery env); injection H as _ <-; exact Hs.
Qed.

Lemma reinit_entries_coherent_witness :
  exists st',
    cmd_JoystickReInit (inr (Some (block 1)))
      (mkEnv None None None 255 (steady_cycles 72)) initial_state
    = Some (None, st')
    /\ coherent st'.
Proof.
  destruct (cmd_JoystickReInit (inr (Some (block 1)))
              (mkEnv None None None 255 (steady_cycles 72)) initial_state)
    as [[[e |] st'] |] eqn:E.
  - exfalso. vm_compute in E. discriminate E.
  - exists st'. split; [reflexivity |].
    assert (H : coherent initial_state)
      by (intros _; split; intros a Ha; destruct a; try discriminate Ha;
          vm_compute; reflexivity).
    exact (proj1 (reinit_entries_coherent _ _ _ _ H) _ E).
  - exfalso. vm_compute in E. discriminate E.
Defined.

(** ** The ticker and callback handlers *)

(** X11: at most one callback.  While a callback is pending no other one
    can be added, the polling tick that finds a callback pending changes
    nothing, whatever OS_AddCallBack would have returned, and the callback
    gives the slot back whether or not it reads the joystick; the callback
    writes no array element other than the cached timings, and a callback
    that comes after polling has stopped reads nothing and writes none. *)
Theorem callback_single_slot (env : environment) (st : state) :
  single_slot st ->
  single_slot (pollstick_handler env st)
  /\ single_slot (stoppoll_handler env st)
  /\ (callback_pending st = true -> pollstick_handler env st = st)
  /\ (forall st', doread_handler env st = Some st' ->
        callback_pending st' = false /\ callback_free st' = true
        /\ (forall v j, v <> x_axis -> v <> y_axis ->
              rd st' v j = rd st v j)
        /\ (polling_stick st = false -> arrays st' = arrays st))
  /\ (polling_stick st = false -> exists st', doread_handler env st = Some st').
Proof.
  intros H. unfold single_slot in *.
  split; [| split; [| split; [| split]]].
  - unfold pollstick_handler.
    destruct (callback_free st) eqn:Ef; [| intros _; exact Ef].
    destruct (AddCallBack env); [rewrite Ef; exact H | reflexivity].
  - unfold stoppoll_handler.
    destruct (swi_in_last_min st); [exact H |].
    destruct (polling_stick st); [| exact H].
    destruct (RemoveTickerEvent env); exact H.
  - intros Hp. unfold pollstick_handler. rewrite (H Hp). reflexivity.
  - intros st' D. unfold doread_handler in D.
    cbn [polling_stick set_callback_pending] in D.
    destruct (polling_stick st).
    + destruct (cycles env) as [| c cs]; [discriminate D |].
      destruct (read_joystick _ c _) as [[[m lost] s] |] eqn:R;
        [| discriminate D].
      destruct (read_joystick_frame _ _ _ _ _ _ R) as [F1 F2].
      injection D as <-.
      assert (P : callback_pending s = false).
      { change (callback_pending s)
          with (callback_pending (set_arrays s (arrays st))).
        rewrite F2. reflexivity. }
      split; [exact P | split; [reflexivity | split]].
      * intros v j Hx Hy.
        change (rd (set_callback_free s true) v j) with (rd s v j).
        rewrite F1 by assumption. reflexivity.
      * discriminate.
    + injection D as <-. repeat split.
  - intros Hp. unfold doread_handler.
    cbn [polling_stick set_callback_pending]. rewrite Hp.
    eexists. reflexivity.
Qed.

Lemma callback_single_slot_witness :
  pollstick_handler quiet
    (pollstick_handler quiet documented_state)
  = pollstick_handler quiet documented_state.
Proof.
  assert (H : single_slot (pollstick_handler quiet documented_state))
    by (intros _; vm_compute; reflexivity).
  exact (proj1 (proj2 (proj2 (callback_single_slot quiet _ H))) eq_refl).
Defined.

(** ** What the SWIs leave alone *)

Lemma widen_scalars (o : av_out) (st : state) (f : avar -> arr) :
  set_arrays (for_sticks (widen_end_deadz o) st) f = set_arrays st f.
Proof.
  unfold for_sticks, stick_loop. cbn [fold_left]. unfold widen_end_deadz.
  repeat match goal with
         | |- context [if ?c then _ else _] => destruct c
         end; reflexivity.
Qed.

Lemma configuration_scalars (st st' : state) :
  (forall f, set_arrays st' f = set_arrays st f) ->
  configuration st' = configuration st.
Proof. intros H. unfold configuration. rewrite H. reflexivity. Qed.

Lemma configuration_set_calib_status (st : state) (c : Z) :
  configuration (set_calib_status st c) = configuration st.
Proof. reflexivity. Qed.

Lemma polling_stick_set_calib_status (st : state) (c : Z) :
  polling_stick (set_calib_status st c) = polling_stick st.
Proof. reflexivity. Qed.

Lemma configuration_calibrate_corner (corner : Z) (xa ya : avar) (bias : Z)
    (env : environment) (st st' : state) :
  calibrate_corner corner xa ya bias env st = Some st' ->
  configuration st' = configuration st
  /\ polling_stick st' = polling_stick st.
Proof.
  unfold calibrate_corner. cbn [calib_status set_calib_status].
  assert (P : forall s s' : state,
            (forall f, set_arrays s' f = set_arrays s f) ->
            polling_stick s' = polling_stick s).
  { intros s s' H. specialize (H (arrays s)).
    change (polling_stick s')
      with (polling_stick (set_arrays s' (arrays s))).
    rewrite H. reflexivity. }
  destruct (_ =? _).
  - destruct (get_av_stick_pos _ _ _ _ _) as [[[o s] cs] |] eqn:G;
      [| discriminate].
    destruct (get_av_stick_pos_frame _ _ _ _ _ _ _ _ G) as [_ F].
    intros E. injection E as <-.
    rewrite configuration_set_calib_status, polling_stick_set_calib_status.
    split.
    + transitivity (configuration
                      (set_calib_status st (Z.lor (calib_status st) corner)));
        [| reflexivity].
      apply configuration_scalars. intros f.
      rewrite recalc_coefficients_scalars, widen_scalars. exact (F f).
    + transitivity (polling_stick
                      (set_calib_status st (Z.lor (calib_status st) corner)));
        [| reflexivity].
      apply P. intros f.
      rewrite recalc_coefficients_scalars, widen_scalars. exact (F f).
  - destruct (get_av_stick_pos _ _ _ _ _) as [[[o s] cs] |] eqn:G;
      [| discriminate].
    destruct (get_av_stick_pos_frame _ _ _ _ _ _ _ _ G) as [_ F].
    intros E. injection E as <-.
    split.
    + transitivity (configuration
                      (set_calib_status st (Z.lor (calib_status st) corner)));
        [| reflexivity].
      apply configuration_scalars. exact F.
    + transitivity (polling_stick
                      (set_calib_status st (Z.lor (calib_status st) corner)));
        [| reflexivity].
      apply P. exact F.
Qed.

(** X12: no SWI changes the configuration.  Whatever the SWI number and
    its outcome, [axes_mask], the two callback flags, the timeout, the
    tolerance, the three switches and the polling frequency are what they
    were; and a calibration SWI never starts the polling: if the polling
    was off, or the SWI stopped it, it is off on exit. *)
Theorem swihandler_frame (swi_no : Z) (r : regs) (env : environment)
    (st : state) (e : option oserror) (r' : regs) (st' : state) :
  MicoJoy_swihandler swi_no r env st = Some (e, r', st') ->
  configuration st' = configuration st
  /\ (swi_no <> Joystick_Read ->
      polling_stick st' = polling_stick (cease_polling swi_no env st)
      /\ (polling_stick st = false -> polling_stick st' = false)).
Proof.
  unfold MicoJoy_swihandler.
  assert (C : configuration (cease_polling swi_no env st) = configuration st
              /\ (polling_stick st = false ->
                  polling_stick (cease_polling swi_no env st) = false)).
  { unfold cease_polling. destruct (_ && _); [| split; auto].
    destruct (RemoveTickerEvent env); split; auto. }
  destruct C as [C1 C2].
  assert (K : forall corner xa ya bias s,
            calibrate_corner corner xa ya bias env
              (cease_polling swi_no env st) = Some s ->
            configuration s = configuration st
            /\ (swi_no <> Joystick_Read ->
                polling_stick s
                = polling_stick (cease_polling swi_no env st)
                /\ (polling_stick st = false -> polling_stick s = false))).
  { intros corner xa ya bias s H.
    destruct (configuration_calibrate_corner _ _ _ _ _ _ _ H) as [K1 K2].
    split; [rewrite K1; exact C1 |].
    intros _. split; [exact K2 |]. intros Hp. rewrite K2. apply C2, Hp. }
  destruct (Z.eqb_spec swi_no Joystick_Read) as [-> | Hr].
  - intros E. injection E as E. apply (f_equal snd) in E.
    cbn [snd] in E. subst st'. split; [| congruence].
    change (cease_polling Joystick_Read env st) with st.
    unfold swi_Joystick_Read.
    destruct (negb (calib_status st =? CALIB_NONE)); [reflexivity |].
    cbn [polling_stick set_swi_in_last_min].
    destruct (polling_stick st); cbn [negb snd]; [reflexivity |].
    destruct (CallEvery env); cbn [snd]; [reflexivity |].
    unfold configuration. rewrite reseed_scalars. reflexivity.
  - destruct (swi_no =? Joystick_CalibrateTopRight).
    + destruct (calibrate_corner _ _ _ _ _ _) as [s |] eqn:H;
        [| discriminate].
      intros E. injection E as _ _ <-. exact (K _ _ _ _ _ H).
    + destruct (swi_no =? Joystick_CalibrateBottomLeft).
      * destruct (calibrate_corner _ _ _ _ _ _) as [s |] eqn:H;
          [| discriminate].
        intros E. injection E as _ _ <-. exact (K _ _ _ _ _ H).
      * intros E. injection E as _ _ <-. split; [exact C1 |].
        intros _. split; [reflexivity | exact C2].
Qed.

Lemma swihandler_frame_witness :
  exists st',
    MicoJoy_swihandler Joystick_CalibrateTopRight (mkRegs 0 0) top_right
      documented_state
    = Some (None, mkRegs 0 0, st')
    /\ configuration st' = configuration documented_state
    /\ polling_stick st' = false.
Proof.
  destruct (MicoJoy_swihandler Joystick_CalibrateTopRight (mkRegs 0 0)
              top_right documented_state) as [[[[e |] r'] st'] |] eqn:E.
  - exfalso. vm_compute in E. discriminate E.
  - exists st'.
    destruct (swihandler_frame _ _ _ _ _ _ _ E) as [C P].
    destruct (P ltac:(discriminate)) as [P1 _].
    assert (R : r' = mkRegs 0 0).
    { assert (E' := E). vm_compute in E'. injection E' as <- _. reflexivity. }
    rewrite R. split; [reflexivity | split; [exact C |]].
    rewrite P1. vm_compute. reflexivity.
  - exfalso. vm_compute in E. discriminate E.
Defined.

(** ** The usage monitor *)

(** X13: the usage monitor stops the polling after two of its ticks
    without a Joystick_Read between them, when OS_RemoveTickerEvent
    succeeds, and not earlier than the tick after the last read: a
    Joystick_Read that passes the calibration gate sets the flag, even when
    it fails to start the polling, and the tick that follows clears the
    flag and does nothing else. *)
Theorem usage_monitor (env1 env2 : environment) (st : state) :
  (RemoveTickerEvent env1 = None -> RemoveTickerEvent env2 = None ->
   polling_stick (stoppoll_handler env2 (stoppoll_handler env1 st)) = false)
  /\ (forall r env e r' st1,
        calib_status st = CALIB_NONE ->
        MicoJoy_swihandler Joystick_Read r env st = Some (e, r', st1) ->
        stoppoll_handler env1 st1 = set_swi_in_last_min st1 false).
Proof.
  split.
  - intros H1 H2. unfold stoppoll_handler. rewrite H1, H2.
    destruct (swi_in_last_min st) eqn:Es, (polling_stick st) eqn:Ep;
      cbn [swi_in_last_min polling_stick set_swi_in_last_min
             set_polling_stick];
      rewrite ?Es, ?Ep; cbn [polling_stick set_swi_in_last_min
                               set_polling_stick]; try reflexivity;
      exact Ep.
  - intros r env e r' st1 Hc H. rewrite swihandler_Read in H.
    injection H as H. apply (f_equal snd) in H. cbn [snd] in H. subst st1.
    assert (F : swi_in_last_min (snd (swi_Joystick_Read r env st)) = true).
    { unfold swi_Joystick_Read. rewrite Hc. cbn [Z.eqb CALIB_NONE negb].
      cbn [polling_stick set_swi_in_last_min].
      destruct (polling_stick st); cbn [negb snd]; [reflexivity |].
      destruct (CallEvery env); cbn [snd]; [reflexivity |].
      change (swi_in_last_min (for_sticks reseed_stick ?s))
        with (swi_in_last_min (set_arrays (for_sticks reseed_stick s)
                                 (arrays st))).
      rewrite reseed_scalars. reflexivity. }
    unfold stoppoll_handler. rewrite F. reflexivity.
Qed.

Lemma usage_monitor_witness :
  polling_stick (stoppoll_handler quiet (stoppoll_handler quiet
                                           documented_state)) = false
  /\ stoppoll_handler quiet (set_swi_in_last_min documented_state true)
     = set_swi_in_last_min (set_swi_in_last_min documented_state true) false.
Proof.
  split.
  - exact (proj1 (usage_monitor quiet quiet documented_state)
             eq_refl eq_refl).
  - assert (E : MicoJoy_swihandler Joystick_Read (mkRegs 2 7) quiet
                  documented_state
                = Some (None, mkRegs 0 7,
                        set_swi_in_last_min documented_state true))
      by (vm_compute; reflexivity).
    exact (proj2 (usage_monitor quiet quiet documented_state)
             _ _ _ _ _ eq_refl E).
Defined.

(** ** MicoJoy_finalise *)

(** X14: when [MicoJoy_finalise] returns no error, the polling is off, no
    callback is pending, and the removal of the usage monitor succeeded.
    Whatever it returns, it changes nothing but those two flags, and it
    only ever clears them. *)
Theorem finalise_flags (remove_pollstick remove_callback
    remove_stoppoll : option Z) (st : state) :
  let e := fst (MicoJoy_finalise remove_pollstick remove_callback
                  remove_stoppoll st) in
  let st' := snd (MicoJoy_finalise remove_pollstick remove_callback
                    remove_stoppoll st) in
  (e = None ->
   polling_stick st' = false /\ callback_pending st' = false
   /\ remove_stoppoll = None)
  /\ set_callback_pending (set_polling_stick st' false) false
     = set_callback_pending (set_polling_stick st false) false
  /\ (polling_stick st' = true -> polling_stick st = true)
  /\ (callback_pending st' = true -> callback_pending st = true).
Proof.
  unfold MicoJoy_finalise.
  destruct (polling_stick st) eqn:Ep, (callback_pending st) eqn:Ec,
    remove_pollstick, remove_callback, remove_stoppoll;
    cbn [fst snd polling_stick callback_pending set_polling_stick
           set_callback_pending];
    rewrite ?Ep, ?Ec;
    cbn [fst snd polling_stick callback_pending set_polling_stick
           set_callback_pending];
    rewrite ?Ep, ?Ec;
    repeat split; try discriminate; try assumption; try reflexivity.
Qed.

(** ** The clock of the timing loop *)

Lemma timer_after_cases (start elapsed : Z) :
  0 <= start < 20000 -> 0 <= elapsed < 20000 ->
  timer_after start elapsed
  = if elapsed <=? start then start - elapsed else start - elapsed + 20000.
Proof.
  intros Hs He. unfold timer_after.
  destruct (Z.leb_spec elapsed start).
  - apply Z.mod_small. lia.
  - symmetry. apply (Z.mod_unique _ _ (-1)); lia.
Qed.

Lemma clock_pass_core (s : sample) (start elapsed elapsed' : Z)
    (start_time prev_time : Z) :
  0 <= start < 20000 -> 0 <= elapsed <= elapsed' -> elapsed' < 20000 ->
  clock_at start elapsed start_time prev_time ->
  ioc_timer_0 (timer_low s) (timer_high s) = timer_after start elapsed' ->
  let '(start_time', prev_time', wait, interval) :=
    clock_pass s start_time prev_time in
  clock_at start elapsed' start_time' prev_time'
  /\ wait = elapsed' /\ interval = elapsed' - elapsed.
Proof.
  intros Hs He He' [Hst Hpt] Ht. pose proof modulus_eq as M.
  unfold clock_pass. rewrite Ht. unfold clock_at.
  rewrite timer_after_cases in Hpt by lia.
  rewrite timer_after_cases by lia.
  subst start_time prev_time.
  destruct (Z.leb_spec elapsed start), (Z.leb_spec elapsed' start);
    try lia;
    repeat match goal with
           | |- context [?a >? ?b] => destruct (Z.gtb_spec a b); try lia
           end;
    unfold uadd; rewrite ?(u32_id (start + 20000)) by lia;
    rewrite ?(s32_id (_ + 20000)) by lia;
    rewrite ?(s32_id (start - elapsed' + 20000)) by lia;
    rewrite ?(s32_id (start - elapsed')) by lia;
    rewrite ?usub_exact by (rewrite ?u32_id; lia);
    rewrite ?u32_id by lia;
    rewrite ?s32_id by lia;
    repeat split; lia.
Qed.

(** X15: the timing loop keeps the time right across the wrap of timer 0.
    The timer counts down from 19999 and starts again; as long as a cycle
    lasts less than one period of 20000 ticks, each pass finds in [wait]
    the ticks since the strobe and in [interval] the ticks since the pass
    before, whether the timer has wrapped before the pass, between the two
    passes, or not at all. *)
Theorem clock_pass_elapsed (s : sample) (start elapsed elapsed' : Z)
    (start_time prev_time : Z) :
  0 <= start < 20000 -> 0 <= elapsed <= elapsed' -> elapsed' < 20000 ->
  clock_at start elapsed start_time prev_time ->
  ioc_timer_0 (timer_low s) (timer_high s) = timer_after start elapsed' ->
  let '(start_time', prev_time', wait, interval) :=
    clock_pass s start_time prev_time in
  clock_at start elapsed' start_time' prev_time'
  /\ wait = elapsed' /\ interval = elapsed' - elapsed.
Proof. apply clock_pass_core. Qed.

Lemma clock_pass_elapsed_witness :
  let '(start_time', prev_time', wait, interval) :=
    clock_pass (mkSample 255 0 78) 150 130 in
  clock_at 150 182 start_time' prev_time'
  /\ wait = 182 /\ interval = 182 - 20.
Proof.
  apply (clock_pass_elapsed (mkSample 255 0 78) 150 20 182 150 130);
    try lia; [split; reflexivity | reflexivity].
Defined.

Lemma ioc_timer_0_bytes (t : Z) :
  0 <= t < 20000 -> ioc_timer_0 (t mod 256) (t / 256) = t.
Proof.
  intros Ht. unfold ioc_timer_0. rewrite Z.shiftl_mul_pow2 by lia.
  change (2 ^ 8) with 256.
  pose proof (Z.div_mod t 256 ltac:(lia)) as D.
  rewrite u32_id; [lia |]. rewrite modulus_eq. lia.
Qed.

Lemma timer_after_range (start elapsed : Z) :
  0 <= timer_after start elapsed < 20000.
Proof. unfold timer_after. apply Z.mod_pos_bound. lia. Qed.

Lemma clock_pass_sample (st : state) (start port e last : Z)
    (start_time prev_time : Z) :
  0 <= start < 20000 -> 0 <= last <= e -> e < 20000 ->
  clock_at start last start_time prev_time ->
  let '(start_time', prev_time', wait, interval) :=
    clock_pass (pass_sample start (port, e)) start_time prev_time in
  clock_at start e start_time' prev_time'
  /\ wait = e /\ interval = e - last.
Proof.
  intros Hs He He' Hc.
  apply (clock_pass_core _ start last e); try assumption.
  unfold pass_sample. cbn [timer_low timer_high snd].
  apply ioc_timer_0_bytes, timer_after_range.
Qed.

Lemma axis_outcome_clock (st : state) (bit start : Z) :
  0 <= start < 20000 ->
  forall ps last start_time prev_time,
  0 <= last < 20000 -> in_order last ps = true ->
  clock_at start last start_time prev_time ->
  axis_outcome st bit (List.map (pass_sample start) ps) start_time
    prev_time last
  = axis_elapsed st bit ps last.
Proof.
  intros Hs. pose proof modulus_eq as M.
  induction ps as [| [port e] ps IH];
    intros last start_time prev_time Hl Ho Hc;
    cbn [List.map axis_outcome axis_elapsed].
  - rewrite u32_id by lia. reflexivity.
  - cbn [in_order snd] in Ho.
    apply andb_true_iff in Ho. destruct Ho as [Ho Ho3].
    apply andb_true_iff in Ho. destruct Ho as [Ho1 Ho2].
    apply Z.leb_le in Ho1. apply Z.ltb_lt in Ho2.
    rewrite u32_id by lia.
    destruct (last <? max_wait st); [| reflexivity].
    pose proof (clock_pass_sample st start port e last start_time prev_time)
      as P.
    destruct (clock_pass (pass_sample start (port, e)) start_time prev_time)
      as [[[start' prev'] wait'] interval].
    destruct P as (C' & -> & ->); try assumption; try lia.
    cbn [port_byte pass_sample fst snd].
    rewrite u32_id by lia.
    destruct (bit_set (unot port) bit); [reflexivity |].
    apply IH; [lia | exact Ho3 | exact C'].
Qed.

(** X16: the timing of an axis in ticks since the strobe.  For a cycle
    shorter than one period of timer 0, whatever the timer showed at the
    strobe, a requested axis is followed pass by pass until its status bit
    shows it finished or the pass before was at or past the timeout; the
    timing committed to the cache is the time since the strobe of the pass
    that saw it finished, accepted when that pass came within the
    tolerance of the pass before. *)
Theorem read_joystick_elapsed (st : state) (axes start : Z)
    (ps : list (Z * Z)) (ax : axis) (m lost : Z) (st' : state) :
  0 <= start < 20000 -> in_order 0 ps = true ->
  bit_set axes (axis_bit ax) = true ->
  read_joystick axes (timed_cycle start ps) st = Some (m, lost, st') ->
  let n := axis_stick ax in
  exists o,
    axis_elapsed st (axis_bit ax) ps 0 = Some o
    /\ match o with
       | Completed elapsed =>
           bit_set m (axis_bit ax) = false
           /\ rd st' (axis_cache ax) n
              = committed (smooth st) (rd st (axis_cache ax) n) elapsed
                  (rd st (axis_width ax) n)
       | Discarded =>
           bit_set m (axis_bit ax) = false
           /\ rd st' (axis_cache ax) n = rd st (axis_cache ax) n
       | TimedOut =>
           bit_set m (axis_bit ax) = true
           /\ rd st' (axis_cache ax) n = rd st (axis_cache ax) n
       end.
Proof.
  intros Hs Ho Hb H n. subst n. unfold read_joystick in H.
  destruct (timing_loop st (samples (timed_cycle start ps))
              (acq_start axes (timed_cycle start ps))) as [a |] eqn:E;
    [| discriminate H].
  injection H as <- _ <-. rewrite commit_axis_of.
  assert (N : axis_new ax (acq_start axes (timed_cycle start ps)) = UINT_MAX)
    by (destruct ax; reflexivity).
  assert (U : forall x w, committed (smooth st) x UINT_MAX w = x)
    by reflexivity.
  destruct (timing_loop_pending st ax _ _ _ E Hb) as (o & Eo & Hp).
  cbn [acq_start timed_cycle samples start_low start_high start_time
         prev_time wait] in Eo.
  rewrite ioc_timer_0_bytes in Eo by exact Hs.
  rewrite s32_id in Eo by lia.
  rewrite axis_outcome_clock in Eo; try assumption; try lia.
  - exists o. split; [exact Eo |].
    destruct o; destruct Hp as [Hn Hq]; (split; [exact Hq |]).
    + rewrite Hn. reflexivity.
    + rewrite Hn, N. apply U.
    + rewrite Hn, N. apply U.
  - split.
    + destruct (Z.leb_spec 0 start); [reflexivity | lia].
    + unfold timer_after. rewrite Z.sub_0_r. symmetry.
      apply Z.mod_small. lia.
Qed.

Lemma read_joystick_elapsed_witness :
  exists m lost st',
    read_joystick 15
      (timed_cycle 150 [(255, 20); (254, 30); (252, 182); (252, 190);
                        (240, 200)])
      documented_state
    = Some (m, lost, st')
    /\ bit_set m (axis_bit Ay) = false
    /\ rd st' y_axis 0 = rd documented_state y_axis 0
    /\ bit_set m (axis_bit By) = false
    /\ rd st' y_axis 1 = 200.
Proof.
  destruct (read_joystick 15
              (timed_cycle 150 [(255, 20); (254, 30); (252, 182); (252, 190);
                                (240, 200)])
              documented_state) as [[[m lost] st'] |] eqn:E.
  - exists m, lost, st'. split; [reflexivity |].
    destruct (read_joystick_elapsed documented_state 15 150
                [(255, 20); (254, 30); (252, 182); (252, 190); (240, 200)]
                Ay m lost st' ltac:(lia) eq_refl eq_refl E) as (o & Eo & Ho).
    vm_compute in Eo. injection Eo as <-.
    destruct (read_joystick_elapsed documented_state 15 150
                [(255, 20); (254, 30); (252, 182); (252, 190); (240, 200)]
                By m lost st' ltac:(lia) eq_refl eq_refl E)
      as (o' & Eo' & Ho').
    vm_compute in Eo'. injection Eo' as <-.
    destruct Ho as [H1 H2]. destruct Ho' as [H3 H4].
    split; [exact H1 | split; [exact H2 | split; [exact H3 |]]].
    change (rd st' y_axis 1) with (rd st' (axis_cache By) (axis_stick By)).
    rewrite H4. vm_compute. reflexivity.
  - exfalso. vm_compute in E. discriminate E.
Defined.

(** ** How many cycles the averaging takes *)







(** ** reinit_joysticks returns *)




(** ** The distance that get_av_stick_pos reports *)

(** X19: "Deadzone should cover all recorded values".  With the average
    between the smallest and the largest recorded timing, the distance
    reported without bias is the larger of the distances to the two, so
    that every recorded timing is within that distance of the average; a
    bias to the maximum gives the distance to the largest timing, and a
    bias to the minimum alone the distance to the smallest. *)
Theorem jit_distance_covers (average jit_min jit_max : Z)
    (bias_min bias_max : bool) :
  0 <= jit_min <= average -> average <= jit_max < 2 ^ 31 ->
  let d := jit_distance average jit_min jit_max bias_min bias_max in
  (bias_min = false -> bias_max = false ->
   d = Z.max (average - jit_min) (jit_max - average)
   /\ average - d <= jit_min /\ jit_max <= average + d)
  /\ (bias_max = true -> d = jit_max - average)
  /\ (bias_min = true -> bias_max = false -> d = average - jit_min).
Proof.
  intros Hlo Hhi d. subst d. pose proof modulus_eq as M.
  unfold jit_distance.
  rewrite !s32_usub by lia. rewrite !u32_id by lia.
  destruct (Z.gtb_spec (average - jit_min) (jit_max - average));
    destruct bias_min, bias_max; cbn [orb andb negb];
    repeat split; intros; try discriminate; lia.
Qed.

Lemma jit_distance_covers_witness :
  jit_distance 700 690 725 false false = 25
  /\ jit_distance 700 690 725 true false = 10.
Proof.
  pose proof (jit_distance_covers 700 690 725 false false
                ltac:(lia) ltac:(lia)) as (A & _ & _).
  pose proof (jit_distance_covers 700 690 725 true false
                ltac:(lia) ltac:(lia)) as (_ & _ & C).
  destruct (A eq_refl eq_refl) as (A1 & _).
  split; [rewrite A1; reflexivity | rewrite (C eq_refl eq_refl); reflexivity].
Defined.

(** ** The arguments of the commands *)

Lemma byte_bit (n c k : Z) :
  0 <= k -> 0 <= c ->
  Z.testbit (Z.shiftl (Z.land (Z.shiftr n c) 255) c) k
  = Z.testbit n k && ((c <=? k) && (k <? c + 8)).
Proof.
  intros Hk Hc. rewrite Z.shiftl_spec by exact Hk.
  destruct (Z.leb_spec c k) as [H | H].
  - rewrite Z.land_spec, Z.shiftr_spec by lia.
    replace (k - c + c) with k by lia.
    change 255 with (Z.ones 8). rewrite Z.testbit_ones by lia.
    destruct (Z.leb_spec 0 (k - c)); [| lia].
    destruct (Z.ltb_spec (k - c) 8), (Z.ltb_spec k (c + 8)); try lia;
      reflexivity.
  - rewrite Z.testbit_neg_r by lia. cbn [andb]. rewrite andb_false_r.
    reflexivity.
Qed.

Lemma eval_expr_block (n : Z) : eval_expr (block n) = s32 n.
Proof.
  unfold eval_expr, block. cbn [nth Z.eqb].
  rewrite <- (s32_u32 n). f_equal.
  apply Z.bits_inj'. intros k Hk.
  replace (Z.land n 255) with (Z.shiftl (Z.land (Z.shiftr n 0) 255) 0)
    by (rewrite Z.shiftl_0_r, Z.shiftr_0_r; reflexivity).
  rewrite !Z.lor_spec, !byte_bit by lia.
  unfold u32, modulus.
  destruct (Z.ltb_spec k 32) as [H | H].
  - rewrite Z.mod_pow2_bits_low by lia.
    destruct (Z.testbit n k); cbn [andb]; [| reflexivity].
    destruct (Z.leb_spec 0 k), (Z.ltb_spec k (0 + 8)),
      (Z.leb_spec 8 k), (Z.ltb_spec k (8 + 8)),
      (Z.leb_spec 16 k), (Z.ltb_spec k (16 + 8)),
      (Z.leb_spec 24 k), (Z.ltb_spec k (24 + 8)); try lia; reflexivity.
  - rewrite Z.mod_pow2_bits_high by lia.
    destruct (Z.testbit n k); cbn [andb]; [| reflexivity].
    destruct (Z.leb_spec 0 k), (Z.ltb_spec k (0 + 8)),
      (Z.leb_spec 8 k), (Z.ltb_spec k (8 + 8)),
      (Z.leb_spec 16 k), (Z.ltb_spec k (16 + 8)),
      (Z.leb_spec 24 k), (Z.ltb_spec k (24 + 8)); try lia; reflexivity.
Qed.

(** X20: an evaluated expression comes back as the number that
    OS_ReadArgs evaluated: [eval_expr] puts together the four bytes of the
    block, so that a number of the [int] range is returned as it is, and
    any other one reduced to that range. *)
Theorem eval_expr_round_trip (n : Z) :
  eval_expr (block n) = s32 n
  /\ (- 2 ^ 31 <= n < 2 ^ 31 -> eval_expr (block n) = n)
  /\ (forall b, b <> 0 -> eval_expr (b :: List.tl (block n)) = 0).
Proof.
  split; [apply eval_expr_block | split].
  - intros H. rewrite eval_expr_block. apply s32_id, H.
  - intros b Hb. unfold eval_expr. cbn [nth].
    destruct (Z.eqb_spec b 0); [contradiction | reflexivity].
Qed.

Lemma eval_expr_round_trip_witness :
  eval_expr (block (-48)) = -48.
Proof.
  apply (eval_expr_round_trip (-48)). lia.
Defined.

Lemma calib_field_rd_same (arg : option (list Z)) (change_x : bool)
    (xv yv : avar) (n : nat) (st : state) (v : avar) :
  (n < 2)%nat ->
  rd (calib_field arg change_x xv yv n st) v n =
  match arg with
  | Some buffer =>
      if avar_beq (if change_x then xv else yv) v
      then u32 (eval_expr buffer) else rd st v n
  | None => rd st v n
  end.
Proof.
  intros Hn. unfold calib_field. destruct arg as [buffer |]; [| reflexivity].
  destruct change_x.
  - destruct (avar_beq xv v) eqn:E.
    + apply internal_avar_dec_bl in E. subst v. apply rd_wr_same, Hn.
    + apply rd_wr_other_array. intros ->.
      rewrite (internal_avar_dec_lb _ _ eq_refl) in E. discriminate E.
  - destruct (avar_beq yv v) eqn:E.
    + apply internal_avar_dec_bl in E. subst v. apply rd_wr_same, Hn.
    + apply rd_wr_other_array. intros ->.
      rewrite (internal_avar_dec_lb _ _ eq_refl) in E. discriminate E.
Qed.

Lemma calib_change_x (is_x : bool) (xory : string) :
  names_axis is_x xory ->
  (if (xory =? "x")%string || (xory =? "X")%string then Some true
   else if (xory =? "y")%string || (xory =? "Y")%string
        then Some false else None) = Some is_x.
Proof.
  unfold names_axis. destruct is_x; intros [-> | ->]; reflexivity.
Qed.

(** X21: what *JoystickCalib sets.  For stick [n] and the axis named,
    each of the six values is the number given for it, as an
    [unsigned int], when one is given and what it was when none is; the
    six values of the other axis, the cached timings, and every value of
    the other stick are what they were; and the derived values of stick
    [n] are brought up to date. *)
Theorem calib_sets (args : calib_args) (st : state) (n : nat)
    (is_x : bool) :
  (n < 2)%nat -> eval_expr (CALIB_SYNTAX_JOYNUM args) = Z.of_nat n ->
  names_axis is_x (CALIB_SYNTAX_XORY args) ->
  let st' := snd (cmd_JoystickCalib (inr args) st) in
  fst (cmd_JoystickCalib (inr args) st) = None
  /\ (forall field xv yv, In (field, xv, yv) calib_fields ->
        rd st' (if is_x then xv else yv) n
        = match field args with
          | Some buffer => u32 (eval_expr buffer)
          | None => rd st (if is_x then xv else yv) n
          end
        /\ rd st' (if is_x then yv else xv) n
           = rd st (if is_x then yv else xv) n)
  /\ rd st' x_axis n = rd st x_axis n /\ rd st' y_axis n = rd st y_axis n
  /\ (forall v m, m <> n -> rd st' v m = rd st v m)
  /\ coherent_stick st' n.
Proof.
  intros Hn Hj Hx st'. subst st'. unfold cmd_JoystickCalib.
  rewrite Hj, (calib_change_x is_x _ Hx).
  replace ((Z.of_nat n >? Z.of_nat NUM_STICKS - 1) || (Z.of_nat n <? 0))
    with false by (two_sticks n; reflexivity).
  cbn [fst snd]. rewrite Nat2Z.id.
  assert (Sel : forall m, (m < 2)%nat ->
            stick_selected (Z.shiftl 1 (Z.of_nat n)) m = (m =? n)%nat).
  { intros m Hm. rewrite selected_one by (try lia; exact Hm).
    rewrite Nat2Z.id. reflexivity. }
  split; [reflexivity |]. split; [| split; [| split; [| split]]].
  - intros field xv yv Hin.
    rewrite !recalc_coefficients_keeps
      by (cbn [In calib_fields] in Hin;
          repeat (destruct Hin as [Hin | Hin];
                  [injection Hin as <- <- <-; destruct is_x; reflexivity |]);
          contradiction).
    rewrite !calib_field_rd_same by exact Hn.
    cbn [In calib_fields] in Hin.
    repeat (destruct Hin as [Hin | Hin];
            [injection Hin as <- <- <-;
             destruct is_x, (CALIB_SYNTAX_MIN args), (CALIB_SYNTAX_CTR args),
               (CALIB_SYNTAX_MAX args), (CALIB_SYNTAX_CTRZONE args),
               (CALIB_SYNTAX_ENDZONE args), (CALIB_SYNTAX_SMOOTH args);
             cbn [avar_beq]; split; reflexivity |]).
    contradiction.
  - rewrite recalc_coefficients_keeps by reflexivity.
    rewrite !calib_field_rd_same by exact Hn.
    destruct is_x, (CALIB_SYNTAX_MIN args), (CALIB_SYNTAX_CTR args),
      (CALIB_SYNTAX_MAX args), (CALIB_SYNTAX_CTRZONE args),
      (CALIB_SYNTAX_ENDZONE args), (CALIB_SYNTAX_SMOOTH args);
      reflexivity.
  - rewrite recalc_coefficients_keeps by reflexivity.
    rewrite !calib_field_rd_same by exact Hn.
    destruct is_x, (CALIB_SYNTAX_MIN args), (CALIB_SYNTAX_CTR args),
      (CALIB_SYNTAX_MAX args), (CALIB_SYNTAX_CTRZONE args),
      (CALIB_SYNTAX_ENDZONE args), (CALIB_SYNTAX_SMOOTH args);
      reflexivity.
  - intros v m Hm. destruct (Nat.lt_ge_cases m 2) as [Hlt | Hge].
    + rewrite recalc_coefficients_rd, Sel by exact Hlt.
      destruct (Nat.eqb_spec m n); [contradiction |].
      rewrite !calib_field_rd by exact Hm. reflexivity.
    + destruct m as [| [| m]]; [lia | lia | reflexivity].
  - apply recalc_coherent_selected; [exact Hn |].
    rewrite Sel by exact Hn. apply Nat.eqb_refl.
Qed.

Lemma calib_sets_witness :
  rd (snd (MicoJoy_cmdhandler (calib_command 1 "y" 5 847 1694 9 3 7) quiet
             initial_state)) y_ctr 1 = 847
  /\ rd (snd (MicoJoy_cmdhandler (calib_command 1 "y" 5 847 1694 9 3 7) quiet
                initial_state)) x_ctr 1 = 0.
Proof.
  pose proof (calib_sets
                (mkCalibArgs (block 1) "y" (Some (block 5))
                   (Some (block 847)) (Some (block 1694)) (Some (block 9))
                   (Some (block 3)) (Some (block 7)))
                initial_state 1 false (Nat.lt_succ_diag_r 1) eq_refl
                (or_introl eq_refl)) as (_ & F & _).
  destruct (F CALIB_SYNTAX_CTR x_ctr y_ctr ltac:(right; left; reflexivity))
    as [F1 F2].
  split; [exact F1 | exact F2].
Defined.



(** X23: *JoystickConfig -poll.  The delay stored is one less than the
    number given and never below 1.  A number that gives the delay already
    stored changes nothing and calls nothing; otherwise the ticker is
    restarted only when the polling is on, the command never turns the
    polling on, and when it fails the stored delay is the old one. *)
Theorem poll_command_delay (n : Z) (env : environment) (st : state) :
  - 2 ^ 31 < n < 2 ^ 31 ->
  let e := fst (MicoJoy_cmdhandler (poll_command n) env st) in
  let st' := snd (MicoJoy_cmdhandler (poll_command n) env st) in
  (e = None -> poll_freq st' = Z.max 1 (n - 1))
  /\ (e <> None -> poll_freq st' = poll_freq st /\ polling_stick st = true)
  /\ (poll_freq st = Z.max 1 (n - 1) -> e = None /\ st' = st)
  /\ (polling_stick st = false ->
      e = None /\ st' = set_poll_freq st (Z.max 1 (n - 1))
      \/ e = None /\ st' = st)
  /\ (polling_stick st' = true -> polling_stick st = true)
  /\ set_poll_freq (set_polling_stick st' false) 0
     = set_poll_freq (set_polling_stick st false) 0.
Proof.
  intros Hn e st'. subst e st'. pose proof modulus_eq as M.
  cbn [MicoJoy_cmdhandler poll_command]. unfold cmd_JoystickConfig.
  cbn [Z.gtb Z.compare CONFIG_SYNTAX_SMOOTH CONFIG_SYNTAX_NOSMOOTH
         CONFIG_SYNTAX_CTRZONE CONFIG_SYNTAX_NOCTRZONE CONFIG_SYNTAX_ENDZONE
         CONFIG_SYNTAX_NOENDZONE CONFIG_SYNTAX_TOLERANCE
         CONFIG_SYNTAX_TIMEOUT CONFIG_SYNTAX_POLL andb orb].
  unfold config_switches.
  cbn [CONFIG_SYNTAX_SMOOTH CONFIG_SYNTAX_NOSMOOTH
         CONFIG_SYNTAX_CTRZONE CONFIG_SYNTAX_NOCTRZONE CONFIG_SYNTAX_ENDZONE
         CONFIG_SYNTAX_NOENDZONE].
  unfold config_poll. rewrite eval_expr_block.
  rewrite (s32_id n) by lia. rewrite (s32_id (n - 1)) by lia.
  replace (if n - 1 <=? 0 then 1 else n - 1) with (Z.max 1 (n - 1))
    by (destruct (Z.leb_spec (n - 1) 0); lia).
  rewrite (u32_id (Z.max 1 (n - 1))) by lia.
  destruct (Z.eqb_spec (Z.max 1 (n - 1)) (poll_freq st)) as [Eq | Ne];
    cbn [negb].
  - cbn [fst snd]. repeat split; auto; congruence.
  - destruct (polling_stick st) eqn:Ep.
    + destruct (RemoveTickerEvent env) as [x |];
        [| destruct (CallEvery env) as [y |]];
        cbn [fst snd poll_freq polling_stick set_poll_freq
               set_polling_stick];
        rewrite ?Ep; repeat split; try congruence;
        destruct st; reflexivity.
    + cbn [fst snd poll_freq polling_stick set_poll_freq
             set_polling_stick].
      rewrite ?Ep. repeat split; try congruence; auto.
Qed.

Lemma poll_command_delay_witness :
  poll_freq (snd (MicoJoy_cmdhandler (poll_command 0) quiet documented_state))
  = 1
  /\ snd (MicoJoy_cmdhandler (poll_command 7) quiet documented_state)
     = documented_state.
Proof.
  split.
  - apply (poll_command_delay 0 quiet documented_state); [lia | reflexivity].
  - apply (poll_command_delay 7 quiet documented_state); [lia | reflexivity].
Defined.

(** ** The two resolutions of Joystick_Read *)

Lemma scaled_22 (s d : Z) :
  scaled s d (SCALER_FRAC_SHIFT + 8) = scaled s d SCALER_FRAC_SHIFT / 256.
Proof.
  unfold scaled, SCALER_FRAC_SHIFT.
  rewrite <- Z.shiftr_shiftr by lia.
  rewrite (Z.shiftr_div_pow2 _ 8) by lia. reflexivity.
Qed.

Lemma coarse_pos (q : Z) :
  0 <= q < 2 ^ 18 ->
  clamp (-127) 127 (s32 (q / 256))
  = clamp (-127) 127
      (Z.quot (clamp 0 65535 (s32 (uadd 32767 q)) - 32767) 256).
Proof.
  intros Hq. pose proof modulus_eq as M.
  assert (D : 256 * (q / 256) <= q < 256 * (q / 256) + 256).
  { pose proof (Z.div_mod q 256 ltac:(lia)) as E.
    pose proof (Z.mod_pos_bound q 256 ltac:(lia)). lia. }
  rewrite s32_uadd by lia. rewrite s32_id by lia.
  unfold clamp at 3.
  destruct (Z.ltb_spec (32767 + q) 0); [lia |].
  destruct (Z.gtb_spec (32767 + q) 65535).
  - change (Z.quot (65535 - 32767) 256) with 128.
    unfold clamp.
    destruct (Z.ltb_spec (q / 256) (-127)); [lia |].
    destruct (Z.gtb_spec (q / 256) 127); [reflexivity | lia].
  - replace (32767 + q - 32767) with q by lia.
    rewrite Z.quot_div_nonneg by lia. reflexivity.
Qed.

Lemma coarse_neg (q : Z) :
  0 <= q < 2 ^ 18 ->
  clamp (-127) 127 (s32 (uneg (q / 256)))
  = clamp (-127) 127
      (Z.quot (clamp 0 65535 (s32 (usub 32767 q)) - 32767) 256).
Proof.
  intros Hq. pose proof modulus_eq as M.
  assert (D : 256 * (q / 256) <= q < 256 * (q / 256) + 256).
  { pose proof (Z.div_mod q 256 ltac:(lia)) as E.
    pose proof (Z.mod_pos_bound q 256 ltac:(lia)). lia. }
  rewrite s32_usub by lia. rewrite s32_uneg by lia.
  unfold clamp at 3.
  destruct (Z.ltb_spec (32767 - q) 0).
  - change (Z.quot (0 - 32767) 256) with (-127).
    unfold clamp.
    destruct (Z.ltb_spec (- (q / 256)) (-127)); [reflexivity | lia].
  - destruct (Z.gtb_spec (32767 - q) 65535); [lia |].
    replace (32767 - q - 32767) with (- q) by lia.
    rewrite Z.quot_opp_l by lia.
    rewrite Z.quot_div_nonneg by lia. reflexivity.
Qed.

(** X24: the two resolutions of Joystick_Read agree.  For every store and
    stick, each 8 bit coordinate is what the 16 bit coordinate is away
    from 0x7fff, divided by 256 and rounded towards zero, and limited to
    127 either way. *)
Theorem read8_of_read16 (st : state) (i : nat) :
  read8_x st i
  = clamp (-127) 127 (Z.quot (read16_x st i - 32767) 256)
  /\ read8_y st i
     = clamp (-127) 127 (Z.quot (read16_y st i - 32767) 256).
Proof.
  unfold read8_x, read8_y, read16_x, read16_y.
  rewrite !scaled_22. split.
  - destruct (_ >? _).
    + destruct (_ <? _); [reflexivity |].
      apply coarse_pos, scaled_bound14.
    + apply coarse_neg, scaled_bound14.
  - destruct (_ >? _).
    + destruct (_ <? _); [reflexivity |].
      apply coarse_neg, scaled_bound14.
    + apply coarse_pos, scaled_bound14.
Qed.

(** ** The sticks that read_joystick reports as lost *)

Lemma pass_of_lost (tol interval joy : Z) (ax : axis) (a : acq) (k : Z) :
  Z.testbit (sticks_lost (pass_of tol interval joy ax a)) k
  = Z.testbit (sticks_lost a) k
    || (bit_set joy (axis_bit ax) && negb (interval <=? tol)
        && Z.testbit (axis_flag ax) k).
Proof.
  unfold pass_of, axis_pass, bit_set.
  destruct (negb (Z.land joy (axis_bit ax) =? 0)); cbn [sticks_lost andb].
  - destruct (interval <=? tol); cbn [negb andb].
    + rewrite orb_false_r. reflexivity.
    + apply Z.lor_spec.
  - rewrite orb_false_r. reflexivity.
Qed.

Lemma loop_pass_lost (st : state) (s : sample) (a : acq) (k : Z)
    (start' prev' wait' interval : Z) :
  clock_pass s (start_time a) (prev_time a)
  = (start', prev', wait', interval) ->
  let hit ax :=
    pending ax a && bit_set (unot (port_byte s)) (axis_bit ax)
    && negb (interval <=? tolerance st) && Z.testbit (axis_flag ax) k in
  Z.testbit (sticks_lost (loop_pass st s a)) k
  = Z.testbit (sticks_lost a) k || hit Ax || hit Ay || hit Bx || hit By.
Proof.
  intros H hit. unfold loop_pass. rewrite H.
  set (a0 := mkAcq (mask a) start' prev' wait' (new_x a) (new_y a)
               (sticks_lost a)).
  set (joy := Z.land (unot (port_byte s)) (mask a0)).
  change (Z.testbit
            (sticks_lost
               (pass_of (tolerance st) interval joy By
                  (pass_of (tolerance st) interval joy Bx
                     (pass_of (tolerance st) interval joy Ay
                        (pass_of (tolerance st) interval joy Ax a0))))) k
          = Z.testbit (sticks_lost a) k || hit Ax || hit Ay || hit Bx
            || hit By).
  rewrite !pass_of_lost.
  assert (Ej : forall ax,
            bit_set joy (axis_bit ax)
            = pending ax a && bit_set (unot (port_byte s)) (axis_bit ax)).
  { intros ax. unfold joy, pending. rewrite !bit_set_axis, Z.land_spec.
    apply andb_comm. }
  rewrite !Ej. reflexivity.
Qed.

(** One pass of the loop, seen from one axis. *)
Lemma discarded_step (st : state) (s : sample) (ss : list sample) (a : acq)
    (ax : axis) (start' prev' wait' interval : Z) :
  loop_running st a = true ->
  clock_pass s (start_time a) (prev_time a)
  = (start', prev', wait', interval) ->
  pending ax a
  && is_discarded (axis_outcome st (axis_bit ax) (s :: ss) (start_time a)
                     (prev_time a) (wait a))
  = (pending ax a && bit_set (unot (port_byte s)) (axis_bit ax)
     && negb (interval <=? tolerance st))
    || (pending ax (loop_pass st s a)
        && is_discarded
             (axis_outcome st (axis_bit ax) ss
                (start_time (loop_pass st s a))
                (prev_time (loop_pass st s a)) (wait (loop_pass st s a)))).
Proof.
  intros Hr Ec.
  destruct (loop_pass_axis st s a ax _ _ _ _ Ec) as [(C1 & C2 & C3) L].
  rewrite C1, C2, C3.
  destruct (pending ax a) eqn:Hp; cbn [andb] in *.
  - rewrite (pending_running st ax a Hp) in Hr.
    cbn [axis_outcome]. rewrite Hr, Ec.
    destruct (bit_set (unot (port_byte s)) (axis_bit ax)).
    + destruct L as [-> _]. cbn [andb]. rewrite orb_false_r.
      destruct (interval <=? tolerance st); reflexivity.
    + destruct L as [-> _]. reflexivity.
  - destruct L as [-> _]. reflexivity.
Qed.

Lemma or_shuffle (t c1 c2 c3 c4 d1 d2 d3 d4 f1 f2 f3 f4 : bool) :
  t || c1 && f1 || c2 && f2 || c3 && f3 || c4 && f4
  || d1 && f1 || d2 && f2 || d3 && f3 || d4 && f4
  = t || (c1 || d1) && f1 || (c2 || d2) && f2 || (c3 || d3) && f3
    || (c4 || d4) && f4.
Proof.
  destruct f1, f2, f3, f4; rewrite ?andb_true_r, ?andb_false_r,
    ?orb_false_r; destruct t, c1, c2, c3, c4, d1, d2, d3, d4; reflexivity.
Qed.

Lemma timing_loop_lost (st : state) (ss : list sample) (k : Z) :
  forall a a',
  timing_loop st ss a = Some a' ->
  let lost ax a :=
    pending ax a
    && is_discarded (axis_outcome st (axis_bit ax) ss (start_time a)
                       (prev_time a) (wait a))
    && Z.testbit (axis_flag ax) k in
  Z.testbit (sticks_lost a') k
  = Z.testbit (sticks_lost a) k
    || lost Ax a || lost Ay a || lost Bx a || lost By a.
Proof.
  induction ss as [| s ss IH]; intros a a' H lost; subst lost;
    cbn [timing_loop] in H.
  - destruct (loop_running st a) eqn:Hr; [discriminate H |].
    injection H as <-.
    assert (F : forall ax,
              pending ax a
              && is_discarded (axis_outcome st (axis_bit ax) [] (start_time a)
                                 (prev_time a) (wait a)) = false).
    { intros ax. destruct (pending ax a) eqn:Hp; [| reflexivity].
      rewrite (pending_running st ax a Hp) in Hr.
      cbn [axis_outcome andb]. rewrite Hr. reflexivity. }
    rewrite !F. cbn [andb]. rewrite !orb_false_r. reflexivity.
  - destruct (loop_running st a) eqn:Hr.
    + destruct (clock_pass s (start_time a) (prev_time a))
        as [[[start' prev'] wait'] interval] eqn:Ec.
      rewrite (IH _ _ H). cbv zeta.
      rewrite (loop_pass_lost st s a k _ _ _ _ Ec). cbv zeta.
      rewrite !(discarded_step st s ss a _ _ _ _ _ Hr Ec).
      apply or_shuffle.
    + injection H as <-.
      assert (F : forall ax,
                pending ax a
                && is_discarded (axis_outcome st (axis_bit ax) (s :: ss)
                                   (start_time a) (prev_time a) (wait a))
                = false).
      { intros ax. destruct (pending ax a) eqn:Hp; [| reflexivity].
        rewrite (pending_running st ax a Hp) in Hr.
        cbn [axis_outcome andb]. rewrite Hr. reflexivity. }
      rewrite !F. cbn [andb]. rewrite !orb_false_r. reflexivity.
Qed.

(** X25: what [read_joystick] reports besides the timings.  A stick is
    reported lost exactly when one of its requested axes was seen finished
    by a pass that came more than the tolerance after the pass before, so
    that its reading was discarded; no other bit of [lost] is set; and the
    mask returned holds requested axes only. *)
Theorem read_joystick_lost (axes : Z) (c : cycle) (st : state)
    (m lost : Z) (st' : state) :
  read_joystick axes c st = Some (m, lost, st') ->
  (forall n, (n < 2)%nat ->
     Z.testbit lost (Z.of_nat n)
     = discarded st axes c (stick_x n) || discarded st axes c (stick_y n))
  /\ (forall k, 2 <= k -> Z.testbit lost k = false)
  /\ (forall ax, bit_set m (axis_bit ax) = true ->
        bit_set axes (axis_bit ax) = true).
Proof.
  unfold read_joystick. intros H.
  destruct (timing_loop st (samples c) (acq_start axes c)) as [a |] eqn:T;
    [| discriminate H].
  injection H as <- <- _.
  pose proof (fun k => timing_loop_lost st (samples c) k _ _ T) as L.
  cbv zeta in L.
  cbn [acq_start start_time prev_time wait sticks_lost] in L.
  change (forall k,
            Z.testbit (sticks_lost a) k
            = Z.testbit 0 k
              || discarded st axes c Ax && Z.testbit (axis_flag Ax) k
              || discarded st axes c Ay && Z.testbit (axis_flag Ay) k
              || discarded st axes c Bx && Z.testbit (axis_flag Bx) k
              || discarded st axes c By && Z.testbit (axis_flag By) k) in L.
  split; [| split].
  - intros n Hn. rewrite L, Z.bits_0.
    two_sticks n; cbn [Z.of_nat stick_x stick_y axis_flag orb];
      [ change (Z.testbit STICK_0 0) with true;
        change (Z.testbit STICK_1 0) with false
      | change (Z.testbit STICK_0 (Z.pos (Pos.of_succ_nat 0))) with false;
        change (Z.testbit STICK_1 (Z.pos (Pos.of_succ_nat 0))) with true ];
      rewrite ?andb_true_r, ?andb_false_r, ?orb_false_r; reflexivity.
  - intros k Hk. rewrite L, Z.bits_0. cbn [axis_flag orb].
    assert (F0 : Z.testbit STICK_0 k = false)
      by (change STICK_0 with (2 ^ 0); apply Z.pow2_bits_false; lia).
    assert (F1 : Z.testbit STICK_1 k = false)
      by (change STICK_1 with (2 ^ 1); apply Z.pow2_bits_false; lia).
    rewrite F0, F1, !andb_false_r. reflexivity.
  - intros ax Hm. destruct (bit_set axes (axis_bit ax)) eqn:Hb;
      [reflexivity |].
    destruct (timing_loop_settled st ax _ _ _ T Hb) as [_ Hp].
    unfold pending in Hp. rewrite Hp in Hm. discriminate Hm.
Qed.

Lemma read_joystick_lost_witness :
  exists m lost st',
    read_joystick 15
      (timed_cycle 150 [(255, 20); (254, 30); (252, 182); (252, 190);
                        (240, 200)])
      documented_state
    = Some (m, lost, st')
    /\ Z.testbit lost 0 = true /\ Z.testbit lost 1 = false.
Proof.
  destruct (read_joystick 15
              (timed_cycle 150 [(255, 20); (254, 30); (252, 182); (252, 190);
                                (240, 200)])
              documented_state) as [[[m lost] st'] |] eqn:E.
  - exists m, lost, st'. split; [reflexivity |].
    destruct (read_joystick_lost _ _ _ _ _ _ E) as (L & _ & _).
    split.
    + change 0 with (Z.of_nat 0).
      rewrite (L 0%nat (Nat.lt_0_succ 1)). vm_compute. reflexivity.
    + change 1 with (Z.of_nat 1).
      rewrite (L 1%nat (Nat.lt_succ_diag_r 1)). vm_compute. reflexivity.
  - exfalso. vm_compute in E. discriminate E.
Defined.

(** ** What get_av_stick_pos leaves alone *)

(** X26: [get_av_stick_pos] writes, in the store, cached timings only, and
    for a stick outside the mask nothing at all: that stick keeps its
    cached timings too, and its elements of the four arrays passed by
    pointer are what they were on entry. *)
Theorem get_av_stick_pos_selected (sticks : Z) (o : av_out) (bias : Z)
    (cs : list cycle) (st : state) (o' : av_out) (st' : state)
    (cs' : list cycle) (j : nat) :
  get_av_stick_pos sticks o bias cs st = Some (o', st', cs') ->
  (j < 2)%nat ->
  (forall v, v <> x_axis -> v <> y_axis -> rd st' v j = rd st v j)
  /\ (forall f, set_arrays st' f = set_arrays st f)
  /\ (stick_selected sticks j = false ->
      (forall v, rd st' v j = rd st v j)
      /\ get (x_array o') j = get (x_array o) j
      /\ get (y_array o') j = get (y_array o) j
      /\ get (x_jitdist o') j = get (x_jitdist o) j
      /\ get (y_jitdist o') j = get (y_jitdist o) j).
Proof.
  intros H Hj.
  destruct (get_av_stick_pos_frame _ _ _ _ _ _ _ _ H) as [F1 F2].
  split; [intros v; apply F1 | split; [exact F2 |]].
  apply (get_av_stick_pos_stick _ _ _ _ _ _ _ _ _ H Hj).
Qed.

Lemma get_av_stick_pos_selected_witness :
  exists o' st' cs',
    get_av_stick_pos 1
      (mkOut (mkArr 1 2) (mkArr 3 4) (mkArr 5 6) (mkArr 7 8)) 0
      (steady_cycles 40) connected_state
    = Some (o', st', cs')
    /\ get (x_array o') 1 = 2 /\ get (y_jitdist o') 1 = 8
    /\ rd st' x_axis 1 = rd connected_state x_axis 1.
Proof.
  destruct (get_av_stick_pos 1
              (mkOut (mkArr 1 2) (mkArr 3 4) (mkArr 5 6) (mkArr 7 8)) 0
              (steady_cycles 40) connected_state)
    as [[[o' st'] cs'] |] eqn:E.
  - exists o', st', cs'. split; [reflexivity |].
    destruct (get_av_stick_pos_selected _ _ _ _ _ _ _ _ 1 E
                (Nat.lt_succ_diag_r 1)) as (_ & _ & U).
    destruct (U eq_refl) as (U1 & U2 & _ & _ & U5).
    split; [exact U2 | split; [exact U5 | apply U1]].
  - exfalso. vm_compute in E. discriminate E.
Defined.

(** ** The small helpers *)

(** X27: the [absdiff] macro gives the distance between two
    [unsigned int]s without wrapping around, whichever is the larger; and
    [update_min_max] leaves in the element of the stick the smaller of the
    old minimum and the reading, and the larger of the old maximum and the
    reading, and the other element of each array as it was. *)
Theorem absdiff_update_min_max (x y : Z) (axis jit_min jit_max : arr)
    (n m : nat) :
  in_u32 x -> in_u32 y -> (n < 2)%nat -> m <> n ->
  absdiff x y = Z.abs (x - y)
  /\ get (fst (update_min_max axis jit_min jit_max n)) n
     = Z.min (get axis n) (get jit_min n)
  /\ get (snd (update_min_max axis jit_min jit_max n)) n
     = Z.max (get axis n) (get jit_max n)
  /\ get (fst (update_min_max axis jit_min jit_max n)) m = get jit_min m
  /\ get (snd (update_min_max axis jit_min jit_max n)) m = get jit_max m.
Proof.
  intros Hx Hy Hn Hm. unfold in_u32 in *. split; [| split; [| split; [| split]]].
  - unfold absdiff. destruct (Z.gtb_spec x y).
    + rewrite usub_exact by lia. lia.
    + rewrite usub_exact by lia. lia.
  - unfold update_min_max. cbn [fst].
    destruct (Z.ltb_spec (get axis n) (get jit_min n)).
    + rewrite get_set_same by exact Hn. lia.
    + lia.
  - unfold update_min_max. cbn [snd].
    destruct (Z.gtb_spec (get axis n) (get jit_max n)).
    + rewrite get_set_same by exact Hn. lia.
    + lia.
  - unfold update_min_max. cbn [fst].
    destruct (_ <? _); [apply get_set_other; congruence | reflexivity].
  - unfold update_min_max. cbn [snd].
    destruct (_ >? _); [apply get_set_other; congruence | reflexivity].
Qed.

Lemma absdiff_update_min_max_witness :
  absdiff 700 4294967295 = 4294966595
  /\ get (fst (update_min_max (mkArr 690 0) (mkArr 2000 5) (mkArr 0 9) 0)) 0
     = 690.
Proof.
  pose proof modulus_eq as M.
  destruct (absdiff_update_min_max 700 4294967295 (mkArr 690 0)
              (mkArr 2000 5) (mkArr 0 9) 0 1) as (A & B & _);
    [unfold in_u32; lia | unfold in_u32; lia | lia | lia |].
  split; [rewrite A; reflexivity | rewrite B; reflexivity].
Defined.

(** ** Full deflection *)

Lemma deflection_core (D : Z) :
  0 < D <= 2 ^ 14 ->
  let s := safedivide (Z.shiftl 32768 SCALER_FRAC_SHIFT) D in
  127 <= scaled s D (SCALER_FRAC_SHIFT + 8) <= 128
  /\ 32767 <= scaled s D SCALER_FRAC_SHIFT <= 32768.
Proof.
  intros HD s. subst s. pose proof modulus_eq as M. unfold safedivide.
  rewrite s32_id by lia.
  destruct (Z.eqb_spec D 0) as [E | _]; [lia | cbn [negb]].
  unfold udiv. rewrite !u32_id by (rewrite M; cbn; lia).
  change (Z.shiftl 32768 SCALER_FRAC_SHIFT) with 536870912.
  pose proof (Z.div_mod 536870912 D ltac:(lia)) as E.
  pose proof (Z.mod_pos_bound 536870912 D ltac:(lia)) as B.
  assert (P : 536870912 - D < 536870912 / D * D <= 536870912) by lia.
  rewrite !scaled_exact by (unfold SCALER_FRAC_SHIFT; lia).
  unfold SCALER_FRAC_SHIFT.
  change (2 ^ (14 + 8)) with 4194304. change (2 ^ 14) with 16384 in *.
  split; apply div_between; lia.
Qed.

Lemma full_high (s lo hi top : Z) :
  0 <= lo <= hi -> hi < top -> top < modulus -> top - hi <= 2 ^ 14 ->
  s = safedivide (Z.shiftl 32768 SCALER_FRAC_SHIFT) (usub top hi) ->
  127 <= s32 (scaled s (usub top hi) (SCALER_FRAC_SHIFT + 8)) <= 128
  /\ s32 (uneg (scaled s (usub top hi) (SCALER_FRAC_SHIFT + 8))) <= -127
  /\ 65534 <= s32 (uadd 32767 (scaled s (usub top hi) SCALER_FRAC_SHIFT))
  /\ s32 (usub 32767 (scaled s (usub top hi) SCALER_FRAC_SHIFT)) <= 0.
Proof.
  intros Hlo Hhi Ht HD ->. rewrite usub_exact by lia.
  destruct (deflection_core (top - hi) ltac:(lia)) as [A B].
  cbv zeta in A, B.
  rewrite s32_id, s32_uneg, s32_uadd, s32_usub by lia. lia.
Qed.

(** X28: full deflection reaches the end of the range.  With the derived
    values up to date, a cached timing at the upper end of the calibrated
    range (the maximum less the end dead zone), up to 2^14 ticks above the
    centre dead zone, reads as 127 at 8 bits and as 65534 or 65535 at 16
    bits on the X axis, and as -127 and 0 on the Y axis; a timing at the
    lower end (the minimum plus the end dead zone) reads as -127 and 0 on
    the X axis, and as 127 and 65534 or 65535 on the Y axis. *)
Theorem full_deflection (st : state) (i : nat) :
  (i < 2)%nat -> coherent_stick st i ->
  (let top := usub (rd st x_max i) (end_dz st x_end_deadz i) in
   rd st x_ctr_low i <= rd st x_ctr_high i < top ->
   top - rd st x_ctr_high i <= 2 ^ 14 ->
   read8_x (wr st x_axis i top) i = 127
   /\ 65534 <= read16_x (wr st x_axis i top) i)
  /\ (let bottom := uadd (rd st x_min i) (end_dz st x_end_deadz i) in
      bottom < rd st x_ctr_low i -> rd st x_ctr_low i - bottom <= 2 ^ 14 ->
      read8_x (wr st x_axis i bottom) i = -127
      /\ read16_x (wr st x_axis i bottom) i = 0)
  /\ (let top := usub (rd st y_max i) (end_dz st y_end_deadz i) in
      rd st y_ctr_low i <= rd st y_ctr_high i < top ->
      top - rd st y_ctr_high i <= 2 ^ 14 ->
      read8_y (wr st y_axis i top) i = -127
      /\ read16_y (wr st y_axis i top) i = 0)
  /\ (let bottom := uadd (rd st y_min i) (end_dz st y_end_deadz i) in
      bottom < rd st y_ctr_low i -> rd st y_ctr_low i - bottom <= 2 ^ 14 ->
      read8_y (wr st y_axis i bottom) i = 127
      /\ 65534 <= read16_y (wr st y_axis i bottom) i).
Proof.
  intros Hi Hc. pose proof modulus_eq as M.
  pose proof (Hc x_ctr_low eq_refl) as Exl.
  pose proof (Hc x_ctr_high eq_refl) as Exh.
  pose proof (Hc y_ctr_low eq_refl) as Eyl.
  pose proof (Hc y_ctr_high eq_refl) as Eyh.
  pose proof (Hc x_low_scaler eq_refl) as Sxl.
  pose proof (Hc x_high_scaler eq_refl) as Sxh.
  pose proof (Hc y_low_scaler eq_refl) as Syl.
  pose proof (Hc y_high_scaler eq_refl) as Syh.
  cbn [coefficient] in Exl, Exh, Eyl, Eyh, Sxl, Sxh, Syl, Syh.
  rewrite <- Exl in Sxl. rewrite <- Exh in Sxh.
  rewrite <- Eyl in Syl. rewrite <- Eyh in Syh.
  assert (Rxl : 0 <= rd st x_ctr_low i < modulus)
    by (rewrite Exl; apply u32_range).
  assert (Rxh : 0 <= rd st x_ctr_high i < modulus)
    by (rewrite Exh; apply u32_range).
  assert (Ryl : 0 <= rd st y_ctr_low i < modulus)
    by (rewrite Eyl; apply u32_range).
  assert (Ryh : 0 <= rd st y_ctr_high i < modulus)
    by (rewrite Eyh; apply u32_range).
  split; [| split; [| split]].
  - intros top Ho HD.
    pose proof (u32_range (rd st x_max i - end_dz st x_end_deadz i)) as Rt.
    fold (usub (rd st x_max i) (end_dz st x_end_deadz i)) in Rt.
    fold top in Rt.
    destruct (full_high _ (rd st x_ctr_low i) (rd st x_ctr_high i) top
                ltac:(lia) ltac:(lia) ltac:(lia) HD Sxh) as (A & _ & C & _).
    unfold read8_x, read16_x. rewrite !rd_wr_same by exact Hi. other_array.
    destruct (Z.gtb_spec top (rd st x_ctr_low i)); [| lia].
    destruct (Z.ltb_spec top (rd st x_ctr_high i)); [lia |].
    unfold clamp. split.
    + destruct (Z.ltb_spec (s32 (scaled (rd st x_high_scaler i)
                                   (usub top (rd st x_ctr_high i))
                                   (SCALER_FRAC_SHIFT + 8))) (-127));
        [lia |].
      destruct (Z.gtb_spec (s32 (scaled (rd st x_high_scaler i)
                                   (usub top (rd st x_ctr_high i))
                                   (SCALER_FRAC_SHIFT + 8))) 127); lia.
    + destruct (Z.ltb_spec (s32 (uadd 32767
                                   (scaled (rd st x_high_scaler i)
                                      (usub top (rd st x_ctr_high i))
                                      SCALER_FRAC_SHIFT))) 0); [lia |].
      destruct (Z.gtb_spec (s32 (uadd 32767
                                   (scaled (rd st x_high_scaler i)
                                      (usub top (rd st x_ctr_high i))
                                      SCALER_FRAC_SHIFT))) 65535); lia.
  - intros bottom Ho HD.
    pose proof (u32_range (rd st x_min i + end_dz st x_end_deadz i)) as Rb.
    fold (uadd (rd st x_min i) (end_dz st x_end_deadz i)) in Rb.
    fold bottom in Rb.
    destruct (full_high _ 0 bottom (rd st x_ctr_low i)
                ltac:(lia) ltac:(lia) ltac:(lia) HD Sxl) as (_ & B & _ & D).
    unfold read8_x, read16_x. rewrite !rd_wr_same by exact Hi. other_array.
    destruct (Z.gtb_spec bottom (rd st x_ctr_low i)); [lia |].
    unfold clamp. split.
    + destruct (Z.ltb_spec (s32 (uneg (scaled (rd st x_low_scaler i)
                                         (usub (rd st x_ctr_low i) bottom)
                                         (SCALER_FRAC_SHIFT + 8)))) (-127));
        [reflexivity |].
      destruct (Z.gtb_spec (s32 (uneg (scaled (rd st x_low_scaler i)
                                         (usub (rd st x_ctr_low i) bottom)
                                         (SCALER_FRAC_SHIFT + 8)))) 127);
        lia.
    + destruct (Z.ltb_spec (s32 (usub 32767
                                   (scaled (rd st x_low_scaler i)
                                      (usub (rd st x_ctr_low i) bottom)
                                      SCALER_FRAC_SHIFT))) 0);
        [reflexivity |].
      destruct (Z.gtb_spec (s32 (usub 32767
                                   (scaled (rd st x_low_scaler i)
                                      (usub (rd st x_ctr_low i) bottom)
                                      SCALER_FRAC_SHIFT))) 65535); lia.
  - intros top Ho HD.
    pose proof (u32_range (rd st y_max i - end_dz st y_end_deadz i)) as Rt.
    fold (usub (rd st y_max i) (end_dz st y_end_deadz i)) in Rt.
    fold top in Rt.
    destruct (full_high _ (rd st y_ctr_low i) (rd st y_ctr_high i) top
                ltac:(lia) ltac:(lia) ltac:(lia) HD Syh) as (_ & B & _ & D).
    unfold read8_y, read16_y. rewrite !rd_wr_same by exact Hi. other_array.
    destruct (Z.gtb_spec top (rd st y_ctr_low i)); [| lia].
    destruct (Z.ltb_spec top (rd st y_ctr_high i)); [lia |].
    unfold clamp. split.
    + destruct (Z.ltb_spec (s32 (uneg (scaled (rd st y_high_scaler i)
                                         (usub top (rd st y_ctr_high i))
                                         (SCALER_FRAC_SHIFT + 8)))) (-127));
        [reflexivity |].
      destruct (Z.gtb_spec (s32 (uneg (scaled (rd st y_high_scaler i)
                                         (usub top (rd st y_ctr_high i))
                                         (SCALER_FRAC_SHIFT + 8)))) 127);
        lia.
    + destruct (Z.ltb_spec (s32 (usub 32767
                                   (scaled (rd st y_high_scaler i)
                                      (usub top (rd st y_ctr_high i))
                                      SCALER_FRAC_SHIFT))) 0);
        [reflexivity |].
      destruct (Z.gtb_spec (s32 (usub 32767
                                   (scaled (rd st y_high_scaler i)
                                      (usub top (rd st y_ctr_high i))
                                      SCALER_FRAC_SHIFT))) 65535); lia.
  - intros bottom Ho HD.
    pose proof (u32_range (rd st y_min i + end_dz st y_end_deadz i)) as Rb.
    fold (uadd (rd st y_min i) (end_dz st y_end_deadz i)) in Rb.
    fold bottom in Rb.
    destruct (full_high _ 0 bottom (rd st y_ctr_low i)
                ltac:(lia) ltac:(lia) ltac:(lia) HD Syl) as (A & _ & C & _).
    unfold read8_y, read16_y. rewrite !rd_wr_same by exact Hi. other_array.
    destruct (Z.gtb_spec bottom (rd st y_ctr_low i)); [lia |].
    unfold clamp. split.
    + destruct (Z.ltb_spec (s32 (scaled (rd st y_low_scaler i)
                                   (usub (rd st y_ctr_low i) bottom)
                                   (SCALER_FRAC_SHIFT + 8))) (-127));
        [lia |].
      destruct (Z.gtb_spec (s32 (scaled (rd st y_low_scaler i)
                                   (usub (rd st y_ctr_low i) bottom)
                                   (SCALER_FRAC_SHIFT + 8))) 127); lia.
    + destruct (Z.ltb_spec (s32 (uadd 32767
                                   (scaled (rd st y_low_scaler i)
                                      (usub (rd st y_ctr_low i) bottom)
                                      SCALER_FRAC_SHIFT))) 0); [lia |].
      destruct (Z.gtb_spec (s32 (uadd 32767
                                   (scaled (rd st y_low_scaler i)
                                      (usub (rd st y_ctr_low i) bottom)
                                      SCALER_FRAC_SHIFT))) 65535); lia.
Qed.

Lemma full_deflection_witness :
  (read8_x (wr documented_state x_axis 0 1406) 0 = 127
   /\ 65534 <= read16_x (wr documented_state x_axis 0 1406) 0)
  /\ (read8_y (wr documented_state y_axis 0 0) 0 = 127
      /\ 65534 <= read16_y (wr documented_state y_axis 0 0) 0).
Proof.
  assert (H : coherent_stick documented_state 0)
    by (intros a Ha; destruct a; try discriminate Ha; vm_compute;
        reflexivity).
  destruct (full_deflection documented_state 0 (Nat.lt_0_succ 1) H)
    as (A & _ & _ & D).
  split.
  - apply A; [change (655 <= 751 < 1406) | change (1406 - 751 <= 2 ^ 14)];
      lia.
  - apply D; [change (0 < 799) | change (799 - 0 <= 2 ^ 14)]; lia.
Defined.

(** ** The first read *)

Lemma centre_zone_reads (st : state) (i : nat) :
  (rd st x_ctr_low i <= rd st x_axis i <= rd st x_ctr_high i ->
   read8_x st i = 0 /\ read16_x st i = 32767)
  /\ (rd st y_ctr_low i <= rd st y_axis i <= rd st y_ctr_high i ->
      read8_y st i = 0 /\ read16_y st i = 32767).
Proof.
  split; intros [Hl Hh]; unfold read8_x, read16_x, read8_y, read16_y.
  - destruct (Z.gtb_spec (rd st x_axis i) (rd st x_ctr_low i)).
    + destruct (Z.ltb_spec (rd st x_axis i) (rd st x_ctr_high i));
        [split; reflexivity |].
      replace (rd st x_axis i) with (rd st x_ctr_high i) by lia.
      rewrite usub_diag, !scaled_zero. split; reflexivity.
    + replace (rd st x_axis i) with (rd st x_ctr_low i) by lia.
      rewrite usub_diag, !scaled_zero. split; reflexivity.
  - destruct (Z.gtb_spec (rd st y_axis i) (rd st y_ctr_low i)).
    + destruct (Z.ltb_spec (rd st y_axis i) (rd st y_ctr_high i));
        [split; reflexivity |].
      replace (rd st y_axis i) with (rd st y_ctr_high i) by lia.
      rewrite usub_diag, !scaled_zero. split; reflexivity.
    + replace (rd st y_axis i) with (rd st y_ctr_low i) by lia.
      rewrite usub_diag, !scaled_zero. split; reflexivity.
Qed.

(** The fields of r0 on exit from the Joystick_Read that starts the
    polling: the conversions of the store with the cached timings back at
    the centre values. *)
Lemma Read_fields_when_idle (n : nat) (env : environment) (st : state) :
  (n < 2)%nat -> calib_status st = CALIB_NONE -> polling_stick st = false ->
  CallEvery env = None ->
  let st' := for_sticks reseed_stick
               (set_polling_stick (set_swi_in_last_min st true) true) in
  Read_x8 (Z.of_nat n) env st = Some (read8_x st' n)
  /\ Read_y8 (Z.of_nat n) env st = Some (read8_y st' n)
  /\ Read_x16 (Z.of_nat n) env st = Some (read16_x st' n)
  /\ Read_y16 (Z.of_nat n) env st = Some (read16_y st' n).
Proof.
  intros Hn Hc Hp Hce st'.
  unfold Read_x8, Read_y8, Read_x16, Read_y16, Read_field.
  rewrite !swihandler_Read. unfold swi_Joystick_Read.
  rewrite Hc. cbn [CALIB_NONE Z.eqb negb polling_stick set_swi_in_last_min].
  rewrite Hp, Hce. cbn [negb]. fold st'. clearbody st'.
  assert (E8 : r0 (mkRegs (Z.lor (Z.shiftl 0 8) (Z.of_nat n)) 0)
               = Z.of_nat n) by reflexivity.
  assert (E16 : r0 (mkRegs (Z.lor (Z.shiftl 1 8) (Z.of_nat n)) 0)
                = 256 + Z.of_nat n) by (two_sticks n; reflexivity).
  destruct (read_result_8 _ (game_port env) st' n Hn E8) as (A & B & C).
  destruct (read_result_16 _ (game_port env) st' n Hn E16)
    as (A' & B' & C').
  destruct (read_result (mkRegs (Z.lor (Z.shiftl 0 8) (Z.of_nat n)) 0)
              (game_port env) st') as [e r].
  destruct (read_result (mkRegs (Z.lor (Z.shiftl 1 8) (Z.of_nat n)) 0)
              (game_port env) st') as [e' r'].
  cbn [fst snd] in *. subst e e'. rewrite B, C, B', C'.
  repeat split; reflexivity.
Qed.

(** X29: the first read finds the stick at the centre.  When the polling
    is off, the calibration complete and the derived values up to date, a
    Joystick_Read that starts the polling returns 0 for both coordinates
    at 8 bits and 0x7fff at 16 bits, for a stick whose centre dead zone
    does not wrap around (it is no larger than the centre value); the
    timings measured before the polling stopped play no part. *)
Theorem first_read_centred (n : nat) (env : environment) (st : state) :
  (n < 2)%nat -> calib_status st = CALIB_NONE -> polling_stick st = false ->
  CallEvery env = None -> coherent_stick st n ->
  0 <= ctr_dz st x_ctr_deadz n <= rd st x_ctr n ->
  rd st x_ctr n + ctr_dz st x_ctr_deadz n < modulus ->
  0 <= ctr_dz st y_ctr_deadz n <= rd st y_ctr n ->
  rd st y_ctr n + ctr_dz st y_ctr_deadz n < modulus ->
  Read_x8 (Z.of_nat n) env st = Some 0
  /\ Read_y8 (Z.of_nat n) env st = Some 0
  /\ Read_x16 (Z.of_nat n) env st = Some 32767
  /\ Read_y16 (Z.of_nat n) env st = Some 32767.
Proof.
  intros Hn Hc Hp Hce Hco Hx Hx' Hy Hy'.
  destruct (Read_fields_when_idle n env st Hn Hc Hp Hce) as (A & B & C & D).
  cbv zeta in A, B, C, D. rewrite A, B, C, D. clear A B C D.
  set (st' := for_sticks reseed_stick
                (set_polling_stick (set_swi_in_last_min st true) true)).
  assert (R : forall v,
            rd st' v n
            = match v with
              | x_axis => u32 (s32 (rd st x_ctr n))
              | y_axis => u32 (s32 (rd st y_ctr n))
              | _ => rd st v n
              end).
  { intros v. unfold st'. rewrite reseed_rd by exact Hn.
    destruct v; reflexivity. }
  pose proof (Hco x_ctr_low eq_refl) as Exl.
  pose proof (Hco x_ctr_high eq_refl) as Exh.
  pose proof (Hco y_ctr_low eq_refl) as Eyl.
  pose proof (Hco y_ctr_high eq_refl) as Eyh.
  cbn [coefficient] in Exl, Exh, Eyl, Eyh.
  rewrite usub_exact in Exl, Eyl by lia.
  unfold uadd in Exh, Eyh. rewrite u32_id in Exh, Eyh by lia.
  destruct (centre_zone_reads st' n) as [Zx Zy].
  rewrite !R in Zx, Zy. rewrite !u32_s32, !u32_id in Zx, Zy by lia.
  destruct Zx as [-> ->]; [lia |]. destruct Zy as [-> ->]; [lia |].
  repeat split; reflexivity.
Qed.

Lemma first_read_centred_witness :
  Read_x8 0 quiet idle_state = Some 0
  /\ Read_y16 0 quiet idle_state = Some 32767.
Proof.
  assert (H : coherent_stick idle_state 0)
    by (intros a Ha; destruct a; try discriminate Ha; vm_compute;
        reflexivity).
  pose proof modulus_eq as M.
  destruct (first_read_centred 0 quiet idle_state (Nat.lt_0_succ 1)
              eq_refl eq_refl eq_refl H) as (A & _ & _ & D);
    [change (0 <= 48 <= 703) | change (703 + 48 < modulus)
     | change (0 <= 48 <= 847) | change (847 + 48 < modulus) |]; try lia.
  split; [exact A | exact D].
Defined.

(** ** What the commands leave alone *)






